(* ===== verification/_CoqProject ===== *)
-Q . S2P
Prelude.v
PyStr.v
Fs.v
Extract.v
Prompt.v
Agent.v
Run.v
Config.v
IciciParser.v
TestSuite.v
