(* ===== verification/Prelude.v ===== *)
(** * A verification development of the bank-statement parser agent

    The program (src/) is an agent that writes a Python parser for a
    bank's PDF statements.  [BankStatementParserAgent] in src/agent.py
    runs a LangGraph graph of four nodes, plan -> generate_code ->
    run_tests -> self_fix -> generate_code ..., over a dictionary state
    [AgentState].  The generation node reads the reference CSV, asks the
    language model for code with a fixed prompt, extracts the code block
    of the reply ([_extract_code]) and writes it to
    custom_parsers/<bank>_parser.py; the test node runs pytest on
    src/test_parser.py and records its exit status and output; the fix
    node counts the attempt; [_should_test] and [_should_continue_fixing]
    route.  src/config.py holds the constants and the directory set-up
    ([get_bank_paths], [validate_setup], [create_directories]);
    src/custom_parsers/icici_parser.py is the parser the agent produced
    for ICICI, which the test suite loads.

    Files, in dependency order:
    - Prelude.v (this file): Python text as [list ascii], exceptions
      ([exc], [result]), the state-and-exception monad [stm] in which
      effects before a raise are kept, [try]/[except] combinators, the
      [for] loop [py_for], notations in [py_scope], the hint databases
      [py] and [py_rw] and the tactic [py_simpl].
    - PyStr.v, Module [PyStr]: the [str] methods the sources call
      ([strip], [split], [join], [replace], [startswith], [in]) as
      CPython defines them, with the library lemmas the components
      use: the round trip of [split] and [join], [replace] as a split
      and a join, and a characterisation of [strip].
    - Fs.v, Module [Fs]: the file system as a [gmap] from absolute paths
      to directories and files, [os.mkdir], writing a file, [os.makedirs]
      and [pathlib.Path.mkdir] as CPython's library writes them, and the
      [pathlib] join [path_div]; the invariant [fs_wf] (the parent of
      every entry is a directory) is kept by every operation, and
      lemmas give the closed form of the store [os.makedirs] and
      [Path.mkdir] leave, for the theorems of Agent.v and Config.v.
    - Extract.v, Module [Extract]: [_extract_code] (agent.py 164-168).
    - Prompt.v, Module [Prompt]: the generation prompt (agent.py 98-111).
    - Agent.v, Module [Agent]: [AgentState] as a record, the model and
      pytest as interfaces ([GenAI], [TestProcess], type classes indexed
      by the number of earlier calls, so that every theorem holds for any
      model and any test outcome), the four nodes as [stm] computations
      on a world of files, call counters and the trace of calls, the
      compiled graph as [next_node], [workflow.invoke] as [graph_run]
      with a bound on node executions, the step relation [step] with its
      invariant [inv] proved by rule induction, and the plain retry loop
      [agent_loop] the graph refines.
    - Run.v, Module [Run]: the public entry of agent.py: the settings
      [__init__] passes to the model ([agent_init]), [run] as the lines it
      prints (events [out_line]) and the exception that escapes, with
      [workflow.invoke] as [invoke], [graph_run] with the line each node
      prints on entry ([invoke_outcome]: printing changes no outcome),
      executing at most LangGraph's [recursion_limit] of 25 nodes, and
      [main] once its two arguments are read; the
      precondition [ready] on the working directory (the CSV readable,
      the parser's place writable) and its decision procedure [readyb].
    - Config.v, Module [Config]: src/config.py, including
      [validate_environment] with its messages and the [__main__] block
      ([config_main]) as the lines it prints ([cfg_line]; lines holding
      an emoji are named events), the store it leaves and the exception
      [create_directories] may raise.
    - IciciParser.v, Module [IciciParser]: the committed parser, with
      Python's [float()] as an interface ([PyFloat]) and a decimal
      instance for the examples.
    - TestSuite.v, Module [TestSuite]: src/test_parser.py as pytest runs
      it, pandas and the loaded module as interfaces, and the
      [TestProcess] it gives the agent.

    What the theorems show:
    - the agent: [invoke_refines_loop] (the graph implements the retry
      loop), [invoke_terminates] (any bound of at least
      [3 * max(1, max_attempts)] node executions reaches [END]),
      [invoke_attempt_bounds], [invoke_success_sound] (success only
      right after a pytest run with status 0), [invoke_code_on_disk],
      the error path of a missing CSV ([invoke_csv_error_escapes]), the
      no-code path ([no_code_ends_run]), the feedback of a failed run
      ([failed_run_feeds_next_prompt]); the scenarios of the spec are
      kept as evaluated examples, not as theorems;
    - the entry [run]: liveness ([run_eventually_succeeds]: with a model
      that always answers with code, a pytest run that passes within the
      attempt bound and a ready directory, [run] prints, line for line,
      the planning line, the cycles of generation, testing and fixing,
      and the success line, and raises nothing), proved in a Section
      whose hypotheses are the model and the test process; with tests
      that fail exactly [k] times first, the lines of exactly [k] cycles
      ([run_fails_then_passes]); and the error
      path [run_hits_recursion_limit]: with tests that always fail and
      [max_attempts >= 9], [GraphRecursionError] escapes after the lines
      of eight cycles and before any summary is printed; with
      [max_attempts <= 8] the same run prints every cycle and the
      failure report with the output of the last failing run
      ([run_reports_failure]); a first reply without code ends the run
      with the failure report of attempt 1 and no retry
      ([run_no_code_reports_failure]);
    - extraction and prompt: what [_extract_code] returns on a fenced
      block and that it never raises; that a tag after "```python" on
      the opening line is kept as the start of the code
      ([extract_code_keeps_tag]); and that every prompt names exactly
      the column list the contract test checks
      ([prompt_matches_contract_columns], in TestSuite.v);
    - the test suite: it always tests the ICICI parser
      ([test_targets_icici_only]); a missing parser file makes pytest exit
      with status 0 and the agent record success
      ([missing_parser_passes]); composed with the agent's [run], for
      every bank other than ICICI, success is printed after one cycle
      for a parser no test ran ([run_other_bank_false_success]); what
      status 0 guarantees
      ([exit0_sound]); when the committed parser passes the contract test,
      and the exact message it fails with when no row converts
      ([committed_parser_no_rows]);
    - the parser: [parse] equals a reference reading over the data rows
      ([parse_spec]), its columns, error paths and amount conversion,
      the type of its records ([parse_records_typed]: stripped text and
      amounts read from trimmed comma-free text), that the first row
      of every table never affects the result ([parse_ignores_first_row])
      and that a row whose amounts do not convert is skipped with one
      message, wherever it sits ([parse_skips_failing_row]);
    - the configuration: [create_directories] makes every directory
      [validate_setup] checks, only adds directories, is idempotent, and
      stops at the first configured directory that is a file, having
      made exactly the directories before it; [python
      config.py] prints its validation before it creates the
      directories, so a first run warns about the directories it then
      makes and a second run does not ([config_main_warns_then_creates]).

    Bounds and fuel: [graph_run] takes a count of node executions; the
    measure [3 r + k] of a configuration, [r] the attempts left and [k]
    the position in the cycle, decreases at every step, so
    [3 * max(1, max_attempts)] executions always suffice, and
    [all_failing_run_needs_27_nodes] shows the bound is reached.
    [Run.run] gives [graph_run] LangGraph's default recursion limit, 25
    node executions: a run needs [3 * max(1, max_attempts)] at most, so
    every run with [max_attempts <= 8] ends within it (the liveness
    theorem asks [3 * max(1, max_attempts) <= 25]), and one with tests
    that keep failing and [max_attempts >= 9] does not.  Attempt
    counters are unbounded integers ([Z]) as in Python.

    Not modelled: the language model and pdfplumber themselves (inputs
    or interfaces), pytest beyond the outcomes of the two tests and its
    exit status, pandas beyond reading a CSV header and the frame
    comparisons of the tests (interfaces), the text pytest prints (a
    parameter), the [add_messages] reducer of LangGraph (the node appends
    to the list itself), the timeout of the subprocess (a raised
    exception of the interface), [argparse]'s parsing and error exits
    ([main] starts from the parsed arguments: argparse is a library
    that lines 196-199 only configure), the effect of
    [genai.configure] and of the safety settings on the service, and
    the report pytest prints (pytest's own text, a parameter of
    [pytest_process]); the messages of the tests are modelled as text,
    the lines agent.py, config.py and the committed parser print as
    events. *)

From stdpp Require Import base list strings gmap fin_maps.
From Stdlib Require Import Ascii ZArith Lia.

(** ** Python text

    A Python [str] is modelled as a list of ASCII characters ([pystr]);
    the programs only manipulate ASCII text.  Literals of the source are
    written [lit "..."]. *)

Abbreviation pystr := (list ascii).

Definition lit (s : string) : pystr := String.list_ascii_of_string s.

Definition newline : pystr := [ascii_of_nat 10].

(** Python truthiness of a [str]: the empty string is falsy. *)
Definition str_truthy (s : pystr) : bool :=
  match s with [] => false | _ => true end.

(** Python truthiness of an [Optional[str]]: [None] and [""] are falsy. *)
Definition opt_truthy (o : option pystr) : bool :=
  match o with Some s => str_truthy s | None => false end.

(** Python truthiness of a list: only [[]] is falsy. *)
Definition list_truthy {A} (l : list A) : bool := match l with [] => false | _ => true end.

(** ** Python exceptions and the result monad *)

Inductive exc_kind :=
  | ValueError
  | IndexError
  | FileNotFoundError
  | FileExistsError
  | NotADirectoryError
  | IsADirectoryError
  | EmptyDataError
  | TimeoutExpired
  | OtherException.

#[export] Instance exc_kind_eq_dec : EqDecision exc_kind.
Proof. solve_decision. Defined.

(** An exception carries its class and the text [str(e)] renders. *)
Record exc := mk_exc { exc_class : exc_kind; exc_msg : pystr }.

#[export] Instance exc_eq_dec : EqDecision exc.
Proof. solve_decision. Defined.

(** A computation that returns normally or raises. *)
Inductive result (A : Type) :=
  | Ok (a : A)
  | Raise (e : exc).
Arguments Ok {A} a.
Arguments Raise {A} e.

#[export] Instance result_ret : MRet result := fun A a => Ok a.
#[export] Instance result_bind : MBind result :=
  fun A B f m => match m with Ok a => f a | Raise e => Raise e end.
#[export] Instance result_fmap : FMap result :=
  fun A B f m => match m with Ok a => Ok (f a) | Raise e => Raise e end.

(** [try: c except handler]: the handler sees every exception. *)
Definition py_try {A} (c : result A) (handler : exc -> result A) : result A :=
  match c with Ok a => Ok a | Raise e => handler e end.

(** [try: c except K: handler]: only exceptions of class [K] are caught. *)
Definition py_try_only {A} (k : exc_kind) (c : result A)
    (handler : exc -> result A) : result A :=
  match c with
  | Ok a => Ok a
  | Raise e => if decide (exc_class e = k) then handler e else Raise e
  end.

Definition is_ok {A} (r : result A) : bool :=
  match r with Ok _ => true | Raise _ => false end.

(** Python list indexing [l[i]] for a non-negative index. *)
Definition py_index {A} (l : list A) (i : nat) : result A :=
  match l !! i with
  | Some x => Ok x
  | None => Raise (mk_exc IndexError (lit "list index out of range"))
  end.

(** ** Stateful Python code

    [stm S A] threads a store [S] through code that may raise; as in
    Python, effects performed before an exception are kept. *)
Definition stm (S A : Type) : Type := S -> S * result A.

#[export] Instance stm_ret {S} : MRet (stm S) := fun A a s => (s, Ok a).
#[export] Instance stm_bind {S} : MBind (stm S) :=
  fun A B f c s =>
    match c s with
    | (s', Ok a) => f a s'
    | (s', Raise e) => (s', Raise e)
    end.

Definition stm_get {S} : stm S S := fun s => (s, Ok s).
Definition stm_put {S} (s : S) : stm S unit := fun _ => (s, Ok tt).
Definition stm_raise {S A} (e : exc) : stm S A := fun s => (s, Raise e).
Definition stm_lift {S A} (r : result A) : stm S A := fun s => (s, r).

(** An atomic system call: it either fails with no effect or succeeds. *)
Definition stm_sys {S} (f : S -> result S) : stm S unit :=
  fun s => match f s with Ok s' => (s', Ok tt) | Raise e => (s, Raise e) end.

(** [try: c except Exception as e: h e], the handler running in the
    store left by the failed [c]. *)
Definition stm_try {S A} (c : stm S A) (h : exc -> stm S A) : stm S A :=
  fun s => match c s with
           | (s', Ok a) => (s', Ok a)
           | (s', Raise e) => h e s'
           end.

(** [try: c except K: h e]. *)
Definition stm_try_only {S A} (k : exc_kind) (c : stm S A) (h : exc -> stm S A) : stm S A :=
  stm_try c (fun e => if decide (exc_class e = k) then h e else stm_raise e).

(** [for x in l: body(x)]: the iterations in order, stopping at the
    first exception. *)
Fixpoint py_for {S A} (l : list A) (body : A -> stm S unit) : stm S unit :=
  match l with
  | [] => mret tt
  | x :: l' => body x ;; py_for l' body
  end.

Declare Scope py_scope.
Delimit Scope py_scope with py.
Notation "'try:' c 'except' e '=>' h" := (py_try c (fun e => h))
  (at level 10, c at level 100, e name, h at level 200) : py_scope.
Notation "s1 '+p+' s2" := (@app ascii s1 s2)
  (at level 60, right associativity, only parsing) : py_scope.

(** ** Shared lemmas *)

Section ResultLemmas.
Context {A B : Type}.

Lemma bind_Ok (a : A) (f : A -> result B) : (Ok a ≫= f) = f a.
Proof. reflexivity. Qed.

Lemma bind_Raise (e : exc) (f : A -> result B) : (Raise e ≫= f) = Raise e.
Proof. reflexivity. Qed.

Lemma bind_eq_Ok (m : result A) (f : A -> result B) (b : B) :
  (m ≫= f) = Ok b -> exists a, m = Ok a /\ f a = Ok b.
Proof. destruct m; simpl; [eauto | discriminate]. Qed.

Lemma py_try_Ok (a : A) (h : exc -> result A) : py_try (Ok a) h = Ok a.
Proof. reflexivity. Qed.

Lemma py_try_Raise (e : exc) (h : exc -> result A) : py_try (Raise e) h = h e.
Proof. reflexivity. Qed.

Lemma py_index_lt (l : list A) i : i < length l -> exists x, py_index l i = Ok x /\ l !! i = Some x.
Proof.
  intros Hi. unfold py_index. destruct (lookup_lt_is_Some_2 l i Hi) as [x Hx].
  rewrite Hx. eauto.
Qed.
End ResultLemmas.

Section StmLemmas.
Context {S A B : Type}.

Lemma stm_bind_run (c : stm S A) (f : A -> stm S B) s :
  (c ≫= f) s = match c s with (s', Ok a) => f a s' | (s', Raise e) => (s', Raise e) end.
Proof. reflexivity. Qed.

Lemma stm_bind_ok (c : stm S A) (f : A -> stm S B) s s' a :
  c s = (s', Ok a) -> (c ≫= f) s = f a s'.
Proof. intros H. unfold mbind, stm_bind. by rewrite H. Qed.

Lemma stm_bind_raise (c : stm S A) (f : A -> stm S B) s s' e :
  c s = (s', Raise e) -> (c ≫= f) s = (s', Raise e).
Proof. intros H. unfold mbind, stm_bind. by rewrite H. Qed.

Lemma stm_try_ok (c : stm S A) h s s' a : c s = (s', Ok a) -> stm_try c h s = (s', Ok a).
Proof. intros H. unfold stm_try. by rewrite H. Qed.

Lemma stm_try_raise (c : stm S A) h s s' e : c s = (s', Raise e) -> stm_try c h s = h e s'.
Proof. intros H. unfold stm_try. by rewrite H. Qed.
End StmLemmas.

(** A loop that runs [l1] normally and raises at [x] raises there,
    whatever follows. *)
Lemma py_for_app_raise {S A} (body : A -> stm S unit) l1 x l2 s s1 s2 e :
  py_for l1 body s = (s1, Ok tt) -> body x s1 = (s2, Raise e) ->
  py_for (l1 ++ x :: l2) body s = (s2, Raise e).
Proof.
  revert s. induction l1 as [|y l1 IH]; intros s H1 Hx; cbn [app py_for] in *.
  - cbv [mret stm_ret] in H1. simplify_eq. by apply stm_bind_raise.
  - destruct (body y s) as [s' [[]|e']] eqn:Hy.
    + rewrite (stm_bind_ok _ _ s s' tt Hy) in H1. rewrite (stm_bind_ok _ _ s s' tt Hy). by apply IH.
    + by rewrite (stm_bind_raise _ _ s s' e' Hy) in H1.
Qed.

Lemma str_truthy_true (s : pystr) : str_truthy s = true <-> s <> [].
Proof. destruct s; simpl; split; congruence. Qed.

Lemma lit_app (s1 s2 : string) : lit (s1 +:+ s2) = lit s1 ++ lit s2.
Proof. unfold lit. induction s1; simpl; [done | by rewrite IHs1]. Qed.

Lemma flat_map_concat {A B} (f : A -> list B) (ls : list (list A)) :
  flat_map f (concat ls) = concat (map (flat_map f) ls).
Proof. induction ls as [|l ls IH]; [done|]. simpl. by rewrite flat_map_app, IH. Qed.

Create HintDb py discriminated.
Create Rewrite HintDb py_rw.
#[export] Hint Rewrite @bind_Ok @bind_Raise @py_try_Ok @py_try_Raise : py_rw.
#[export] Hint Resolve <- str_truthy_true : py.

(** [py_simpl] normalises binds and [try] blocks on known results. *)
Ltac py_simpl := repeat (autorewrite with py_rw in *; simpl in *).
