(* ===== verification/PyStr.v ===== *)
(** * Python string operations used by the agent and the parser

    [str.strip], [sub in s], [str.split(sep)], [sep.join(parts)] and
    [str.replace(old, new)] as CPython defines them on ASCII text, with
    their specifications: split/join round trip, the leftmost-occurrence
    characterisation of [split], and the shape of [strip]. *)

From stdpp Require Import base list strings.
From Stdlib Require Import Ascii Lia DecimalString.
From S2P Require Import Prelude.

Module PyStr.

(** [str.isspace] on one ASCII character: CPython's whitespace set is
    \t \n \x0b \x0c \r, the separators \x1c to \x1f, and the space. *)
Definition is_space (c : ascii) : bool :=
  let n := nat_of_ascii c in
  ((9 <=? n) && (n <=? 13)) || ((28 <=? n) && (n <=? 32)).

Fixpoint lstrip (s : pystr) : pystr :=
  match s with
  | [] => []
  | c :: t => if is_space c then lstrip t else s
  end.

Fixpoint rstrip (s : pystr) : pystr :=
  match s with
  | [] => []
  | c :: t =>
      match rstrip t with
      | [] => if is_space c then [] else [c]
      | r => c :: r
      end
  end.

(** [s.strip()]. *)
Definition strip (s : pystr) : pystr := rstrip (lstrip s).

(** [s.startswith(p)]. *)
Fixpoint startswith (p s : pystr) : bool :=
  match p, s with
  | [], _ => true
  | c :: p', d :: s' => bool_decide (c = d) && startswith p' s'
  | _ :: _, [] => false
  end.

(** [sub in s]. *)
Fixpoint contains (sub s : pystr) : bool :=
  startswith sub s ||
  match s with [] => false | _ :: t => contains sub t end.

Definition cons_head (c : ascii) (parts : list pystr) : list pystr :=
  match parts with
  | [] => [[c]]
  | p :: ps => (c :: p) :: ps
  end.

(** The scan of [s.split(sep)]: [skip] counts the characters of a matched
    separator still to be consumed, so that occurrences do not overlap. *)
Fixpoint split_go (sep : pystr) (skip : nat) (s : pystr) : list pystr :=
  match s with
  | [] => [[]]
  | c :: t =>
      match skip with
      | S k => split_go sep k t
      | O => if startswith sep s then [] :: split_go sep (pred (length sep)) t
             else cons_head c (split_go sep 0 t)
      end
  end.

(** [s.split(sep)] for a non-empty [sep] (every call site passes a
    non-empty literal; CPython raises [ValueError] on an empty one). *)
Definition split (sep s : pystr) : list pystr := split_go sep 0 s.

(** [sep.join(parts)]. *)
Fixpoint join (sep : pystr) (parts : list pystr) : pystr :=
  match parts with
  | [] => []
  | [p] => p
  | p :: ps => p ++ sep ++ join sep ps
  end.

(** [s.replace(old, new)] for a non-empty [old]: the same left-to-right,
    non-overlapping scan as [split], emitting [new] for each match. *)
Fixpoint replace_go (old new : pystr) (skip : nat) (s : pystr) : pystr :=
  match s with
  | [] => []
  | c :: t =>
      match skip with
      | S k => replace_go old new k t
      | O => if startswith old s then new ++ replace_go old new (pred (length old)) t
             else c :: replace_go old new 0 t
      end
  end.

Definition replace (old new s : pystr) : pystr := replace_go old new 0 s.

(** ** [repr] and [str] of the values the tests print *)

(** One lowercase hexadecimal digit. *)
Definition hex_digit (n : nat) : ascii :=
  if n <? 10 then ascii_of_nat (48 + n) else ascii_of_nat (87 + n).

(** One character inside [repr(s)] quoted by [q]: the backslash and the
    quote are escaped, tab, newline and carriage return by their letter,
    the other control characters as [\xhh]. *)
Definition repr_char (q c : ascii) : pystr :=
  let n := nat_of_ascii c in
  if (n =? 92) || bool_decide (c = q) then [ascii_of_nat 92; c]
  else if n =? 9 then [ascii_of_nat 92; "t"%char]
  else if n =? 10 then [ascii_of_nat 92; "n"%char]
  else if n =? 13 then [ascii_of_nat 92; "r"%char]
  else if (n <? 32) || (n =? 127) then
    [ascii_of_nat 92; "x"%char; hex_digit (n / 16); hex_digit (n mod 16)]
  else [c].

(** [repr(s)]: single quotes, or double quotes when [s] holds a single
    quote and no double quote. *)
Definition repr_str (s : pystr) : pystr :=
  let sq := ascii_of_nat 39 in
  let dq := ascii_of_nat 34 in
  let q := if bool_decide (sq ∈ s) && negb (bool_decide (dq ∈ s)) then dq else sq in
  q :: flat_map (repr_char q) s ++ [q].

(** [repr] (and [str]) of a list of strings. *)
Definition repr_list (l : list pystr) : pystr :=
  lit "[" ++ join (lit ", ") (map repr_str l) ++ lit "]".

(** [str(n)] of a natural number. *)
Definition str_nat (n : nat) : pystr := lit (NilEmpty.string_of_uint (Nat.to_uint n)).

(** [str((a, b))] of a pair of integers, as a DataFrame's [shape]. *)
Definition repr_pair (p : nat * nat) : pystr :=
  lit "(" ++ str_nat (fst p) ++ lit ", " ++ str_nat (snd p) ++ lit ")".

(** Boolean shapes used by the [strip] specification. *)
Definition all_space (s : pystr) : bool := forallb is_space s.

Definition trimmed (s : pystr) : bool :=
  match s, last s with
  | c :: _, Some d => negb (is_space c) && negb (is_space d)
  | _, _ => true
  end.

(** ** Lemmas on [startswith] and [contains] *)

Lemma startswith_app (p s : pystr) : startswith p (p ++ s) = true.
Proof. induction p; simpl; [done|]. rewrite IHp. by case_bool_decide. Qed.

Lemma startswith_app_r (p x y : pystr) :
  length p <= length x -> startswith p (x ++ y) = startswith p x.
Proof.
  revert x. induction p as [|c p IH]; intros [|d x] Hl; simpl in *; [done | done | lia |].
  rewrite IH; [done | lia].
Qed.

Lemma startswith_spec (p s : pystr) :
  startswith p s = true <-> exists r, s = p ++ r.
Proof.
  revert s. induction p as [|c p IH]; intros [|d s]; simpl.
  - split; eauto.
  - split; eauto.
  - split; [discriminate | intros [r Hr]; discriminate].
  - rewrite andb_true_iff, bool_decide_eq_true, IH.
    split; [intros [-> [r ->]]; eauto | intros [r Hr]; injection Hr as -> ->; eauto].
Qed.

Lemma contains_cons (sub : pystr) c t :
  contains sub (c :: t) = startswith sub (c :: t) || contains sub t.
Proof. reflexivity. Qed.

Lemma contains_app_l (sub x y : pystr) :
  contains sub x = true -> contains sub (x ++ y) = true.
Proof.
  intros H. induction x as [|c x IH]; simpl in *.
  - destruct sub; [by destruct y | discriminate].
  - apply orb_true_iff in H as [H|H].
    + apply startswith_spec in H as [r Hr]. apply orb_true_iff. left.
      apply startswith_spec. exists (r ++ y). rewrite (app_comm_cons x y c), Hr. by rewrite app_assoc.
    + rewrite IH by done. by rewrite orb_true_r.
Qed.

Lemma contains_app_r (sub x y : pystr) :
  contains sub y = true -> contains sub (x ++ y) = true.
Proof. intros H. induction x as [|c x IH]; simpl; [done|]. by rewrite IH, orb_true_r. Qed.

Lemma contains_startswith (sub s : pystr) : startswith sub s = true -> contains sub s = true.
Proof. destruct s; simpl; intros ->; done. Qed.

Lemma contains_self (sub z : pystr) : contains sub (sub ++ z) = true.
Proof. apply contains_startswith, startswith_app. Qed.

(** ** [split] and [join] *)

Lemma split_go_drop sep k s : split_go sep k s = split_go sep 0 (drop k s).
Proof.
  revert k. induction s as [|c t IH]; intros [|k]; simpl; try done.
Qed.

Lemma split_cons sep c t :
  sep <> [] ->
  split sep (c :: t) =
  if startswith sep (c :: t) then [] :: split sep (drop (length sep) (c :: t))
  else cons_head c (split sep t).
Proof.
  intros Hsep. unfold split. simpl. destruct (startswith sep (c :: t)); [|done].
  destruct sep as [|d sep]; [done|]. simpl. by rewrite split_go_drop.
Qed.

Lemma split_not_nil sep s : split sep s <> [].
Proof.
  unfold split. revert s. assert (forall k s, split_go sep k s <> []) as H; [|done].
  intros k s. revert k. induction s as [|c t IH]; intros [|k]; simpl; try done.
  destruct (startswith sep (c :: t)); [done|]. specialize (IH 0).
  destruct (split_go sep 0 t); done.
Qed.

Lemma join_cons_head sep c parts :
  parts <> [] -> join sep (cons_head c parts) = c :: join sep parts.
Proof. destruct parts as [|p [|q ps]]; done. Qed.

Lemma join_nil_cons sep parts :
  parts <> [] -> join sep ([] :: parts) = sep ++ join sep parts.
Proof. destruct parts; done. Qed.

(** Strong induction on the length of a string. *)
Lemma pystr_len_ind (P : pystr -> Prop) :
  (forall s, (forall s', length s' < length s -> P s') -> P s) -> forall s, P s.
Proof.
  intros H s. remember (length s) as n eqn:Hn. revert s Hn.
  induction n as [n IH] using lt_wf_ind. intros s ->. apply H.
  intros s' Hs'. by apply (IH (length s')).
Qed.

(** Round trip: joining the pieces of a split with the separator gives
    back the original string. *)
Lemma split_join sep s : sep <> [] -> join sep (split sep s) = s.
Proof.
  intros Hsep. induction s as [s IH] using pystr_len_ind.
  destruct s as [|c t]; [done|].
  rewrite split_cons by done. destruct (startswith sep (c :: t)) eqn:Hs.
  - apply startswith_spec in Hs as [r Hr]. rewrite Hr, drop_app_length.
    rewrite join_nil_cons by apply split_not_nil. rewrite IH; [done|].
    rewrite Hr, length_app. destruct sep; simpl; [done | lia].
  - rewrite join_cons_head by apply split_not_nil. rewrite IH; simpl; [done | lia].
Qed.

(** Without an occurrence of the separator, [split] returns the whole string. *)
Lemma split_nosep sep s : contains sep s = false -> split sep s = [s].
Proof.
  unfold split. induction s as [|c t IH]; simpl; [done|].
  intros [Hs Ht]%orb_false_iff. rewrite Hs, IH by done. done.
Qed.

(** Whether [sep] starts at a position before an occurrence of [sep]
    only depends on the text up to the last character of that occurrence. *)
Lemma startswith_before sep c pre post :
  sep <> [] ->
  startswith sep (c :: pre ++ sep ++ post) = startswith sep (c :: pre ++ removelast sep).
Proof.
  intros Hsep.
  assert (Heq : c :: pre ++ sep ++ post =
                (c :: pre ++ removelast sep) ++ (drop (pred (length sep)) sep ++ post)).
  { rewrite <- (take_drop (pred (length sep)) sep) at 1.
    rewrite removelast_firstn_len. simpl. by rewrite !app_assoc. }
  rewrite Heq, startswith_app_r; [done|].
  simpl. rewrite length_app, removelast_firstn_len, length_take. lia.
Qed.

Lemma startswith_app_inv p w z : startswith (p ++ w) z = true -> startswith p z = true.
Proof.
  rewrite !startswith_spec. intros [r ->]. exists (w ++ r). by rewrite app_assoc.
Qed.

Lemma contains_short sep x : length x < length sep -> contains sep x = false.
Proof.
  induction x as [|c x IH]; simpl; intros Hl.
  - destruct sep; simpl in *; [lia | done].
  - rewrite IH by lia. rewrite orb_false_r.
    destruct (startswith sep (c :: x)) eqn:Hs; [|done].
    apply startswith_spec in Hs as [r Hr]. apply (f_equal length) in Hr.
    rewrite length_app in Hr. simpl in *. lia.
Qed.

(** If [sep] has no occurrence starting inside [x], no separator that
    extends [sep] does either. *)
Lemma contains_ext_before sep w x y :
  sep <> [] -> contains sep (x ++ removelast sep) = false ->
  contains (sep ++ w) (x ++ sep ++ y) = contains (sep ++ w) (sep ++ y).
Proof.
  intros Hsep. induction x as [|c x IH]; simpl; [done|].
  intros [Hs Hx]%orb_false_iff. rewrite IH by done.
  destruct (startswith (sep ++ w) (c :: x ++ sep ++ y)) eqn:Hw; [|done].
  apply startswith_app_inv in Hw. rewrite startswith_before in Hw by done. congruence.
Qed.

(** The first piece ends at the leftmost occurrence of the separator:
    when [sep] does not occur in [pre ++ removelast sep] (no occurrence
    starting inside [pre]), splitting [pre ++ sep ++ post] yields [pre]
    followed by the pieces of [post]. *)
Lemma split_app sep pre post :
  sep <> [] -> contains sep (pre ++ removelast sep) = false ->
  split sep (pre ++ sep ++ post) = pre :: split sep post.
Proof.
  intros Hsep. induction pre as [|c pre IH]; simpl; intros Hno.
  - destruct sep as [|d sep']; [done|]. cbn [app]. rewrite split_cons by done.
    by rewrite app_comm_cons, startswith_app, drop_app_length.
  - apply orb_false_iff in Hno as [Hst Hno].
    rewrite split_cons, startswith_before, Hst by done. rewrite IH by done. done.
Qed.
Lemma replace_go_drop old new k s :
  replace_go old new k s = replace_go old new 0 (drop k s).
Proof. revert k. induction s as [|c t IH]; intros [|k]; simpl; done. Qed.

Lemma replace_cons old new c t :
  old <> [] ->
  replace old new (c :: t) =
  if startswith old (c :: t) then new ++ replace old new (drop (length old) (c :: t))
  else c :: replace old new t.
Proof.
  intros Hold. unfold replace. simpl. destruct (startswith old (c :: t)); [|done].
  destruct old as [|d old]; [done|]. simpl. by rewrite replace_go_drop.
Qed.

(** [s.replace(old, new)] is [new.join(s.split(old))]. *)
Lemma replace_join_split old new s :
  old <> [] -> replace old new s = join new (split old s).
Proof.
  intros Hold. induction s as [s IH] using pystr_len_ind.
  destruct s as [|c t]; [done|].
  rewrite replace_cons, split_cons by done. destruct (startswith old (c :: t)) eqn:Hs.
  - rewrite join_nil_cons by apply split_not_nil. rewrite IH; [done|].
    rewrite length_drop. destruct old; simpl; [done | lia].
  - rewrite join_cons_head by apply split_not_nil. rewrite IH; simpl; [done | lia].
Qed.

(** ** [strip] *)

Lemma lstrip_spaces ws s : all_space ws = true -> lstrip (ws ++ s) = lstrip s.
Proof.
  induction ws as [|c ws IH]; simpl; [done|].
  intros [-> Hws]%andb_true_iff. by apply IH.
Qed.

Lemma lstrip_nonspace c s : is_space c = false -> lstrip (c :: s) = c :: s.
Proof. simpl. by intros ->. Qed.

Lemma rstrip_spaces ws : all_space ws = true -> rstrip ws = [].
Proof.
  induction ws as [|c ws IH]; simpl; [done|].
  intros [Hc Hws]%andb_true_iff. rewrite IH, Hc by done. done.
Qed.

Lemma rstrip_app_spaces s ws : all_space ws = true -> rstrip (s ++ ws) = rstrip s.
Proof.
  intros Hws. induction s as [|c s IH]; simpl; [by apply rstrip_spaces|].
  by rewrite IH.
Qed.

Lemma rstrip_nonspace_last s c : is_space c = false -> rstrip (s ++ [c]) = s ++ [c].
Proof.
  intros Hc. induction s as [|d s IH]; simpl; [by rewrite Hc|].
  rewrite IH. by destruct s.
Qed.

Lemma lstrip_decomp s : exists ws, s = ws ++ lstrip s /\ all_space ws = true.
Proof.
  induction s as [|c s [ws [Hs Hws]]]; simpl; [exists []; done|].
  destruct (is_space c) eqn:Hc.
  - exists (c :: ws). simpl. rewrite Hc, Hws. split; [by f_equal | done].
  - exists []. done.
Qed.

Lemma lstrip_head s : match lstrip s with c :: _ => is_space c = false | [] => True end.
Proof.
  induction s as [|c s IH]; simpl; [done|]. destruct (is_space c) eqn:Hc; done.
Qed.

Lemma rstrip_decomp s : exists ws, s = rstrip s ++ ws /\ all_space ws = true.
Proof.
  induction s as [|c s [ws [Hs Hws]]]; simpl; [exists []; done|].
  destruct (rstrip s) as [|d r] eqn:Hr.
  - destruct (is_space c) eqn:Hc.
    + exists (c :: ws). simpl. rewrite Hc, Hws. split; [by f_equal | done].
    + exists ws. simpl. split; [by f_equal | done].
  - exists ws. split; [by rewrite Hs at 1 | done].
Qed.

Lemma rstrip_last s : match last (rstrip s) with Some c => is_space c = false | None => True end.
Proof.
  induction s as [|c s IH]; simpl; [done|].
  destruct (rstrip s) as [|d r] eqn:Hr.
  - destruct (is_space c) eqn:Hc; done.
  - by rewrite last_cons_cons.
Qed.

Lemma rstrip_cons_shape c t : rstrip (c :: t) = [] \/ exists r, rstrip (c :: t) = c :: r.
Proof. simpl. destruct (rstrip t); [destruct (is_space c)|]; eauto. Qed.

(** [strip] removes exactly the surrounding whitespace. *)
Lemma strip_shape ws1 core ws2 :
  all_space ws1 = true -> all_space ws2 = true -> trimmed core = true ->
  strip (ws1 ++ core ++ ws2) = core.
Proof.
  intros H1 H2 Hc. unfold strip. rewrite lstrip_spaces by done.
  destruct core as [|c r].
  - simpl. rewrite <- (app_nil_r ws2), lstrip_spaces by done. done.
  - unfold trimmed in Hc. destruct (last (c :: r)) as [d|] eqn:Hl; [|by apply last_None in Hl].
    apply andb_true_iff in Hc as [Hc Hd]. apply negb_true_iff in Hc, Hd.
    cbn [app]. rewrite lstrip_nonspace by done. rewrite app_comm_cons, rstrip_app_spaces by done.
    apply last_Some in Hl as [l' ->]. by apply rstrip_nonspace_last.
Qed.

Lemma strip_decomp s :
  exists ws1 ws2, s = ws1 ++ strip s ++ ws2 /\ all_space ws1 = true /\ all_space ws2 = true.
Proof.
  destruct (lstrip_decomp s) as [ws1 [E1 H1]]. destruct (rstrip_decomp (lstrip s)) as [ws2 [E2 H2]].
  exists ws1, ws2. unfold strip. rewrite <- E2. done.
Qed.

Lemma strip_trimmed s : trimmed (strip s) = true.
Proof.
  unfold strip, trimmed. pose proof (lstrip_head s) as Hh. pose proof (rstrip_last (lstrip s)) as Hl.
  destruct (lstrip s) as [|c t]; [done|].
  destruct (rstrip_cons_shape c t) as [E | [r E]]; rewrite E in *; [done|].
  destruct (last (c :: r)); [|done]. rewrite Hh, Hl. done.
Qed.

Lemma strip_idem s : strip (strip s) = strip s.
Proof. rewrite <- (app_nil_r (strip s)) at 1. apply (strip_shape [] (strip s) []); [done | done | apply strip_trimmed]. Qed.

(** [rstrip] of a concatenation strips the right part first. *)
Lemma rstrip_app t s :
  rstrip (t ++ s) = match rstrip s with [] => rstrip t | r => t ++ r end.
Proof.
  induction t as [|c t IH]; simpl; [by destruct (rstrip s)|].
  rewrite IH. destruct (rstrip s) as [|d r]; [done|]. by destruct t.
Qed.

(** Stripping never cuts into a leading text that has no surrounding
    blanks. *)
Lemma strip_keeps_prefix t s :
  t <> [] -> trimmed t = true -> exists rest, strip (t ++ s) = t ++ rest.
Proof.
  intros Hne Ht. destruct t as [|c t']; [done|].
  unfold trimmed in Ht. destruct (last (c :: t')) as [d|] eqn:Hl; [|by apply last_None in Hl].
  apply andb_true_iff in Ht as [Hc Hd]. apply negb_true_iff in Hc, Hd.
  unfold strip. rewrite <- app_comm_cons, lstrip_nonspace, app_comm_cons, rstrip_app by done.
  destruct (rstrip s) as [|e r]; [|eauto].
  exists []. rewrite app_nil_r. apply last_Some in Hl as [l' ->]. by apply rstrip_nonspace_last.
Qed.
(** [s.strip()] is the one trimmed middle of [s] between two runs of
    whitespace. *)
Lemma strip_iff s core :
  strip s = core <->
  exists ws1 ws2, s = ws1 ++ core ++ ws2 /\ all_space ws1 = true /\ all_space ws2 = true /\
                  trimmed core = true.
Proof.
  split.
  - intros <-. destruct (strip_decomp s) as (ws1 & ws2 & E & H1 & H2).
    exists ws1, ws2. split_and!; [done | done | done | apply strip_trimmed].
  - intros (ws1 & ws2 & -> & H1 & H2 & Hc). by apply strip_shape.
Qed.

(** Every string containing [sep] splits at a leftmost occurrence. *)
Lemma contains_first_occ sep s :
  sep <> [] -> contains sep s = true ->
  exists pre post, s = pre ++ sep ++ post /\ contains sep (pre ++ removelast sep) = false.
Proof.
  intros Hsep. induction s as [|c t IH]; simpl; intros Hc.
  - destruct sep; [done | discriminate].
  - destruct (startswith sep (c :: t)) eqn:Hs.
    + apply startswith_spec in Hs as [r Hr]. exists [], r. split; [done|].
      apply contains_short. simpl. rewrite removelast_firstn_len, length_take.
      destruct sep; simpl; [done | lia].
    + destruct (IH Hc) as (pre & post & -> & Hpre). exists (c :: pre), post.
      split; [done|]. simpl. rewrite <- startswith_before with (post := post) by done.
      by rewrite Hs, Hpre.
Qed.

Lemma split_contains_length sep s :
  sep <> [] -> contains sep s = true -> 2 <= length (split sep s).
Proof.
  intros Hsep Hc. destruct (contains_first_occ sep s Hsep Hc) as (pre & post & -> & Hpre).
  rewrite split_app by done. simpl. pose proof (split_not_nil sep post).
  destruct (split sep post); [done | simpl; lia].
Qed.
(** Removing one character: [s.replace(c, "")] keeps the other
    characters in order. *)
Lemma replace_char_nil c s : replace [c] [] s = filter (fun x => x <> c) s.
Proof.
  induction s as [|x t IH]; [done|]. rewrite replace_cons by done. simpl.
  rewrite andb_true_r, drop_0. destruct (decide (x = c)) as [->|Hne].
  - rewrite bool_decide_eq_true_2 by done. rewrite filter_cons_False by (intros Hc; by apply Hc). by rewrite IH.
  - rewrite bool_decide_eq_false_2, filter_cons_True by congruence. by rewrite IH.
Qed.

Lemma contains_refl s : contains s s = true.
Proof. rewrite <- (app_nil_r s) at 2. apply contains_self. Qed.

(** Finds [sub] as a piece of a concatenation. *)
Ltac contains_search :=
  first [ apply contains_refl
        | apply contains_app_l; contains_search
        | apply contains_app_r; contains_search ].

End PyStr.
