(* ===== verification/Fs.v ===== *)
(** * The file system the agent and the configuration touch

    A store of absolute, normalised paths (lists of components) to
    directories and text files, as a [gmap].  The system calls the sources
    reach ([os.mkdir], [open(p, 'w').write], [os.path.exists],
    [os.path.isdir]) are atomic: they fail with the errno CPython reports
    and no effect, or succeed.  [os.makedirs] (src/agent.py, line 118) and
    [pathlib.Path.mkdir] (src/config.py, lines 107 and 112) are written
    as CPython's library writes them, on top of [mkdir]. *)

From stdpp Require Import base list strings gmap fin_maps.
From Stdlib Require Import Ascii Lia.
From S2P Require Import Prelude PyStr.

Module Fs.

Abbreviation path := (list pystr).

Inductive node := Dir | File (content : pystr).

#[export] Instance node_eq_dec : EqDecision node.
Proof. solve_decision. Defined.

Abbreviation fs := (gmap path node).

(** [Path.parent] and [os.path.dirname]; the root is its own parent. *)
Definition parent (p : path) : path := removelast p.

(** [str(p)] of an absolute path. *)
Definition path_str (p : path) : pystr := lit "/" ++ PyStr.join (lit "/") p.

(** [p / s] for a [pathlib.Path] [p]: [s] is split at slashes, empty
    and "." parts are dropped, and an absolute [s] replaces [p]. *)
Definition path_div (p : path) (s : pystr) : path :=
  let parts := filter (fun c => str_truthy c = true /\ c <> lit ".") (PyStr.split (lit "/") s) in
  if PyStr.startswith (lit "/") s then parts else p ++ parts.

(** A name that [path_div] appends as one component. *)
Definition plain_component (s : pystr) : bool :=
  str_truthy s && negb (PyStr.contains (lit "/") s) && negb (bool_decide (s = lit ".")).

Definition os_error (k : exc_kind) (errno : string) (what : string) (p : path) : exc :=
  mk_exc k (lit "[Errno " ++ lit errno ++ lit "] " ++ lit what ++ lit ": '" ++ path_str p ++ lit "'").

Definition enoent p := os_error FileNotFoundError "2" "No such file or directory" p.
Definition eexist p := os_error FileExistsError "17" "File exists" p.
Definition enotdir p := os_error NotADirectoryError "20" "Not a directory" p.
Definition eisdir p := os_error IsADirectoryError "21" "Is a directory" p.

(** [os.path.exists] and [os.path.isdir]. *)
Definition exists_path (m : fs) (p : path) : bool := bool_decide (is_Some (m !! p)).
Definition is_dir (m : fs) (p : path) : bool := bool_decide (m !! p = Some Dir).

(** Path resolution of the directories leading to [full]: every prefix of
    [rest] below [acc] must be a directory. *)
Fixpoint resolve (m : fs) (acc rest full : path) : result unit :=
  match rest with
  | [] => Ok tt
  | c :: r =>
      match m !! (acc ++ [c]) with
      | Some Dir => resolve m (acc ++ [c]) r full
      | Some (File _) => Raise (enotdir full)
      | None => Raise (enoent full)
      end
  end.

Definition resolve_parent (m : fs) (p : path) : result unit := resolve m [] (parent p) p.

(** [os.mkdir(p)]. *)
Definition mkdir (m : fs) (p : path) : result fs :=
  _ ← resolve_parent m p;
  match m !! p with
  | Some _ => Raise (eexist p)
  | None => Ok (<[p := Dir]> m)
  end.

(** [open(p, 'w')] followed by [f.write(data)]: create or truncate. *)
Definition write_text (m : fs) (p : path) (data : pystr) : result fs :=
  _ ← resolve_parent m p;
  match m !! p with
  | Some Dir => Raise (eisdir p)
  | _ => Ok (<[p := File data]> m)
  end.

(** The shared handler [except OSError: if not exist_ok or not
    isdir(p): raise]. *)
Definition unless_dir (exist_ok : bool) (p : path) (e : exc) : stm fs unit :=
  m ← stm_get; if exist_ok && is_dir m p then mret tt else stm_raise e.

(** [os.makedirs(name, exist_ok=exist_ok)], on the reversed path [rp]:
    create the missing parent first (a [FileExistsError] from it is
    ignored), then [mkdir], and with [exist_ok] ignore a failure that
    leaves [name] a directory. *)
Fixpoint makedirs_rev (rp : path) (exist_ok : bool) : stm fs unit :=
  let name := rev rp in
  (match rp with
   | [] => mret tt
   | _ :: rhead =>
       m ← stm_get;
       if exists_path m (rev rhead) then mret tt
       else stm_try_only FileExistsError (makedirs_rev rhead exist_ok) (fun _ => mret tt)
   end) ;;
  stm_try (stm_sys (fun m => mkdir m name)) (unless_dir exist_ok name).

Definition makedirs (p : path) (exist_ok : bool) : stm fs unit := makedirs_rev (rev p) exist_ok.

(** [Path(p).mkdir(parents=parents, exist_ok=exist_ok)]: on
    [FileNotFoundError] create the parent with [parents=True,
    exist_ok=True] and retry without [parents]; on any other [OSError]
    succeed when [exist_ok] and [p] is a directory. *)
Definition path_mkdir_nop (p : path) (exist_ok : bool) : stm fs unit :=
  stm_try (stm_sys (fun m => mkdir m p))
    (fun e => if decide (exc_class e = FileNotFoundError) then stm_raise e
              else unless_dir exist_ok p e).

Fixpoint path_mkdir_rev (rp : path) (parents exist_ok : bool) : stm fs unit :=
  let p := rev rp in
  stm_try (stm_sys (fun m => mkdir m p))
    (fun e =>
       if decide (exc_class e = FileNotFoundError) then
         match rp with
         | [] => stm_raise e
         | _ :: rhead =>
             if parents then path_mkdir_rev rhead true true ;; path_mkdir_nop p exist_ok
             else stm_raise e
         end
       else unless_dir exist_ok p e).

Definition path_mkdir (p : path) (parents exist_ok : bool) : stm fs unit :=
  path_mkdir_rev (rev p) parents exist_ok.

(** No file lies on the way to [p] (nor at [p]). *)
Definition no_file_on (m : fs) (p : path) : Prop :=
  forall q d, q `prefix_of` p -> m !! q <> Some (File d).

(** The store after creating every missing directory of the reversed path. *)
Fixpoint set_dirs (rp : path) (m : fs) : fs :=
  match rp with
  | [] => m
  | _ :: rh => <[rev rp := Dir]> (set_dirs rh m)
  end.

(** Well-formed stores: the root is a directory and the parent of every
    other entry is a directory. *)
Definition fs_wf (m : fs) : Prop :=
  m !! [] = Some Dir /\ forall p n, m !! p = Some n -> p <> [] -> m !! parent p = Some Dir.

(** [m'] extends [m] by directories only: it is well formed, every
    directory of [m] is one of [m'], and every file of [m'] was in [m]. *)
Definition grows (m m' : fs) : Prop :=
  fs_wf m' /\ (forall q, m !! q = Some Dir -> m' !! q = Some Dir) /\
  (forall q d, m' !! q = Some (File d) -> m !! q = Some (File d)).

(** Both predicates, decided. *)
Definition fs_wfb (m : fs) : bool :=
  bool_decide (m !! [] = Some Dir) &&
  forallb (fun '(p, _) => bool_decide (p = []) || bool_decide (m !! parent p = Some Dir))
    (map_to_list m).

Definition no_file_onb (m : fs) (p : path) : bool :=
  forallb (fun i => match m !! take i p with Some (File _) => false | _ => true end)
    (seq 0 (S (length p))).

(** ** Lemmas on paths *)

Lemma parent_snoc (p : path) c : parent (p ++ [c]) = p.
Proof. apply removelast_last. Qed.

Lemma snoc_ne_nil (p : path) c : p ++ [c] <> [].
Proof. by destruct p. Qed.
#[local] Hint Resolve snoc_ne_nil : py.

Lemma prefix_snoc_inv (q p : path) c :
  q `prefix_of` p ++ [c] -> q = p ++ [c] \/ q `prefix_of` p.
Proof.
  intros [k Hk]. destruct k as [|d k _] using rev_ind.
  - left. by rewrite app_nil_r in Hk.
  - right. rewrite app_assoc in Hk. apply app_inj_tail in Hk as [-> _]. by exists k.
Qed.

(** ** Well-formed stores *)

Lemma wf_parent_dir m p n : fs_wf m -> m !! p = Some n -> m !! parent p = Some Dir.
Proof.
  intros [Hroot Hwf] Hp. destruct (decide (p = [])) as [->|Hne]; [done|]. by eapply Hwf.
Qed.

(** Every proper prefix of an entry is a directory. *)
Lemma wf_prefix_dir m p q :
  fs_wf m -> is_Some (m !! p) -> q `prefix_of` p -> q <> p -> m !! q = Some Dir.
Proof.
  intros Hwf. induction p as [|c p IH] using rev_ind; intros [n Hn] Hq Hne.
  - apply prefix_nil_inv in Hq. congruence.
  - pose proof (wf_parent_dir m _ n Hwf Hn) as Hp. rewrite parent_snoc in Hp.
    destruct (prefix_snoc_inv q p c Hq) as [->|Hq']; [done|].
    destruct (decide (q = p)) as [->|Hne']; [done|]. apply IH; eauto.
Qed.

Lemma wf_insert m p n :
  fs_wf m -> p <> [] -> m !! parent p = Some Dir ->
  (n = Dir \/ forall q n', m !! q = Some n' -> q <> [] -> parent q <> p) ->
  fs_wf (<[p := n]> m).
Proof.
  intros [Hroot Hwf] Hne Hpar Hn. split.
  - rewrite lookup_insert_ne; [done | congruence].
  - intros q n' Hq Hqne. destruct (decide (p = q)) as [<-|Hpq].
    + rewrite lookup_insert_ne; [done|]. intros Heq. destruct p; [done|].
      apply (f_equal length) in Heq. unfold parent in Heq.
      rewrite removelast_firstn_len, length_take in Heq. simpl in Heq. lia.
    + rewrite lookup_insert_ne in Hq by done.
      destruct (decide (p = parent q)) as [Hp|Hp].
      * rewrite <- Hp, lookup_insert_eq. destruct Hn as [->|Hn]; [done|].
        exfalso. by apply (Hn q n').
      * rewrite lookup_insert_ne by done. by eapply Hwf.
Qed.

(** ** Path resolution *)

Lemma resolve_ok m acc rest full :
  (forall q, q `prefix_of` rest -> q <> [] -> m !! (acc ++ q) = Some Dir) ->
  resolve m acc rest full = Ok tt.
Proof.
  revert acc. induction rest as [|c r IH]; intros acc H; simpl; [done|].
  rewrite (H [c]); [| by exists r | done].
  apply IH. intros q Hq Hqne. rewrite <- app_assoc. apply H; [|done].
  destruct Hq as [k ->]. by exists k.
Qed.

Lemma resolve_dir m acc rest full :
  resolve m acc rest full = Ok tt -> m !! acc = Some Dir -> m !! (acc ++ rest) = Some Dir.
Proof.
  revert acc. induction rest as [|c r IH]; intros acc; simpl.
  - by rewrite app_nil_r.
  - destruct (m !! (acc ++ [c])) as [[|d]|] eqn:Hc; try discriminate.
    intros Hr _. replace (acc ++ c :: r) with ((acc ++ [c]) ++ r) by (by rewrite <- app_assoc).
    apply IH; done.
Qed.

Lemma resolve_parent_ok m p :
  fs_wf m -> m !! parent p = Some Dir -> resolve_parent m p = Ok tt.
Proof.
  intros Hwf Hp. apply resolve_ok. intros q Hq _. simpl.
  destruct (decide (q = parent p)) as [->|Hne]; [done|].
  eapply wf_prefix_dir; eauto.
Qed.

Lemma resolve_parent_dir m p :
  fs_wf m -> resolve_parent m p = Ok tt -> m !! parent p = Some Dir.
Proof. intros [Hroot _] H. apply (resolve_dir m [] (parent p) p H Hroot). Qed.

Lemma resolve_parent_iff m p :
  fs_wf m -> resolve_parent m p = Ok tt <-> m !! parent p = Some Dir.
Proof. split; [by apply resolve_parent_dir | by apply resolve_parent_ok]. Qed.

(** ** [mkdir] and [write_text] *)

Lemma mkdir_Ok m p m' :
  fs_wf m -> mkdir m p = Ok m' <->
  m !! parent p = Some Dir /\ m !! p = None /\ m' = <[p := Dir]> m.
Proof.
  intros Hwf. unfold mkdir. rewrite <- resolve_parent_iff by done.
  destruct (resolve_parent m p) as [[]|e]; simpl.
  - destruct (m !! p); split; intros; naive_solver.
  - naive_solver.
Qed.

Lemma mkdir_wf m p m' : fs_wf m -> mkdir m p = Ok m' -> fs_wf m'.
Proof.
  intros Hwf H. apply mkdir_Ok in H as (Hpar & Hp & ->); [|done].
  apply wf_insert; [done | | done | by left]. intros ->. destruct Hwf. congruence.
Qed.

Lemma mkdir_existing m p n : fs_wf m -> m !! p = Some n -> mkdir m p = Raise (eexist p).
Proof.
  intros Hwf Hp. unfold mkdir. rewrite resolve_parent_ok by eauto using wf_parent_dir.
  simpl. by rewrite Hp.
Qed.

Lemma write_text_Ok m p d m' :
  fs_wf m -> write_text m p d = Ok m' <->
  m !! parent p = Some Dir /\ m !! p <> Some Dir /\ m' = <[p := File d]> m.
Proof.
  intros Hwf. unfold write_text. rewrite <- resolve_parent_iff by done.
  destruct (resolve_parent m p) as [[]|e]; simpl.
  - destruct (m !! p) as [[]|]; split; intros; naive_solver.
  - naive_solver.
Qed.

(** Writing a text file keeps the store well formed: the root is a directory and so is the parent of every entry. *)
Lemma write_text_wf m p d m' : fs_wf m -> write_text m p d = Ok m' -> fs_wf m'.
Proof.
  intros Hwf H. apply write_text_Ok in H as (Hpar & Hp & ->); [|done].
  destruct (decide (p = [])) as [->|Hne]; [destruct Hwf; congruence|].
  apply wf_insert; [done | done | done | right].
  intros q n' Hq Hqne <-. apply Hp. eapply wf_parent_dir; eauto.
Qed.
(** ** [os.makedirs] *)

Lemma unless_dir_true m p e : m !! p = Some Dir -> unless_dir true p e m = (m, Ok tt).
Proof.
  intros Hp. unfold unless_dir, is_dir. rewrite (stm_bind_ok _ _ m m m) by done.
  by rewrite bool_decide_eq_true_2.
Qed.

Lemma unless_dir_file m p e d : m !! p = Some (File d) -> unless_dir true p e m = (m, Raise e).
Proof.
  intros Hp. unfold unless_dir, is_dir. rewrite (stm_bind_ok _ _ m m m) by done.
  rewrite bool_decide_eq_false_2; [done | congruence].
Qed.

(** [mkdir] under a handler that accepts an existing directory: on a
    store where the parent is a directory and no file sits at [p], [p]
    is a directory afterwards. *)
Lemma mkdir_or_dir_h (m : fs) (p : path) (h : exc -> stm fs unit) :
  fs_wf m -> m !! parent p = Some Dir -> (forall d, m !! p <> Some (File d)) ->
  (m !! p = Some Dir -> h (eexist p) m = (m, Ok tt)) ->
  stm_try (stm_sys (fun m => mkdir m p)) h m = (<[p := Dir]> m, Ok tt).
Proof.
  intros Hwf Hpar Hnf Hh. destruct (m !! p) as [[|d]|] eqn:Hp.
  - rewrite (stm_try_raise _ _ m m (eexist p)); [by rewrite Hh, insert_id|].
    unfold stm_sys. by rewrite (mkdir_existing m p Dir).
  - by destruct (Hnf d).
  - apply stm_try_ok. unfold stm_sys. by rewrite (proj2 (mkdir_Ok m p (<[p := Dir]> m) Hwf)).
Qed.

Lemma mkdir_or_dir m p :
  fs_wf m -> m !! parent p = Some Dir -> (forall d, m !! p <> Some (File d)) ->
  stm_try (stm_sys (fun m => mkdir m p)) (unless_dir true p) m = (<[p := Dir]> m, Ok tt).
Proof. intros. apply mkdir_or_dir_h; [done.. | apply unless_dir_true]. Qed.

Lemma set_dirs_lookup rp m q :
  set_dirs rp m !! q = if decide (q `prefix_of` rev rp /\ q <> []) then Some Dir else m !! q.
Proof.
  induction rp as [|c rh IH]; simpl.
  - rewrite decide_False; [done|]. intros [Hq Hne]. by apply prefix_nil_inv in Hq.
  - destruct (decide (rev rh ++ [c] = q)) as [<-|Hne].
    + rewrite lookup_insert_eq, decide_True; [done|]. split; [done|]. apply snoc_ne_nil.
    + rewrite lookup_insert_ne, IH by done.
      destruct (decide (q `prefix_of` rev rh /\ q <> [])) as [[Hq Hq0]|Hq].
      * rewrite decide_True; [done|]. split; [|done]. destruct Hq as [k ->]. exists (k ++ [c]). by rewrite app_assoc.
      * rewrite decide_False; [done|]. intros [Hq' Hq0]. apply prefix_snoc_inv in Hq' as [->|Hq']; naive_solver.
Qed.

Lemma set_dirs_wf rp m : fs_wf m -> fs_wf (set_dirs rp m).
Proof.
  intros Hwf. induction rp as [|c rh IH]; simpl; [done|].
  apply wf_insert; [done | apply snoc_ne_nil | | by left].
  rewrite parent_snoc, set_dirs_lookup. destruct rh as [|d rh'].
  - rewrite decide_False; [by destruct Hwf | naive_solver].
  - rewrite decide_True; [done|]. split; [done|]. apply snoc_ne_nil.
Qed.

Lemma set_dirs_id rp m : (forall q, q `prefix_of` rev rp -> m !! q = Some Dir) -> set_dirs rp m = m.
Proof.
  induction rp as [|c rh IH]; intros H; simpl; [done|].
  rewrite IH.
  - apply insert_id. by apply H.
  - intros q [k Hk]. apply H. exists (k ++ [c]). simpl. by rewrite Hk, app_assoc.
Qed.

Lemma no_file_on_prefix m p q : no_file_on m p -> q `prefix_of` p -> no_file_on m q.
Proof. intros H Hq r d Hr. apply H. by transitivity q. Qed.

Lemma set_dirs_parent_dir rh c m : fs_wf m -> set_dirs rh m !! parent (rev rh ++ [c]) = Some Dir.
Proof.
  intros Hwf. rewrite parent_snoc, set_dirs_lookup. destruct rh as [|d rh'].
  - rewrite decide_False; [by destruct Hwf | naive_solver].
  - rewrite decide_True; [done|]. split; [done|]. apply snoc_ne_nil.
Qed.

Lemma set_dirs_no_file_at rh c m :
  no_file_on m (rev rh ++ [c]) -> forall d, set_dirs rh m !! (rev rh ++ [c]) <> Some (File d).
Proof.
  intros Hnf d. rewrite set_dirs_lookup, decide_False; [by apply Hnf|].
  intros [Hq _]. by apply prefix_snoc_not in Hq.
Qed.

(** [os.makedirs(p, exist_ok=True)] on a well-formed store with no file
    on the way succeeds and leaves every prefix of [p] a directory, and
    nothing else changed. *)
Lemma makedirs_rev_spec rp m :
  fs_wf m -> no_file_on m (rev rp) -> makedirs_rev rp true m = (set_dirs rp m, Ok tt).
Proof.
  revert m. induction rp as [|c rh IH]; intros m Hwf Hnf.
  - cbn [makedirs_rev rev]. rewrite (stm_bind_ok _ _ m m tt) by done.
    rewrite mkdir_or_dir; [| done | by destruct Hwf | intros d; by eapply Hnf].
    rewrite insert_id; [done | by destruct Hwf].
  - cbn [makedirs_rev]. rewrite (stm_bind_ok _ _ m (set_dirs rh m) tt).
    + simpl set_dirs. apply mkdir_or_dir;
        [by apply set_dirs_wf | by apply set_dirs_parent_dir | by apply set_dirs_no_file_at].
    + rewrite (stm_bind_ok _ _ m m m) by done.
      assert (Hnf' : no_file_on m (rev rh)).
      { apply (no_file_on_prefix m (rev (c :: rh))); [done|]. by exists [c]. }
      destruct (exists_path m (rev rh)) eqn:He.
      * rewrite set_dirs_id; [done|]. intros q Hq.
        apply bool_decide_eq_true in He as [n Hn].
        destruct (decide (q = rev rh)) as [->|Hne].
        { destruct n as [|d]; [done|]. by destruct (Hnf' (rev rh) d). }
        eapply wf_prefix_dir; eauto.
      * unfold stm_try_only. by rewrite (stm_try_ok _ _ m (set_dirs rh m) tt) by (by apply IH).
Qed.

(** [os.makedirs(p, exist_ok=True)] on a well-formed store with no file on the way to [p] succeeds and adds exactly the missing prefixes of [p] as directories. *)
Theorem makedirs_spec p m :
  fs_wf m -> no_file_on m p -> makedirs p true m = (set_dirs (rev p) m, Ok tt).
Proof. intros. unfold makedirs. apply makedirs_rev_spec; [done|]. by rewrite rev_involutive. Qed.
(** ** [pathlib] *)

Lemma path_div_plain p s : plain_component s = true -> path_div p s = p ++ [s].
Proof.
  unfold plain_component. rewrite !andb_true_iff, !negb_true_iff. intros [[Hne Hsl] Hdot].
  unfold path_div. rewrite PyStr.split_nosep by done.
  destruct (PyStr.startswith (lit "/") s) eqn:Hst; [apply PyStr.contains_startswith in Hst; congruence|].
  rewrite filter_cons_True; [done|]. split; [done|]. intros ->. done.
Qed.

Lemma parent_prefix p : parent p `prefix_of` p.
Proof. destruct p as [|c p _] using rev_ind; [done|]. rewrite parent_snoc. by exists [c]. Qed.

(** Resolution through a store with no file on the way fails only with
    [FileNotFoundError]. *)
Lemma resolve_no_file m acc rest full :
  (forall q d, q `prefix_of` rest -> m !! (acc ++ q) <> Some (File d)) ->
  resolve m acc rest full = Ok tt \/ resolve m acc rest full = Raise (enoent full).
Proof.
  revert acc. induction rest as [|c r IH]; intros acc H; simpl; [by left|].
  destruct (m !! (acc ++ [c])) as [[|d]|] eqn:Hc; [| | by right].
  - apply IH. intros q d Hq. rewrite <- app_assoc. apply H. destruct Hq as [k ->]. by exists k.
  - exfalso. by apply (H [c] d); [exists r|].
Qed.

Lemma mkdir_enoent m p :
  fs_wf m -> no_file_on m p -> m !! parent p <> Some Dir -> mkdir m p = Raise (enoent p).
Proof.
  intros Hwf Hnf Hpar. unfold mkdir.
  destruct (resolve_no_file m [] (parent p) p) as [Hr|Hr].
  - intros q d Hq. apply Hnf. by transitivity (parent p); [|apply parent_prefix].
  - exfalso. by apply Hpar, resolve_parent_dir.
  - unfold resolve_parent. by rewrite Hr.
Qed.

(** ** [pathlib.Path.mkdir] *)

(** [Path(p).mkdir(parents=True, exist_ok=True)] does what
    [os.makedirs(p, exist_ok=True)] does. *)
Lemma path_mkdir_rev_spec rp m :
  fs_wf m -> no_file_on m (rev rp) -> path_mkdir_rev rp true true m = (set_dirs rp m, Ok tt).
Proof.
  revert m. induction rp as [|c rh IH]; intros m Hwf Hnf.
  - cbn [path_mkdir_rev rev]. rewrite (stm_try_raise _ _ m m (eexist [])).
    + rewrite decide_False by discriminate. apply unless_dir_true. by destruct Hwf.
    + unfold stm_sys. by rewrite (mkdir_existing m [] Dir); [| | destruct Hwf].
  - cbn [path_mkdir_rev rev]. destruct (decide (m !! rev rh = Some Dir)) as [Hpar|Hpar].
    + rewrite mkdir_or_dir_h; [| done | by rewrite parent_snoc | intros d; by apply Hnf |].
      * simpl. rewrite set_dirs_id; [done|]. intros q Hq.
        destruct (decide (q = rev rh)) as [->|Hne]; [done|]. eapply wf_prefix_dir; eauto.
      * intros Hp. rewrite decide_False by discriminate. by apply unless_dir_true.
    + rewrite (stm_try_raise _ _ m m (enoent (rev rh ++ [c]))).
      2:{ unfold stm_sys. by rewrite mkdir_enoent; [| | | rewrite parent_snoc]. }
      rewrite decide_True by done.
      rewrite (stm_bind_ok _ _ m (set_dirs rh m) tt).
      2:{ apply IH; [done|]. apply (no_file_on_prefix m (rev (c :: rh))); [done|]. by exists [c]. }
      unfold path_mkdir_nop. simpl set_dirs. apply mkdir_or_dir_h.
      * by apply set_dirs_wf.
      * by apply set_dirs_parent_dir.
      * by apply set_dirs_no_file_at.
      * intros Hp. rewrite decide_False by discriminate. by apply unless_dir_true.
Qed.

Lemma path_mkdir_spec p m :
  fs_wf m -> no_file_on m p -> path_mkdir p true true m = (set_dirs (rev p) m, Ok tt).
Proof. intros. unfold path_mkdir. apply path_mkdir_rev_spec; [done|]. by rewrite rev_involutive. Qed.

(** [Path(p / c).mkdir(exist_ok=True)] under an existing directory [p]. *)
Lemma path_mkdir_child p c m parents :
  fs_wf m -> m !! p = Some Dir -> (forall d, m !! (p ++ [c]) <> Some (File d)) ->
  path_mkdir (p ++ [c]) parents true m = (<[p ++ [c] := Dir]> m, Ok tt).
Proof.
  intros Hwf Hp Hnf. unfold path_mkdir. rewrite rev_unit. cbn [path_mkdir_rev rev].
  rewrite rev_involutive. apply mkdir_or_dir_h; [done | by rewrite parent_snoc | done |].
  intros Hd. rewrite decide_False by discriminate. by apply unless_dir_true.
Qed.

(** A file in the way: [mkdir(exist_ok=True)] raises [FileExistsError]
    and changes nothing. *)
Lemma path_mkdir_file p c d m parents :
  fs_wf m -> m !! (p ++ [c]) = Some (File d) ->
  path_mkdir (p ++ [c]) parents true m = (m, Raise (eexist (p ++ [c]))).
Proof.
  intros Hwf Hp. unfold path_mkdir. rewrite rev_unit. cbn [path_mkdir_rev rev].
  rewrite rev_involutive, (stm_try_raise _ _ m m (eexist (p ++ [c]))).
  - rewrite decide_False by discriminate. by eapply unless_dir_file.
  - unfold stm_sys. by rewrite (mkdir_existing m _ (File d)).
Qed.

(** ** Stores that only gain directories *)

Lemma grows_refl m : fs_wf m -> grows m m.
Proof. done. Qed.

Lemma grows_trans m1 m2 m3 : grows m1 m2 -> grows m2 m3 -> grows m1 m3.
Proof. intros (_ & D1 & F1) (W & D2 & F2). split_and!; auto. Qed.

Lemma grows_set_dirs rp m : fs_wf m -> grows m (set_dirs rp m).
Proof.
  intros Hwf. split_and!; [by apply set_dirs_wf | |]; intros q; rewrite set_dirs_lookup;
    case_decide; naive_solver.
Qed.

Lemma grows_insert_dir m p :
  fs_wf (<[p := Dir]> m) -> (forall d, m !! p <> Some (File d)) -> grows m (<[p := Dir]> m).
Proof.
  intros Hwf Hnf. split_and!; [done | |]; intros q; destruct (decide (p = q)) as [<-|Hne];
    rewrite ?lookup_insert_eq, ?lookup_insert_ne by done; naive_solver.
Qed.

Lemma grows_insert_child m p c :
  fs_wf m -> m !! p = Some Dir -> (forall d, m !! (p ++ [c]) <> Some (File d)) ->
  grows m (<[p ++ [c] := Dir]> m).
Proof.
  intros Hwf Hp Hnf. apply grows_insert_dir; [|done].
  apply wf_insert; [done | apply snoc_ne_nil | by rewrite parent_snoc | by left].
Qed.

Lemma grows_no_file m m' p : grows m m' -> no_file_on m p -> no_file_on m' p.
Proof. intros (_ & _ & F) Hnf q d Hq Hf. by apply (Hnf q d), F. Qed.

(** A loop whose every iteration makes its target a directory by adding
    directories only. *)
Section DirLoop.
Context {A : Type} (body : A -> stm fs unit) (tgt : A -> path) (Pre : fs -> Prop).
Hypothesis Pre_grows : forall m m', Pre m -> grows m m' -> Pre m'.

Lemma py_for_dirs l m :
  (forall x m, In x l -> fs_wf m -> Pre m -> no_file_on m (tgt x) ->
     exists m', body x m = (m', Ok tt) /\ grows m m' /\ m' !! tgt x = Some Dir /\
       (forall q, ~ q `prefix_of` tgt x -> m' !! q = m !! q)) ->
  fs_wf m -> Pre m -> Forall (fun x => no_file_on m (tgt x)) l ->
  exists m', py_for l body m = (m', Ok tt) /\ grows m m' /\ Forall (fun x => m' !! tgt x = Some Dir) l /\
    (forall q, Forall (fun x => ~ q `prefix_of` tgt x) l -> m' !! q = m !! q).
Proof.
  revert m. induction l as [|x l IH]; intros m Hbody Hwf HP Hall; simpl.
  - exists m. split_and!; [done | by apply grows_refl | done | done].
  - apply Forall_cons in Hall as [Hx Hall].
    destruct (Hbody x m (in_eq x l) Hwf HP Hx) as (m1 & Hb & Hg1 & Hd1 & Hk1).
    rewrite (stm_bind_ok _ _ m m1 tt Hb).
    destruct (IH m1) as (m2 & Hr & Hg2 & Hd2 & Hk2).
    + intros y m' Hy. apply Hbody. by right.
    + by destruct Hg1.
    + by apply (Pre_grows m).
    + eapply Forall_impl; [done|]. intros y. by apply grows_no_file.
    + exists m2. split_and!; [done | by eapply grows_trans | constructor; [by apply Hg2 | done] |].
      intros q [Hq Hql]%Forall_cons. rewrite Hk2 by done. by apply Hk1.
Qed.
End DirLoop.

(** A loop every iteration of which leaves the store as it is. *)
Lemma py_for_id {A} (body : A -> stm fs unit) l m :
  (forall x, In x l -> body x m = (m, Ok tt)) -> py_for l body m = (m, Ok tt).
Proof.
  induction l as [|x l IH]; intros H; simpl; [done|].
  rewrite (stm_bind_ok _ _ m m tt) by (apply H; left; done). apply IH. intros y Hy. apply H. by right.
Qed.

Lemma set_dirs_target rp m : fs_wf m -> set_dirs rp m !! rev rp = Some Dir.
Proof.
  intros Hwf. rewrite set_dirs_lookup. case_decide as Hd; [done|].
  destruct (decide (rev rp = [])) as [He|He]; [rewrite He; by destruct Hwf | naive_solver].
Qed.

(** [mkdir(parents=True, exist_ok=True)] of a directory that exists. *)
Lemma path_mkdir_existing p m : fs_wf m -> m !! p = Some Dir -> path_mkdir p true true m = (m, Ok tt).
Proof.
  intros Hwf Hp. assert (Hpre : forall q, q `prefix_of` p -> m !! q = Some Dir).
  { intros q Hq. destruct (decide (q = p)) as [->|Hne]; [done|]. eapply wf_prefix_dir; eauto. }
  rewrite path_mkdir_spec; [| done | intros q d Hq; by rewrite Hpre].
  rewrite set_dirs_id; [done|]. by rewrite rev_involutive.
Qed.

(** ** Writing a file after [os.makedirs] of its directory *)

Lemma prefix_parent_not (p : path) : p <> [] -> ~ p `prefix_of` parent p.
Proof.
  destruct p as [|c p' _] using rev_ind; [done|]. intros _. rewrite parent_snoc.
  intros Hp%prefix_length. rewrite length_app in Hp. simpl in Hp. lia.
Qed.

(** [os.makedirs(os.path.dirname(p), exist_ok=True)] followed by
    [open(p, 'w').write(d)]: the write succeeds, directories stay
    directories, the other files are kept, and the way to [p] stays free
    of files. *)
Lemma makedirs_then_write m p d :
  fs_wf m -> no_file_on m (parent p) -> m !! p <> Some Dir ->
  let m2 := <[p := File d]> (set_dirs (rev (parent p)) m) in
  write_text (set_dirs (rev (parent p)) m) p d = Ok m2 /\ fs_wf m2 /\
  (forall q, m !! q = Some Dir -> m2 !! q = Some Dir) /\
  (forall q x, q <> p -> m !! q = Some (File x) -> m2 !! q = Some (File x)) /\
  no_file_on m2 (parent p) /\ m2 !! p = Some (File d).
Proof.
  intros Hwf Hnf Hp m2.
  assert (Hne : p <> []) by (intros ->; destruct Hwf; congruence).
  assert (Hlk : forall q, q <> p -> m2 !! q = set_dirs (rev (parent p)) m !! q)
    by (intros q Hq; by apply lookup_insert_ne).
  assert (Hw : write_text (set_dirs (rev (parent p)) m) p d = Ok m2).
  { apply write_text_Ok; [by apply set_dirs_wf|]. split_and!; [| |done].
    - pose proof (set_dirs_target (rev (parent p)) m Hwf) as Ht. by rewrite rev_involutive in Ht.
    - rewrite set_dirs_lookup, rev_involutive. case_decide as Hd; [|done].
      exfalso. by apply (prefix_parent_not p Hne), Hd. }
  split_and!.
  - done.
  - eapply write_text_wf; [by apply set_dirs_wf | exact Hw].
  - intros q Hq. destruct (decide (q = p)) as [->|Hqp]; [done|].
    rewrite Hlk, set_dirs_lookup by done. by case_decide.
  - intros q x Hqp Hq. rewrite Hlk, set_dirs_lookup by done. case_decide as Hd; [|done].
    rewrite rev_involutive in Hd. exfalso. by apply (Hnf q x (proj1 Hd)).
  - intros q x Hq. assert (Hqp : q <> p).
    { intros ->. by apply (prefix_parent_not p Hne). }
    rewrite Hlk, set_dirs_lookup by done. case_decide; [done|]. by apply Hnf.
  - by apply lookup_insert_eq.
Qed.

(** After [os.makedirs(parent p)] and writing [p], every path that
    existed still exists, and a path that is neither [p] nor on the way
    to it is as it was. *)
Lemma store_exists_kept m p v q :
  exists_path m q = true -> exists_path (<[p := v]> (set_dirs (rev (parent p)) m)) q = true.
Proof.
  unfold exists_path. rewrite !bool_decide_eq_true. intros Hq.
  destruct (decide (p = q)) as [<-|Hne]; [by rewrite lookup_insert_eq|].
  rewrite lookup_insert_ne, set_dirs_lookup by done. by case_decide.
Qed.

Lemma store_lookup_other m p v q :
  q <> p -> ~ q `prefix_of` parent p -> (<[p := v]> (set_dirs (rev (parent p)) m)) !! q = m !! q.
Proof.
  intros Hne Hpre. rewrite lookup_insert_ne by congruence.
  rewrite set_dirs_lookup, rev_involutive, decide_False; naive_solver.
Qed.

(** ** The decision procedures *)

Lemma fs_wfb_spec m : fs_wfb m = true <-> fs_wf m.
Proof.
  unfold fs_wfb, fs_wf. rewrite andb_true_iff, bool_decide_eq_true, forallb_forall.
  split; intros [Hr Hall]; split; try done.
  - intros p n Hp Hne. apply elem_of_map_to_list in Hp. apply list_elem_of_In in Hp.
    specialize (Hall _ Hp). simpl in Hall. apply orb_true_iff in Hall as [H1|H1];
      apply bool_decide_eq_true in H1; done.
  - intros [p n] Hin. apply list_elem_of_In, elem_of_map_to_list in Hin.
    apply orb_true_iff. destruct (decide (p = [])) as [->|Hne]; [left | right];
      apply bool_decide_eq_true; eauto.
Qed.

Lemma no_file_onb_spec m p : no_file_onb m p = true <-> no_file_on m p.
Proof.
  unfold no_file_onb, no_file_on. rewrite forallb_forall. split.
  - intros Hall q d [k Hk] Hq. assert (Hi : In (length q) (seq 0 (S (length p)))).
    { apply in_seq. rewrite Hk, length_app. lia. }
    specialize (Hall _ Hi). rewrite Hk, take_app_length, Hq in Hall. done.
  - intros H i Hi. destruct (m !! take i p) as [[|d]|] eqn:E; [done | | done].
    exfalso. apply (H (take i p) d); [|done]. exists (drop i p). by rewrite take_drop.
Qed.
Lemma no_file_onb_Forall m l : forallb (no_file_onb m) l = true -> Forall (no_file_on m) l.
Proof.
  intros H. apply Forall_forall. intros p Hp. apply no_file_onb_spec.
  by apply (proj1 (forallb_forall _ _) H), list_elem_of_In.
Qed.

End Fs.
