(* ===== verification/Extract.v ===== *)
(** * Code extraction from the model's reply

    [BankStatementParserAgent._extract_code] (src/agent.py, lines 164-168):
    the text between the first "```python" fence and the next "```",
    stripped; otherwise the whole reply stripped, or [None] for an empty
    reply.  The theorems show that it never raises, what it returns on
    each branch, and that a language tag written after "```python" on the
    opening line (as in "```python3") is returned as the start of the
    code. *)

From stdpp Require Import base list strings.
From Stdlib Require Import Ascii Lia.
From S2P Require Import Prelude PyStr.

Module Extract.
Import PyStr.

Definition fence_python : pystr := lit "```python".
Definition fence : pystr := lit "```".

(** [_extract_code(text)]:
    [if "```python" in text:
       return text.split("```python")[1].split("```")[0].strip()
     return text.strip() if text else None] *)
Definition extract_code (text : pystr) : result (option pystr) :=
  if contains fence_python text then
    after ← py_index (split fence_python text) 1;
    code ← py_index (split fence after) 0;
    mret (Some (strip code))
  else mret (if str_truthy text then Some (strip text) else None).

Lemma fence_python_not_nil : fence_python <> [].
Proof. done. Qed.

Lemma fence_not_nil : fence <> [].
Proof. done. Qed.

Lemma fence_python_ext : fence_python = fence ++ lit "python".
Proof. reflexivity. Qed.

#[local] Hint Resolve fence_python_not_nil fence_not_nil : py.

(** The first piece of any [split] exists. *)
Lemma py_index_split_0 sep s : exists p, py_index (split sep s) 0 = Ok p.
Proof.
  unfold py_index. pose proof (split_not_nil sep s).
  destruct (split sep s); [done | eauto].
Qed.

(** Without a "```python" fence the reply is returned stripped. *)
Lemma extract_code_unfenced text :
  contains fence_python text = false ->
  extract_code text = Ok (if str_truthy text then Some (strip text) else None).
Proof. unfold extract_code. by intros ->. Qed.

(** A fenced block: the first "```python" opens at the end of [pre], the
    [body] holds no "```", and no further "```python" starts at or after
    the closing fence.  The result is the stripped body. *)
Lemma extract_code_block_ok pre body post :
  contains fence_python (pre ++ removelast fence_python) = false ->
  contains fence (body ++ removelast fence) = false ->
  contains fence_python (fence ++ post) = false ->
  extract_code (pre ++ fence_python ++ body ++ fence ++ post) = Ok (Some (strip body)).
Proof.
  intros H1 H2 H3. unfold extract_code.
  rewrite contains_app_r by apply contains_self.
  rewrite split_app by auto with py.
  rewrite (split_nosep fence_python (body ++ fence ++ post)).
  2:{ rewrite fence_python_ext, contains_ext_before by auto with py. done. }
  cbn [py_index lookup list_lookup mbind result_bind].
  rewrite split_app by auto with py. done.
Qed.

(** C14: A fenced block: the first "```python" opens at the end of [pre], the
    [body] holds no "```", and no further "```python" starts at or after
    the closing fence.  The result is the stripped body. *)
Lemma extract_code_block pre body post :
  contains fence_python (pre ++ removelast fence_python) = false ->
  contains fence (body ++ removelast fence) = false ->
  contains fence_python (fence ++ post) = false ->
  extract_code (pre ++ fence_python ++ body ++ fence ++ post) = Ok (Some (strip body)).
Proof. exact (extract_code_block_ok pre body post). Qed.

(** On a fenced reply the split has a second piece, and every split has
    a first piece. *)
Lemma extract_code_fenced text :
  contains fence_python text = true -> exists code, extract_code text = Ok (Some (strip code)).
Proof.
  intros Hc. unfold extract_code. rewrite Hc.
  destruct (py_index_lt (split fence_python text) 1) as [after [-> _]].
  { apply split_contains_length; auto with py. }
  rewrite bind_Ok. destruct (py_index_split_0 fence after) as [code ->]. simpl. eauto.
Qed.

(** C15: [_extract_code] never raises. *)
Lemma extract_code_total text : exists r, extract_code text = Ok r.
Proof.
  destruct (contains fence_python text) eqn:Hc.
  - destruct (extract_code_fenced text Hc) as [code ->]. eauto.
  - rewrite extract_code_unfenced by done. eauto.
Qed.

(** An empty reply yields [None]; a reply of blanks yields [Some ""],
    which the generation node treats as no code. *)
Lemma extract_code_none text : extract_code text = Ok None <-> text = [].
Proof.
  split; [|by intros ->].
  destruct (contains fence_python text) eqn:Hc.
  - by destruct (extract_code_fenced text Hc) as [code ->].
  - rewrite extract_code_unfenced by done. destruct text; [done|]. done.
Qed.

(** C16: the fence is matched as the prefix "```python" only: whatever
    follows it on the opening line (a language tag such as the "3" of
    "```python3", or "-example") is not skipped, and the extracted code
    starts with it. *)
Lemma extract_code_keeps_tag pre tag body post :
  tag <> [] -> trimmed tag = true ->
  contains fence_python (pre ++ removelast fence_python) = false ->
  contains fence (tag ++ body ++ removelast fence) = false ->
  contains fence_python (fence ++ post) = false ->
  exists rest, extract_code (pre ++ fence_python ++ tag ++ body ++ fence ++ post)
               = Ok (Some (tag ++ rest)).
Proof.
  intros Hne Ht H1 H2 H3.
  pose proof (extract_code_block_ok pre (tag ++ body) post H1) as E.
  rewrite <- !app_assoc in E. rewrite E by done.
  destruct (strip_keeps_prefix tag body Hne Ht) as [rest ->]. eauto.
Qed.

(** ** Witnesses *)

Lemma extract_code_block_witness :
  let pre := lit "Here is the parser:" ++ newline in
  let body := newline ++ lit "import pdfplumber" ++ newline in
  let post := newline ++ lit "It uses pdfplumber." in
  contains fence_python (pre ++ removelast fence_python) = false /\
  contains fence (body ++ removelast fence) = false /\
  contains fence_python (fence ++ post) = false /\
  extract_code (pre ++ fence_python ++ body ++ fence ++ post) = Ok (Some (strip body)).
Proof.
  intros pre body post.
  assert (H1 : contains fence_python (pre ++ removelast fence_python) = false) by (vm_compute; reflexivity).
  assert (H2 : contains fence (body ++ removelast fence) = false) by (vm_compute; reflexivity).
  assert (H3 : contains fence_python (fence ++ post) = false) by (vm_compute; reflexivity).
  split_and!; [exact H1 | exact H2 | exact H3 | exact (extract_code_block _ _ _ H1 H2 H3)].
Defined.

Lemma extract_code_keeps_tag_witness :
  let tag := lit "3" in
  let body := newline ++ lit "print(1)" ++ newline in
  exists rest, extract_code ([] ++ fence_python ++ tag ++ body ++ fence ++ [])
               = Ok (Some (tag ++ rest)).
Proof.
  intros tag body.
  apply (extract_code_keeps_tag [] tag body []);
    [discriminate | vm_compute; reflexivity | vm_compute; reflexivity
    | vm_compute; reflexivity | vm_compute; reflexivity].
Defined.
End Extract.
