(* ===== verification/Prompt.v ===== *)
(** * The generation prompt

    The f-string of [_generate_code_node] (src/agent.py, lines 98-111),
    character for character: the bank name and the feedback of the last
    cycle are spliced into a fixed text that fixes the five output
    columns.  [state.get('test_results', 'This is the first attempt.')]
    always finds the key, which [run] initialises to [None]; the f-string
    then renders [str(None)]. *)

From stdpp Require Import base list strings.
From Stdlib Require Import Ascii Lia.
From S2P Require Import Prelude PyStr.

Module Prompt.
Import PyStr.

Definition indent : pystr := lit "        ".

Definition line (s : string) : pystr := newline ++ indent ++ lit s.

(** The Python list literal of the five columns, as the prompt prints it. *)
Definition columns_literal : pystr :=
  lit "['Date', 'Description', 'Debit Amt', 'Credit Amt', 'Balance']".

Definition prompt_head : pystr :=
  line "You are an expert Python developer. Generate a parser for '".

Definition prompt_middle : pystr :=
  lit "' bank statements." ++ newline ++
  line "**CRITICAL INSTRUCTIONS:**" ++
  line "1.  The PDF data has exactly 5 columns. Your parser must extract and handle exactly 5 columns." ++
  line "2.  The required output DataFrame columns are STRICTLY: `" ++ columns_literal ++ lit "`." ++
  line "3.  **DO NOT HALLUCINATE OR ADD EXTRA COLUMNS.** Specifically, do not add a 'Chq./Ref.No.' column. This is the most common cause of failure." ++
  line "4.  Use `pdfplumber` and `page.extract_tables()`." ++
  line "5.  Create the DataFrame from a list of dictionaries to ensure column mapping is correct." ++
  newline ++ line "**Feedback from previous attempt:** ".

Definition prompt_tail : pystr :=
  newline ++ line "Provide only the complete, runnable Python code." ++ newline ++ indent.

(** [str(x)] of an [Optional[str]] inside an f-string. *)
Definition py_str_opt (o : option pystr) : pystr :=
  match o with Some s => s | None => lit "None" end.

(** [state.get(key, default)] on a dictionary that holds [key]. *)
Definition dict_get_present (v : option pystr) (default : pystr) : option pystr := v.

Definition first_attempt_default : pystr := lit "This is the first attempt.".

(** The prompt for a bank and the stored [test_results]. *)
Definition build_prompt (target_bank : pystr) (test_results : option pystr) : pystr :=
  prompt_head ++ target_bank ++ prompt_middle ++
  py_str_opt (dict_get_present test_results first_attempt_default) ++ prompt_tail.

(** Whatever the bank and the feedback, the prompt states the column
    literal and carries the feedback text. *)
Theorem build_prompt_contents target fb :
  contains columns_literal (build_prompt target fb) = true /\
  contains (py_str_opt fb) (build_prompt target fb) = true.
Proof.
  unfold build_prompt, prompt_head, prompt_middle, prompt_tail, line, dict_get_present.
  split; contains_search.
Qed.

End Prompt.
