(* ===== verification/Agent.v ===== *)
(** * The agent: its state, its four nodes and the LangGraph loop

    [AgentState] and [BankStatementParserAgent] of src/agent.py.  The
    language model and the pytest process are the two external services;
    they are interfaces ([GenAI], [TestProcess]) indexed by the number of
    earlier calls, so every theorem holds for any model and any test
    outcome.  The store of files is [Fs.fs].  A node is a stateful
    computation on the world (files and call counters) that may raise;
    the compiled graph is the transition function [next_node], and
    [graph_run] is [workflow.invoke] with a bound on the node executions. *)

From stdpp Require Import base list strings gmap fin_maps.
From Stdlib Require Import Ascii ZArith Lia.
From S2P Require Import Prelude PyStr Fs Extract Prompt.

Module Agent.
Import PyStr Fs Extract Prompt.

(** ** Data *)

Record message := mk_message { role : pystr; content : pystr }.

(** [class AgentState(TypedDict)], lines 28-41. *)
Record AgentState := mk_state {
  messages : list message;
  target_bank : pystr;
  parser_path : path;
  csv_path : path;
  current_code : option pystr;
  test_results : option pystr;
  attempt_count : Z;
  max_attempts : Z;
  task_complete : bool
}.

Definition set_current_code (s : AgentState) (c : option pystr) : AgentState :=
  mk_state (messages s) (target_bank s) (parser_path s) (csv_path s) c
    (test_results s) (attempt_count s) (max_attempts s) (task_complete s).
Definition set_test_results (s : AgentState) (t : option pystr) : AgentState :=
  mk_state (messages s) (target_bank s) (parser_path s) (csv_path s) (current_code s)
    t (attempt_count s) (max_attempts s) (task_complete s).
Definition set_task_complete (s : AgentState) (b : bool) : AgentState :=
  mk_state (messages s) (target_bank s) (parser_path s) (csv_path s) (current_code s)
    (test_results s) (attempt_count s) (max_attempts s) b.
Definition set_attempt_count (s : AgentState) (n : Z) : AgentState :=
  mk_state (messages s) (target_bank s) (parser_path s) (csv_path s) (current_code s)
    (test_results s) n (max_attempts s) (task_complete s).
Definition set_messages (s : AgentState) (ms : list message) : AgentState :=
  mk_state ms (target_bank s) (parser_path s) (csv_path s) (current_code s)
    (test_results s) (attempt_count s) (max_attempts s) (task_complete s).

(** The outcome of [subprocess.run(..., capture_output=True, text=True)]. *)
Record completed := mk_completed { returncode : Z; stdout : pystr; stderr : pystr }.

(** ** The external services *)

(** [self.model.generate_content(prompt).text] at its [n]-th call; a
    raised exception stands for a failed call or an unreadable reply. *)
Class GenAI := generate_content : nat -> pystr -> result pystr.

(** [subprocess.run([sys.executable, "-m", "pytest", "test_parser.py"],
    ..., timeout=60)] at its [n]-th run on the current files; a raised
    exception stands for [TimeoutExpired] or a failure to spawn. *)
Class TestProcess := run_pytest : nat -> fs -> result completed.

(** One call to an external service, with what it returned. *)
Inductive call :=
  | ModelCall (prompt : pystr) (reply : result pystr)
  | PytestRun (outcome : result completed).

(** What the nodes act on besides the state: the files, how many times
    each service has been called, and the calls in order (newest first). *)
Record world := mk_world {
  w_fs : fs; w_gen_calls : nat; w_test_runs : nat; w_trace : list call }.

Definition on_fs {A} (c : stm fs A) : stm world A :=
  fun w => let '(m, r) := c (w_fs w) in
           (mk_world m (w_gen_calls w) (w_test_runs w) (w_trace w), r).

(** [pd.read_csv(path).columns.tolist()]: the header of the first
    non-blank line, split at commas; missing, directory and empty files
    raise as pandas does. *)
Definition read_csv_columns (m : fs) (p : path) : result (list pystr) :=
  _ ← resolve_parent m p;
  match m !! p with
  | None => Raise (enoent p)
  | Some Dir => Raise (eisdir p)
  | Some (File data) =>
      match filter (fun l => str_truthy (strip l) = true) (split newline data) with
      | [] => Raise (mk_exc EmptyDataError (lit "No columns to parse from file"))
      | header :: _ => Ok (split (lit ",") header)
      end
  end.

Section Nodes.
Context `{GenAI} `{TestProcess}.

Definition call_model (prompt : pystr) : stm world pystr :=
  fun w => let reply := generate_content (w_gen_calls w) prompt in
           (mk_world (w_fs w) (S (w_gen_calls w)) (w_test_runs w)
              (ModelCall prompt reply :: w_trace w), reply).

Definition call_pytest : stm world completed :=
  fun w => let r := run_pytest (w_test_runs w) (w_fs w) in
           (mk_world (w_fs w) (w_gen_calls w) (S (w_test_runs w)) (PytestRun r :: w_trace w), r).

Definition no_code_msg : pystr := lit "Failed to generate valid Python code.".
Definition gen_exc_msg (e : exc) : pystr :=
  lit "An exception occurred during code generation: " ++ exc_msg e.
Definition passed_msg : pystr := lit "All tests passed successfully.".
Definition failed_msg (r : completed) : pystr :=
  lit "Tests failed." ++ newline ++ lit "STDOUT:" ++ newline ++ stdout r ++
  newline ++ lit "STDERR:" ++ newline ++ stderr r.
Definition test_exc_msg (e : exc) : pystr :=
  lit "An unexpected error occurred while running tests: " ++ exc_msg e.

(** [_plan_node], lines 89-92. *)
Definition plan_node (s : AgentState) : stm world AgentState :=
  mret (set_messages s (messages s ++
    [mk_message (lit "user") (lit "Plan a Python parser for " ++ target_bank s ++ lit ".")])).

(** The [if code:] branch of [_generate_code_node], lines 117-124. *)
Definition store_code (s : AgentState) (code : option pystr) : stm world AgentState :=
  match code with
  | Some c =>
      if str_truthy c then
        on_fs (makedirs (parent (parser_path s)) true) ;;
        on_fs (stm_sys (fun m => write_text m (parser_path s) c)) ;;
        mret (set_current_code s (Some c))
      else mret (set_test_results (set_current_code s None) (Some no_code_msg))
  | None => mret (set_test_results (set_current_code s None) (Some no_code_msg))
  end.

(** [_generate_code_node], lines 94-129: reading the CSV is outside the
    [try] and an error there leaves the node. *)
Definition generate_code_node (s : AgentState) : stm world AgentState :=
  _ ← (fun w => (w, read_csv_columns (w_fs w) (csv_path s)));
  let prompt := build_prompt (target_bank s) (test_results s) in
  stm_try
    (text ← call_model prompt;
     code ← stm_lift (extract_code text);
     store_code s code)
    (fun e => mret (set_test_results (set_current_code s None) (Some (gen_exc_msg e)))).

(** [_run_tests_node], lines 131-147. *)
Definition run_tests_node (s : AgentState) : stm world AgentState :=
  stm_try
    (r ← call_pytest;
     if decide (returncode r = 0%Z) then
       mret (set_task_complete (set_test_results s (Some passed_msg)) true)
     else mret (set_task_complete (set_test_results s (Some (failed_msg r))) false))
    (fun e => mret (set_task_complete (set_test_results s (Some (test_exc_msg e))) false)).

(** [_self_fix_node], lines 149-152. *)
Definition self_fix_node (s : AgentState) : stm world AgentState :=
  mret (set_attempt_count s (attempt_count s + 1)%Z).

End Nodes.

(** ** The graph, lines 67-85 and 156-162 *)

Inductive node := Plan | GenerateCode | RunTests | SelfFix.

#[export] Instance node_eq_dec : EqDecision node.
Proof. solve_decision. Defined.

(** [_should_test]: the key is always present, so [get] is the value. *)
Definition should_test (s : AgentState) : option node :=
  if opt_truthy (current_code s) then Some RunTests else None.

(** [_should_continue_fixing]. *)
Definition should_continue_fixing (s : AgentState) : option node :=
  if task_complete s then None
  else if (attempt_count s <? max_attempts s)%Z then Some SelfFix else None.

(** The edges of the compiled graph; [None] is [END]. *)
Definition next_node (n : node) (s : AgentState) : option node :=
  match n with
  | Plan => Some GenerateCode
  | GenerateCode => should_test s
  | RunTests => should_continue_fixing s
  | SelfFix => Some GenerateCode
  end.

Definition run_node `{GenAI} `{TestProcess} (n : node) : AgentState -> stm world AgentState :=
  match n with
  | Plan => plan_node
  | GenerateCode => generate_code_node
  | RunTests => run_tests_node
  | SelfFix => self_fix_node
  end.

(** How [workflow.invoke] ends: with the final state, or with the
    exception a node let escape. *)
Inductive outcome :=
  | Finished (s : AgentState) (w : world)
  | Crashed (e : exc) (w : world).

(** [workflow.invoke] executing at most [fuel] nodes ([None] when the
    bound is reached before [END]). *)
Fixpoint graph_run `{GenAI} `{TestProcess} (fuel : nat) (n : option node)
    (s : AgentState) (w : world) : option outcome :=
  match n with
  | None => Some (Finished s w)
  | Some n =>
      match fuel with
      | O => None
      | S f =>
          match run_node n s w with
          | (w', Ok s') => graph_run f (next_node n s') s' w'
          | (w', Raise e) => Some (Crashed e w')
          end
      end
  end.

(** The initial state built by [run], lines 175-185. *)
Definition initial_state (cwd : path) (target : pystr) (max_attempts : Z) : AgentState :=
  mk_state [] target
    (path_div (path_div cwd (lit "custom_parsers")) (target ++ lit "_parser.py"))
    (path_div (path_div (path_div cwd (lit "data")) target) (target ++ lit "_sample.csv"))
    None None 1 max_attempts false.

(** A fresh run: neither service has been called yet. *)
Definition initial_world (m : fs) : world := mk_world m 0 0 [].

(** The number of cycles the retry bound allows. *)
Definition cycle_bound (max_attempts : Z) : nat := Z.to_nat (Z.max 1 max_attempts).

(** ** What each node does *)

Definition gen_fail (s : AgentState) (msg : pystr) : AgentState :=
  set_test_results (set_current_code s None) (Some msg).

Definition tick_gen (w : world) (prompt : pystr) (reply : result pystr) : world :=
  mk_world (w_fs w) (S (w_gen_calls w)) (w_test_runs w) (ModelCall prompt reply :: w_trace w).
Definition tick_test (w : world) (r : result completed) : world :=
  mk_world (w_fs w) (w_gen_calls w) (S (w_test_runs w)) (PytestRun r :: w_trace w).

(** The state [_run_tests_node] leaves for a given outcome of pytest. *)
Definition tests_update (s : AgentState) (r : result completed) : AgentState :=
  match r with
  | Ok c => if decide (returncode c = 0%Z)
            then set_task_complete (set_test_results s (Some passed_msg)) true
            else set_task_complete (set_test_results s (Some (failed_msg c))) false
  | Raise e => set_task_complete (set_test_results s (Some (test_exc_msg e))) false
  end.


(** ** The loop the graph implements

    The reference reading of the control flow (spec, section 4.5): one
    planning step, then cycles of generation, testing and fixing;
    [fuel] counts the fixes still allowed. *)
Fixpoint agent_loop `{GenAI} `{TestProcess} (fuel : nat) (s : AgentState) : stm world AgentState :=
  s1 ← generate_code_node s;
  if opt_truthy (current_code s1) then
    s2 ← run_tests_node s1;
    if task_complete s2 then mret s2
    else if (attempt_count s2 <? max_attempts s2)%Z then
      match fuel with
      | O => mret s2
      | S f => s3 ← self_fix_node s2; agent_loop f s3
      end
    else mret s2
  else mret s1.

Definition to_outcome (r : world * result AgentState) : outcome :=
  match r with
  | (w, Ok s) => Finished s w
  | (w, Raise e) => Crashed e w
  end.

(** ** Configurations of the graph and their invariant *)

Record cfg := mk_cfg { c_node : option node; c_state : AgentState; c_world : world }.

Definition attempt_bound (s : AgentState) : Z := Z.max 1 (max_attempts s).

(** The node count still needed in the worst case. *)
Definition measure (c : cfg) : nat :=
  let r := Z.to_nat (attempt_bound (c_state c) - attempt_count (c_state c)) in
  match c_node c with
  | None => 0
  | Some Plan => 3 * r + 3
  | Some GenerateCode => 3 * r + 2
  | Some RunTests => 3 * r + 1
  | Some SelfFix => 3 * r
  end.

(** ** A concrete setting for the scenarios of the spec *)

(** The working directory holds [data/icici/icici_sample.csv]. *)
Definition ex_cwd : path := [lit "work"].
Definition ex_csv_path : path := ex_cwd ++ [lit "data"; lit "icici"; lit "icici_sample.csv"].
Definition ex_fs : fs :=
  <[ex_csv_path := File (lit "Date,Description,Debit Amt,Credit Amt,Balance" ++ newline)]>
  (<[ex_cwd ++ [lit "data"; lit "icici"] := Dir]> (<[ex_cwd ++ [lit "data"] := Dir]>
  (<[ex_cwd := Dir]> {[ [] := Dir ]}))).

Definition ex_reply : pystr :=
  lit "Here is the parser:" ++ newline ++ lit "```python" ++ newline ++
  lit "def parse(pdf_path): ..." ++ newline ++ lit "```".

(** A model that always answers with a code block, and one that answers
    with empty text. *)
Definition model_codes : GenAI := fun _ _ => Ok ex_reply.
Definition model_empty : GenAI := fun _ _ => Ok [].

(** A pytest that fails on its first [k] runs and passes afterwards. *)
Definition pytest_passes_from (k : nat) : TestProcess :=
  fun i _ => Ok (mk_completed (if i <? k then 1%Z else 0%Z) (lit "F") (lit "boom")).

(** What a run's outcome says: completion, attempt count, and how many
    times each service was called. *)
Definition summary (o : option outcome) : option (bool * Z * nat * nat) :=
  match o with
  | Some (Finished s w) => Some (task_complete s, attempt_count s, w_gen_calls w, w_test_runs w)
  | _ => None
  end.

(** The final state of a finished run. *)
Definition final_state (o : option outcome) : option AgentState :=
  match o with Some (Finished s _) => Some s | _ => None end.

Definition ex_state : AgentState := initial_state ex_cwd (lit "icici") 3.
Definition ex_code : pystr := lit "def parse(pdf_path): ...".
Definition ex_failed_run : completed := mk_completed 1 (lit "F") (lit "boom").

Section GraphDefs.
Context `{GenAI} `{TestProcess}.

Inductive step : cfg -> cfg -> Prop :=
  | step_node n s w s' w' :
      run_node n s w = (w', Ok s') ->
      step (mk_cfg (Some n) s w) (mk_cfg (next_node n s') s' w').

Inductive reachable (c0 : cfg) : cfg -> Prop :=
  | reach_init : reachable c0 c0
  | reach_step c c' : reachable c0 c -> step c c' -> reachable c0 c'.

(** The last call made was a pytest run that exited with status 0. *)
Definition last_run_passed (w : world) : Prop :=
  exists r, head (w_trace w) = Some (PytestRun (Ok r)) /\ returncode r = 0%Z.

Definition inv (c : cfg) : Prop :=
  let s := c_state c in
  let w := c_world c in
  (1 <= attempt_count s <= attempt_bound s)%Z /\
  (c_node c = Some SelfFix -> attempt_count s < max_attempts s)%Z /\
  (c_node c = Some RunTests -> opt_truthy (current_code s) = true /\ w_test_runs w < w_gen_calls w) /\
  (task_complete s = true -> c_node c = None /\ test_results s = Some passed_msg /\ last_run_passed w) /\
  (forall code, current_code s = Some code ->
     code <> [] /\ w_fs w !! parser_path s = Some (File code)) /\
  w_test_runs w <= w_gen_calls w.

(** The fields [run] fixes once: the bank, the two paths and the bound. *)
Definition same_setup (s s' : AgentState) : Prop :=
  target_bank s' = target_bank s /\ parser_path s' = parser_path s /\
  csv_path s' = csv_path s /\ max_attempts s' = max_attempts s.
End GraphDefs.

Section NodeLemmas.
Context `{GenAI} `{TestProcess}.

Lemma plan_node_run s w :
  plan_node s w = (w, Ok (set_messages s (messages s ++
    [mk_message (lit "user") (lit "Plan a Python parser for " ++ target_bank s ++ lit ".")]))).
Proof. reflexivity. Qed.

Lemma self_fix_node_run s w :
  self_fix_node s w = (w, Ok (set_attempt_count s (attempt_count s + 1)%Z)).
Proof. reflexivity. Qed.

Lemma run_tests_node_run s w :
  run_tests_node s w =
  (tick_test w (run_pytest (w_test_runs w) (w_fs w)),
   Ok (tests_update s (run_pytest (w_test_runs w) (w_fs w)))).
Proof.
  unfold run_tests_node, stm_try, mbind, stm_bind, call_pytest, tests_update. simpl.
  destruct (run_pytest (w_test_runs w) (w_fs w)) as [c|e]; [|done].
  by destruct (decide (returncode c = 0%Z)).
Qed.

(** Storing a non-empty code block either writes it at [parser_path] and
    records it, or raises with the counters untouched. *)
Lemma store_code_run s c w :
  c <> [] ->
  (exists m, store_code s (Some c) w =
     (mk_world m (w_gen_calls w) (w_test_runs w) (w_trace w), Ok (set_current_code s (Some c))) /\
     m !! parser_path s = Some (File c)) \/
  (exists m e, store_code s (Some c) w =
     (mk_world m (w_gen_calls w) (w_test_runs w) (w_trace w), Raise e)).
Proof.
  intros Hc. destruct c as [|ch c']; [done|].
  unfold store_code, on_fs, mbind, stm_bind, stm_sys. cbn [str_truthy].
  destruct (makedirs (parent (parser_path s)) true (w_fs w)) as [m1 [[]|e1]]; simpl; [|right; eauto].
  destruct (write_text m1 (parser_path s) (ch :: c')) as [m2|e2] eqn:Hw; simpl.
  - left. exists m2. split; [done|]. unfold write_text in Hw.
    destruct (resolve_parent m1 (parser_path s)); simpl in Hw; [|done].
    destruct (m1 !! parser_path s) as [[|]|]; simplify_eq; by rewrite lookup_insert_eq.
  - right. eauto.
Qed.

(** The generation node: a failed CSV read escapes; otherwise the node
    calls the model once and ends with the code stored or with a
    failure message and no code. *)
Lemma generate_code_node_cases s w w' r :
  generate_code_node s w = (w', r) ->
  (exists e, read_csv_columns (w_fs w) (csv_path s) = Raise e /\ w' = w /\ r = Raise e) \/
  (is_ok (read_csv_columns (w_fs w) (csv_path s)) = true /\
   w_gen_calls w' = S (w_gen_calls w) /\ w_test_runs w' = w_test_runs w /\
   w_trace w' = ModelCall (build_prompt (target_bank s) (test_results s))
                  (generate_content (w_gen_calls w) (build_prompt (target_bank s) (test_results s)))
                :: w_trace w /\
   ((exists c, c <> [] /\ r = Ok (set_current_code s (Some c)) /\
               w_fs w' !! parser_path s = Some (File c)) \/
    (exists msg, r = Ok (gen_fail s msg)))).
Proof.
  intros Hrun. cbv [generate_code_node mbind stm_bind stm_try call_model stm_lift mret stm_ret] in Hrun.
  destruct (read_csv_columns (w_fs w) (csv_path s)) as [cols|e] eqn:Hcsv;
    [right | left; simplify_eq; eauto]. split; [done|].
  destruct (generate_content (w_gen_calls w) _) as [text|e] eqn:Hgen.
  2:{ cbv [store_code mret stm_ret] in Hrun; simpl in Hrun; simplify_eq. split_and!; [done | done | done | right; eauto]. }
  destruct (extract_code text) as [[c|]|e].
  3:{ cbv [store_code mret stm_ret] in Hrun; simpl in Hrun; simplify_eq. split_and!; [done | done | done | right; eauto]. }
  2:{ cbv [store_code mret stm_ret] in Hrun; simpl in Hrun; simplify_eq. split_and!; [done | done | done | right; eauto]. }
  destruct (decide (c = [])) as [->|Hc].
  { cbv [store_code mret stm_ret] in Hrun; simpl in Hrun; simplify_eq. split_and!; [done | done | done | right; eauto]. }
  destruct (store_code_run s c (tick_gen w (build_prompt (target_bank s) (test_results s)) (Ok text)) Hc)
    as [[m [Hst Hm]] | [m [e Hst]]];
    unfold tick_gen in Hst; rewrite Hst in Hrun; simpl in Hrun; simplify_eq;
    split_and!; [done | done | done | left; eauto | done | done | done | right; eauto].
Qed.
Lemma generate_code_node_fields s w w' s' :
  generate_code_node s w = (w', Ok s') ->
  attempt_count s' = attempt_count s /\ max_attempts s' = max_attempts s /\
  task_complete s' = task_complete s /\ target_bank s' = target_bank s /\
  parser_path s' = parser_path s /\ csv_path s' = csv_path s.
Proof.
  intros Hg. destruct (generate_code_node_cases s w w' (Ok s') Hg)
    as [(e & _ & _ & [=]) | (_ & _ & _ & _ & [(c & _ & [= ->] & _) | (msg & [= ->])])]; done.
Qed.

Lemma tests_update_fields s r :
  current_code (tests_update s r) = current_code s /\
  attempt_count (tests_update s r) = attempt_count s /\
  max_attempts (tests_update s r) = max_attempts s /\
  parser_path (tests_update s r) = parser_path s.
Proof. unfold tests_update. destruct r as [c|e]; [destruct (decide _)|]; done. Qed.

Lemma tests_update_setup s r : same_setup s (tests_update s r).
Proof. unfold tests_update, same_setup. destruct r as [c|e]; [destruct (decide _)|]; done. Qed.

Lemma generate_code_node_csv_error s w e :
  read_csv_columns (w_fs w) (csv_path s) = Raise e -> generate_code_node s w = (w, Raise e).
Proof. intros He. unfold generate_code_node. rewrite stm_bind_run, He. done. Qed.

Lemma tests_update_complete s r :
  task_complete (tests_update s r) = true ->
  test_results (tests_update s r) = Some passed_msg /\
  exists c, r = Ok c /\ returncode c = 0%Z.
Proof. unfold tests_update. destruct r as [c|e]; [destruct (decide _)|]; naive_solver. Qed.
End NodeLemmas.

Section Graph.
Context `{GenAI} `{TestProcess}.

Lemma inv_initial cwd target m fs0 :
  inv (mk_cfg (Some Plan) (initial_state cwd target m) (initial_world fs0)).
Proof. unfold inv, attempt_bound. simpl. split_and!; try done; lia. Qed.

Lemma step_inv c c' : inv c -> step c c' -> inv c'.
Proof.
  intros Hinv Hst. destruct Hst as [n s w s' w' Hrun].
  destruct Hinv as (Ha & Hfix & Htest & Hdone & Hcode & Hcnt). simpl in *.
  destruct n; simpl in Hrun.
  - (* plan *) rewrite plan_node_run in Hrun. simplify_eq.
    unfold inv, attempt_bound in *; simpl. split_and!; try done; try lia.
    intros Hc. by destruct (Hdone Hc).
  - (* generate_code *)
    assert (Hnc : task_complete s = false) by (destruct (task_complete s); [by destruct (Hdone eq_refl)|done]).
    destruct (generate_code_node_cases s w w' (Ok s') Hrun)
      as [(e & _ & _ & [=]) | (_ & Hg & Ht & Htr & [(c & Hc & [= ->] & Hf) | (msg & [= ->])])];
      unfold inv, attempt_bound, should_test in *; simpl.
    + unfold should_test. simpl. rewrite (proj2 (str_truthy_true c) Hc).
      split_and!; try done; try lia; try (intros; congruence).
      by intros code [= <-].
    + unfold should_test. simpl. split_and!; try done; try lia; intros; congruence.
  - (* run_tests *)
    rewrite run_tests_node_run in Hrun. injection Hrun as <- <-.
    set (r := run_pytest (w_test_runs w) (w_fs w)).
    destruct (tests_update_fields s r) as (Hcc & Hac & Hmc & Hpc).
    destruct (Htest eq_refl) as [Htr Hlt].
    unfold inv, attempt_bound in *; cbn [c_state c_node c_world next_node].
    unfold should_continue_fixing. rewrite Hcc, Hac, Hmc, Hpc. simpl.
    split_and!; try lia.
    + destruct (task_complete (tests_update s r)); [intros [=]|].
      destruct (attempt_count s <? max_attempts s)%Z eqn:E; [|intros [=]].
      intros _. by apply Z.ltb_lt.
    + destruct (task_complete (tests_update s r)); [intros [=]|].
      destruct (_ <? _)%Z; intros [=].
    + intros Hc. destruct (tests_update_complete _ _ Hc) as [Hr [c [Hrc Hc0]]].
      rewrite Hc. split_and!; [done | done | exists c; simpl; rewrite <- Hrc; done].
    + intros code Hcd. by apply Hcode.
  - (* self_fix *)
    rewrite self_fix_node_run in Hrun. simplify_eq.
    assert (Hnc : task_complete s = false) by (destruct (task_complete s); [by destruct (Hdone eq_refl)|done]).
    specialize (Hfix eq_refl).
    unfold inv, attempt_bound in *; simpl. split_and!; try done; try lia. by rewrite Hnc.
Qed.

Lemma reachable_inv c0 c : inv c0 -> reachable c0 c -> inv c.
Proof. intros Hi0 Hr. induction Hr; eauto using step_inv. Qed.

(** Every node execution lowers the measure. *)
Lemma step_measure c c' : inv c -> step c c' -> measure c' < measure c.
Proof.
  intros Hinv Hst. destruct Hst as [n s w s' w' Hrun].
  destruct Hinv as (Ha & Hfix & _ & _ & _ & _). simpl in *.
  unfold measure, attempt_bound in *; simpl.
  destruct n; simpl in Hrun.
  - rewrite plan_node_run in Hrun. simplify_eq. simpl. lia.
  - destruct (generate_code_node_cases s w w' (Ok s') Hrun)
      as [(e & _ & _ & [=]) | (_ & _ & _ & _ & [(c & _ & [= ->] & _) | (msg & [= ->])])];
      simpl; unfold should_test; simpl; [destruct c|]; simpl; lia.
  - rewrite run_tests_node_run in Hrun. injection Hrun as <- <-.
    set (r := run_pytest (w_test_runs w) (w_fs w)).
    destruct (tests_update_fields s r) as (_ & Hac & Hmc & _).
    cbn [c_state c_node next_node]. unfold should_continue_fixing. rewrite Hac, Hmc.
    destruct (task_complete (tests_update s r)); [lia|]. destruct (_ <? _)%Z; lia.
  - rewrite self_fix_node_run in Hrun. simplify_eq. simpl. specialize (Hfix eq_refl). lia.
Qed.
Lemma measure_pos c n : inv c -> c_node c = Some n -> 0 < measure c.
Proof.
  intros (Ha & Hfix & _) Hn. unfold measure. rewrite Hn.
  destruct n; try lia. specialize (Hfix Hn). unfold attempt_bound in *. lia.
Qed.

Lemma graph_run_step f n s w s' w' :
  run_node n s w = (w', Ok s') ->
  graph_run (S f) (Some n) s w = graph_run f (next_node n s') s' w'.
Proof. intros Hr. simpl. by rewrite Hr. Qed.

(** From any configuration satisfying the invariant, [measure] node
    executions suffice to reach [END] or an escaping exception. *)
Lemma graph_run_total f c :
  inv c -> measure c <= f ->
  exists o, graph_run f (c_node c) (c_state c) (c_world c) = Some o.
Proof.
  revert c. induction f as [|f IH]; intros [n s w] Hinv Hm; simpl.
  - destruct n as [n|]; [|eauto]. pose proof (measure_pos _ n Hinv eq_refl). simpl in *. lia.
  - destruct n as [n|]; [|eauto].
    destruct (run_node n s w) as [w' [s'|e]] eqn:Hr; [|eauto].
    assert (Hst : step (mk_cfg (Some n) s w) (mk_cfg (next_node n s') s' w')) by (by constructor).
    apply (IH (mk_cfg (next_node n s') s' w')); [by eapply step_inv|].
    pose proof (step_measure _ _ Hinv Hst). lia.
Qed.

Lemma reachable_front c0 c1 c : step c0 c1 -> reachable c1 c -> reachable c0 c.
Proof. intros H01 Hr. induction Hr; [eapply reach_step; [constructor | done] | eauto using reach_step]. Qed.

Lemma graph_run_reachable f c s' w' :
  graph_run f (c_node c) (c_state c) (c_world c) = Some (Finished s' w') ->
  reachable c (mk_cfg None s' w').
Proof.
  revert c. induction f as [|f IH]; intros [n s w]; simpl.
  - destruct n; [done|]. intros [= -> ->]. constructor.
  - destruct n as [n|]; [|intros [= -> ->]; constructor].
    destruct (run_node n s w) as [w1 [s1|e]] eqn:Hr; [|done].
    intros Hrun. eapply reachable_front; [by constructor | exact (IH (mk_cfg _ s1 w1) Hrun)].
Qed.

Lemma measure_initial cwd target m fs0 :
  measure (mk_cfg (Some Plan) (initial_state cwd target m) (initial_world fs0)) = 3 * cycle_bound m.
Proof. unfold measure, cycle_bound, attempt_bound. simpl. lia. Qed.
Lemma step_cases n s w c' :
  step (mk_cfg (Some n) s w) c' ->
  exists s' w', run_node n s w = (w', Ok s') /\ c' = mk_cfg (next_node n s') s' w'.
Proof. inversion 1; subst. eauto. Qed.

Lemma step_from_end s w c' : ~ step (mk_cfg None s w) c'.
Proof. inversion 1. Qed.

Lemma step_setup c c' : step c c' -> same_setup (c_state c) (c_state c').
Proof.
  intros [n s w s' w' Hrun]. simpl. destruct n; simpl in Hrun.
  - rewrite plan_node_run in Hrun. simplify_eq. done.
  - destruct (generate_code_node_fields _ _ _ _ Hrun) as (_ & ? & _ & ? & ? & ?). done.
  - rewrite run_tests_node_run in Hrun. simplify_eq. apply tests_update_setup.
  - rewrite self_fix_node_run in Hrun. simplify_eq. done.
Qed.

Lemma reachable_setup c0 c : reachable c0 c -> same_setup (c_state c0) (c_state c).
Proof.
  induction 1 as [|c c' _ IH Hst]; [done|].
  destruct IH as (? & ? & ? & ?), (step_setup _ _ Hst) as (? & ? & ? & ?).
  split_and!; congruence.
Qed.

(** What holds of every configuration reachable from a fresh run. *)
Lemma invoke_reachable_inv cwd target m fs0 c :
  reachable (mk_cfg (Some Plan) (initial_state cwd target m) (initial_world fs0)) c ->
  inv c /\ max_attempts (c_state c) = m.
Proof.
  intros Hr. split; [eapply reachable_inv; [apply inv_initial | done]|].
  by destruct (reachable_setup _ _ Hr) as (_ & _ & _ & ->).
Qed.

Lemma fuel_split f : 3 * f + 2 = S (S (3 * f)).
Proof. lia. Qed.

Lemma agent_loop_unfold f s :
  agent_loop f s =
  (s1 ← generate_code_node s;
   if opt_truthy (current_code s1) then
     s2 ← run_tests_node s1;
     if task_complete s2 then mret s2
     else if (attempt_count s2 <? max_attempts s2)%Z then
       match f with
       | O => mret s2
       | S f' => s3 ← self_fix_node s2; agent_loop f' s3
       end
     else mret s2
   else mret s1).
Proof. by destruct f. Qed.

(** From the generation node, the graph and the loop agree whenever the
    loop may still fix [K - attempt] times. *)
Lemma graph_run_loop f s w :
  (1 <= attempt_count s <= attempt_bound s)%Z ->
  Z.to_nat (attempt_bound s - attempt_count s) <= f ->
  graph_run (3 * f + 2) (Some GenerateCode) s w = Some (to_outcome (agent_loop f s w)).
Proof.
  revert s w. induction f as [|f IH]; intros s w Ha Hf;
    rewrite fuel_split, agent_loop_unfold, stm_bind_run; cbn [graph_run run_node];
    destruct (generate_code_node s w) as [w1 [s1|e]] eqn:Hg; try done;
    destruct (generate_code_node_fields _ _ _ _ Hg) as (Ha1 & Hm1 & _);
    cbn [next_node]; unfold should_test;
    (destruct (opt_truthy (current_code s1)); [|done]);
    rewrite stm_bind_run, run_tests_node_run; cbn [graph_run run_node];
    rewrite run_tests_node_run; cbn [next_node];
    set (r := run_pytest (w_test_runs w1) (w_fs w1));
    destruct (tests_update_fields s1 r) as (_ & Ha2 & Hm2 & _);
    unfold should_continue_fixing;
    (destruct (task_complete (tests_update s1 r)); [done|]);
    rewrite Ha2, Hm2, Ha1, Hm1; unfold attempt_bound in *;
    (destruct (attempt_count s <? max_attempts s)%Z eqn:E; [apply Z.ltb_lt in E|done]).
  - lia.
  - rewrite stm_bind_run, self_fix_node_run.
    replace (3 * S f) with (S (3 * f + 2)) by lia. cbn [graph_run run_node].
    rewrite self_fix_node_run. cbn [next_node].
    apply IH; unfold attempt_bound; simpl; rewrite ?Ha2, ?Hm2, ?Ha1, ?Hm1; lia.
Qed.
End Graph.

(** ** The run of the agent *)

Section Invoke.
Context `{GenAI} `{TestProcess}.

(** C1: [workflow.invoke] implements the plain retry loop: planning, then
    at most [max(1, max_attempts)] cycles of generate, test and fix, with
    [3 * max(1, max_attempts)] node executions enough to reach the end. *)
Theorem invoke_refines_loop cwd target m fs0 :
  graph_run (3 * cycle_bound m) (Some Plan) (initial_state cwd target m) (initial_world fs0) =
  Some (to_outcome ((plan_node (initial_state cwd target m) ≫= agent_loop (pred (cycle_bound m)))
                      (initial_world fs0))).
Proof.
  assert (HK : 1 <= cycle_bound m) by (unfold cycle_bound; lia).
  replace (3 * cycle_bound m) with (S (3 * pred (cycle_bound m) + 2)) by lia.
  rewrite (graph_run_step _ Plan _ _ _ _ (plan_node_run _ _)), stm_bind_run, plan_node_run.
  apply graph_run_loop; unfold attempt_bound, cycle_bound in *; simpl; lia.
Qed.

(** C2: the run terminates: with any bound of at least
    [3 * max(1, max_attempts)] node executions it ends, normally or by an
    escaping exception. *)
Theorem invoke_terminates cwd target m fs0 fuel :
  3 * cycle_bound m <= fuel ->
  exists o, graph_run fuel (Some Plan) (initial_state cwd target m) (initial_world fs0) = Some o.
Proof.
  intros Hf. apply (graph_run_total fuel (mk_cfg (Some Plan) (initial_state cwd target m) (initial_world fs0)));
    [apply inv_initial|]. by rewrite measure_initial.
Qed.

(** C4: the attempt counter of a finished run lies in [1, max(1, max_attempts)]. *)
Theorem invoke_attempt_bounds cwd target m fs0 fuel s w :
  graph_run fuel (Some Plan) (initial_state cwd target m) (initial_world fs0) = Some (Finished s w) ->
  (1 <= attempt_count s <= Z.max 1 m)%Z.
Proof.
  intros Hr. apply (graph_run_reachable fuel (mk_cfg _ _ _)) in Hr.
  destruct (invoke_reachable_inv _ _ _ _ _ Hr) as [[Ha _] Hm]. simpl in *.
  unfold attempt_bound in Ha. by rewrite Hm in Ha.
Qed.

(** C3: a run that reports success does so only after the last call it
    made, a pytest run, exited with status 0. *)
Theorem invoke_success_sound cwd target m fs0 fuel s w :
  graph_run fuel (Some Plan) (initial_state cwd target m) (initial_world fs0) = Some (Finished s w) ->
  task_complete s = true ->
  test_results s = Some passed_msg /\
  exists r, head (w_trace w) = Some (PytestRun (Ok r)) /\ returncode r = 0%Z.
Proof.
  intros Hr Hc. apply (graph_run_reachable fuel (mk_cfg _ _ _)) in Hr.
  destruct (invoke_reachable_inv _ _ _ _ _ Hr) as [(_ & _ & _ & Hdone & _) _].
  destruct (Hdone Hc) as (_ & Ht & Hp). done.
Qed.

(** C10: the code a finished run records is non-empty and is the content of
    the parser file on disk. *)
Theorem invoke_code_on_disk cwd target m fs0 fuel s w code :
  graph_run fuel (Some Plan) (initial_state cwd target m) (initial_world fs0) = Some (Finished s w) ->
  current_code s = Some code ->
  code <> [] /\ w_fs w !! parser_path (initial_state cwd target m) = Some (File code).
Proof.
  intros Hr Hc. apply (graph_run_reachable fuel (mk_cfg _ _ _)) in Hr.
  destruct (invoke_reachable_inv _ _ _ _ _ Hr) as [(_ & _ & _ & _ & Hcode & _) _].
  destruct (reachable_setup _ _ Hr) as (_ & Hp & _). simpl in *. rewrite <- Hp. by apply Hcode.
Qed.

(** C13: a missing or unreadable reference CSV is not caught: the exception
    escapes [workflow.invoke] at the first generation step. *)
Theorem invoke_csv_error_escapes cwd target m fs0 fuel e :
  read_csv_columns fs0 (csv_path (initial_state cwd target m)) = Raise e ->
  graph_run (S (S fuel)) (Some Plan) (initial_state cwd target m) (initial_world fs0) =
  Some (Crashed e (initial_world fs0)).
Proof.
  intros He. rewrite (graph_run_step _ Plan _ _ _ _ (plan_node_run _ _)). cbn [next_node graph_run run_node].
  by rewrite (generate_code_node_csv_error _ _ e).
Qed.
(** The generation node on a reply without code: the model is called once
    and the state records the no-code feedback. *)
Lemma generate_code_node_no_code s w text code :
  is_ok (read_csv_columns (w_fs w) (csv_path s)) = true ->
  generate_content (w_gen_calls w) (build_prompt (target_bank s) (test_results s)) = Ok text ->
  extract_code text = Ok code -> opt_truthy code = false ->
  generate_code_node s w =
    (tick_gen w (build_prompt (target_bank s) (test_results s)) (Ok text), Ok (gen_fail s no_code_msg)).
Proof.
  intros Hcsv Hgen Hex Hno.
  cbv [generate_code_node mbind stm_bind stm_try call_model stm_lift mret stm_ret].
  destruct (read_csv_columns (w_fs w) (csv_path s)); [|done]. rewrite Hgen, Hex.
  destruct code as [[|ch c]|]; simpl in Hno; done.
Qed.

(** C8: when the model's reply holds no code ([None] or blank), the run
    ends right after the generation node: pytest is not run, no file is
    written, and the feedback says that no code was produced. *)
Theorem no_code_ends_run f s w text code :
  is_ok (read_csv_columns (w_fs w) (csv_path s)) = true ->
  generate_content (w_gen_calls w) (build_prompt (target_bank s) (test_results s)) = Ok text ->
  extract_code text = Ok code -> opt_truthy code = false ->
  graph_run (S f) (Some GenerateCode) s w =
  Some (Finished (gen_fail s no_code_msg)
          (tick_gen w (build_prompt (target_bank s) (test_results s)) (Ok text))).
Proof.
  intros Hcsv Hgen Hex Hno.
  rewrite (graph_run_step _ GenerateCode _ _ _ _ (generate_code_node_no_code s w text code Hcsv Hgen Hex Hno)).
  by destruct f.
Qed.

(** C9: a failed pytest run is fed back: from the test node, the next two
    nodes are the fix and the generation, and the next call after the
    failing run is a prompt carrying its headed stdout and stderr. *)
Theorem failed_run_feeds_next_prompt s w r c1 c2 c3 :
  run_pytest (w_test_runs w) (w_fs w) = Ok r -> returncode r <> 0%Z ->
  step (mk_cfg (Some RunTests) s w) c1 -> step c1 c2 -> step c2 c3 ->
  c_node c1 = Some SelfFix /\ c_node c2 = Some GenerateCode /\
  exists reply, w_trace (c_world c3) =
    ModelCall (build_prompt (target_bank s) (Some (failed_msg r))) reply :: PytestRun (Ok r) :: w_trace w.
Proof.
  intros Hr Hrc S1 S2 S3.
  apply step_cases in S1 as (s1 & w1 & Hrun1 & ->). cbn [run_node] in Hrun1.
  rewrite run_tests_node_run, Hr in Hrun1. injection Hrun1 as <- <-.
  unfold tests_update in S2 |- *. rewrite decide_False in S2 |- * by done.
  cbn [next_node] in S2 |- *. unfold should_continue_fixing in S2 |- *. simpl in S2 |- *.
  destruct (attempt_count s <? max_attempts s)%Z; [|by apply step_from_end in S2].
  apply step_cases in S2 as (s2 & w2 & Hrun2 & ->). cbn [run_node] in Hrun2.
  rewrite self_fix_node_run in Hrun2. injection Hrun2 as <- <-.
  apply step_cases in S3 as (s3 & w3 & Hrun3 & ->). cbn [run_node] in Hrun3.
  split_and!; [done | done |].
  destruct (generate_code_node_cases _ _ _ _ Hrun3) as [(e & _ & _ & [=]) | (_ & _ & _ & Htr & _)].
  cbn [c_world]. rewrite Htr. simpl. eauto.
Qed.
End Invoke.

(** ** The scenarios of the spec, section 8 *)

(** Scenario A: code on the first call and tests passing on the first
    run end after one cycle with success. *)
Example scenario_A :
  summary (@graph_run model_codes (pytest_passes_from 0) 9 (Some Plan)
             (initial_state ex_cwd (lit "icici") 3) (initial_world ex_fs))
  = Some (true, 1%Z, 1, 1).
Proof. vm_compute. reflexivity. Qed.

(** Scenario B: tests failing twice and then passing, with
    [max_attempts = 3], end after three cycles with success. *)
Example scenario_B :
  summary (@graph_run model_codes (pytest_passes_from 2) 9 (Some Plan)
             (initial_state ex_cwd (lit "icici") 3) (initial_world ex_fs))
  = Some (true, 3%Z, 3, 3).
Proof. vm_compute. reflexivity. Qed.

(** A run whose tests always fail executes exactly
    [3 * max_attempts] nodes: with [max_attempts = 9] it needs 27 node
    executions and 26 do not reach [END]. *)
Example all_failing_run_needs_27_nodes :
  @graph_run model_codes (pytest_passes_from 100) 26 (Some Plan)
     (initial_state ex_cwd (lit "icici") 9) (initial_world ex_fs) = None /\
  summary (@graph_run model_codes (pytest_passes_from 100) 27 (Some Plan)
     (initial_state ex_cwd (lit "icici") 9) (initial_world ex_fs)) = Some (false, 9%Z, 9, 9).
Proof. split; vm_compute; reflexivity. Qed.
(** ** Witnesses *)

Lemma invoke_terminates_witness :
  3 * cycle_bound 3 <= 9 /\
  exists o, @graph_run model_codes (pytest_passes_from 100) 9 (Some Plan) ex_state (initial_world ex_fs) = Some o.
Proof.
  split; [vm_compute; lia|].
  apply (@invoke_terminates model_codes (pytest_passes_from 100)). vm_compute. lia.
Defined.

Lemma invoke_attempt_bounds_witness :
  exists s w, @graph_run model_codes (pytest_passes_from 2) 9 (Some Plan) ex_state (initial_world ex_fs)
              = Some (Finished s w) /\ (1 <= attempt_count s <= Z.max 1 3)%Z.
Proof.
  destruct (@graph_run model_codes (pytest_passes_from 2) 9 (Some Plan) ex_state (initial_world ex_fs))
    as [[s w|e w]|] eqn:E; [| apply (f_equal summary) in E; vm_compute in E; discriminate..].
  exists s, w. split; [reflexivity|].
  exact (@invoke_attempt_bounds model_codes (pytest_passes_from 2) _ _ _ _ _ _ _ E).
Defined.

Lemma invoke_success_sound_witness :
  exists s w, @graph_run model_codes (pytest_passes_from 2) 9 (Some Plan) ex_state (initial_world ex_fs)
              = Some (Finished s w) /\ task_complete s = true /\
  (test_results s = Some passed_msg /\
   exists r, head (w_trace w) = Some (PytestRun (Ok r)) /\ returncode r = 0%Z).
Proof.
  destruct (@graph_run model_codes (pytest_passes_from 2) 9 (Some Plan) ex_state (initial_world ex_fs))
    as [[s w|e w]|] eqn:E; [| apply (f_equal summary) in E; vm_compute in E; discriminate..].
  assert (Hc : task_complete s = true).
  { apply (f_equal summary) in E. vm_compute in E. injection E as H1 _ _ _. exact (eq_sym H1). }
  exists s, w. split_and!; [reflexivity | exact Hc | ..];
    apply (@invoke_success_sound model_codes (pytest_passes_from 2) _ _ _ _ _ _ _ E Hc).
Defined.

Lemma invoke_code_on_disk_witness :
  exists s w, @graph_run model_codes (pytest_passes_from 2) 9 (Some Plan) ex_state (initial_world ex_fs)
              = Some (Finished s w) /\ current_code s = Some ex_code /\
  (ex_code <> [] /\ w_fs w !! parser_path ex_state = Some (File ex_code)).
Proof.
  destruct (@graph_run model_codes (pytest_passes_from 2) 9 (Some Plan) ex_state (initial_world ex_fs))
    as [[s w|e w]|] eqn:E; [| apply (f_equal summary) in E; vm_compute in E; discriminate..].
  assert (Hc : current_code s = Some ex_code).
  { apply (f_equal (fun o => final_state o ≫= current_code)) in E. vm_compute in E.
    exact (eq_sym E). }
  exists s, w. split_and!; [reflexivity | exact Hc | ..];
    apply (@invoke_code_on_disk model_codes (pytest_passes_from 2) _ _ _ _ _ _ _ _ E Hc).
Defined.

Lemma invoke_csv_error_escapes_witness :
  read_csv_columns {[ [] := Dir ]} (csv_path ex_state) = Raise (enoent (csv_path ex_state)) /\
  @graph_run model_codes (pytest_passes_from 0) 2 (Some Plan) ex_state (initial_world {[ [] := Dir ]})
  = Some (Crashed (enoent (csv_path ex_state)) (initial_world {[ [] := Dir ]})).
Proof.
  split; [vm_compute; reflexivity|].
  apply (@invoke_csv_error_escapes model_codes (pytest_passes_from 0)). vm_compute. reflexivity.
Defined.

Lemma no_code_ends_run_witness :
  is_ok (read_csv_columns (w_fs (initial_world ex_fs)) (csv_path ex_state)) = true /\
  @generate_content model_empty 0 (build_prompt (target_bank ex_state) (test_results ex_state)) = Ok [] /\
  extract_code [] = Ok None /\ opt_truthy None = false /\
  @graph_run model_empty (pytest_passes_from 0) 5 (Some GenerateCode) ex_state (initial_world ex_fs) =
  Some (Finished (gen_fail ex_state no_code_msg)
          (tick_gen (initial_world ex_fs) (build_prompt (target_bank ex_state) (test_results ex_state)) (Ok []))).
Proof.
  split_and!; [vm_compute; reflexivity | reflexivity | reflexivity | reflexivity |].
  apply (@no_code_ends_run model_empty (pytest_passes_from 0) 4 ex_state (initial_world ex_fs) [] None);
    [vm_compute | | |]; reflexivity.
Defined.

Lemma failed_run_feeds_next_prompt_witness :
  let s := set_current_code ex_state (Some ex_code) in
  let w := initial_world ex_fs in
  exists c1 c2 c3,
    @run_pytest (pytest_passes_from 100) (w_test_runs w) (w_fs w) = Ok ex_failed_run /\
    returncode ex_failed_run <> 0%Z /\
    @step model_codes (pytest_passes_from 100) (mk_cfg (Some RunTests) s w) c1 /\
    @step model_codes (pytest_passes_from 100) c1 c2 /\
    @step model_codes (pytest_passes_from 100) c2 c3 /\
    (c_node c1 = Some SelfFix /\ c_node c2 = Some GenerateCode /\
     exists reply, w_trace (c_world c3) =
       ModelCall (build_prompt (target_bank s) (Some (failed_msg ex_failed_run))) reply ::
       PytestRun (Ok ex_failed_run) :: w_trace w).
Proof.
  intros s w.
  set (s1 := tests_update s (Ok ex_failed_run)). set (w1 := tick_test w (Ok ex_failed_run)).
  set (s2 := set_attempt_count s1 2).
  destruct (@generate_code_node model_codes s2 w1) as [w3 [s3|e]] eqn:E;
    [| apply (f_equal (fun p => is_ok (snd p))) in E; vm_compute in E; discriminate].
  assert (S1 : @step model_codes (pytest_passes_from 100) (mk_cfg (Some RunTests) s w)
                 (mk_cfg (Some SelfFix) s1 w1)) by (apply (step_node RunTests s w s1 w1); reflexivity).
  assert (S2 : @step model_codes (pytest_passes_from 100) (mk_cfg (Some SelfFix) s1 w1)
                 (mk_cfg (Some GenerateCode) s2 w1)) by (apply (step_node SelfFix s1 w1 s2 w1); reflexivity).
  assert (S3 : @step model_codes (pytest_passes_from 100) (mk_cfg (Some GenerateCode) s2 w1)
                 (mk_cfg (next_node GenerateCode s3) s3 w3)) by (by apply step_node).
  exists (mk_cfg (Some SelfFix) s1 w1), (mk_cfg (Some GenerateCode) s2 w1), (mk_cfg (next_node GenerateCode s3) s3 w3).
  split_and!; [reflexivity | discriminate | exact S1 | exact S2 | exact S3 | ..];
    apply (@failed_run_feeds_next_prompt model_codes (pytest_passes_from 100) s w ex_failed_run _ _ _
             eq_refl ltac:(discriminate) S1 S2 S3).
Defined.
End Agent.
