(* ===== verification/Run.v ===== *)
(** * The public entry: [run], its report, and eventual success

    [BankStatementParserAgent.__init__] and [run] (src/agent.py, lines
    50-65 and 172-193): the agent's model settings, the initial state,
    [workflow.invoke] under LangGraph's default recursion limit, and the
    lines [run] prints, kept as a list of output events (the writer
    pattern) that record what each line shows.  The liveness theorem
    states the conditions under which a run is sure to report success:
    a model that always answers with a code block, a test run that
    passes within the attempt bound, and a working directory where the
    reference CSV is readable and the parser can be written.  Under the
    same model, tests that always fail and [max_attempts >= 9] make the
    run exceed the recursion limit instead, while with [max_attempts <= 8]
    the run ends with the failure report carrying the output of the last
    failing run; a first reply without code ends the run with the
    failure report of attempt 1. *)

From stdpp Require Import base list strings gmap fin_maps.
From Stdlib Require Import Ascii ZArith Lia.
From S2P Require Import Prelude PyStr Fs Extract Prompt Agent.

Module Run.
Import PyStr Fs Extract Prompt Agent.

(** ** [__init__], lines 50-65 *)

(** What the constructor configures: the key given to [genai.configure],
    the model name and the four safety settings. *)
Record agent := mk_agent {
  api_key : pystr;
  model_name : pystr;
  safety_settings : list (pystr * pystr)
}.

Definition agent_init (key : pystr) : agent :=
  mk_agent key (lit "gemini-1.5-pro")
    (map (fun k => (lit k, lit "BLOCK_NONE"))
       ["HARM_CATEGORY_HATE_SPEECH"; "HARM_CATEGORY_HARASSMENT";
        "HARM_CATEGORY_SEXUALLY_EXPLICIT"; "HARM_CATEGORY_DANGEROUS_CONTENT"]).

(** ** [run], lines 172-193 *)

(** The lines printed during [run], by what they show: the start and
    the summary of [run] (lines 173 and 189-193) and the line each node
    prints on entry (lines 90, 95, 132 and 150). *)
Inductive out_line :=
  | OStarting (target : pystr)
  | OPlanning (target : pystr)
  | OGenerating (attempt : Z)
  | ORunningTests
  | OSelfCorrecting
  | OSuccess (parser_path : path)
  | OFailure (attempts : Z)
  | OLastResult (test_results : option pystr).

(** The first statement of each node: a [print] of the state it got. *)
Definition plan_print (s : AgentState) : out_line := OPlanning (target_bank s).
Definition generate_print (s : AgentState) : out_line := OGenerating (attempt_count s).
Definition tests_print (s : AgentState) : out_line := ORunningTests.
Definition fix_print (s : AgentState) : out_line := OSelfCorrecting.

Definition node_print (n : node) : AgentState -> out_line :=
  match n with
  | Plan => plan_print
  | GenerateCode => generate_print
  | RunTests => tests_print
  | SelfFix => fix_print
  end.

(** Lines printed before a computation that prints and ends. *)
Definition prepend {A} (ls : list out_line) (p : list out_line * A) : list out_line * A :=
  (ls ++ fst p, snd p).

(** [workflow.invoke] as [Agent.graph_run], with the lines the nodes
    print: a node prints when it starts, also when it then raises. *)
Fixpoint invoke `{GenAI} `{TestProcess} (fuel : nat) (n : option node)
    (s : AgentState) (w : world) : list out_line * option outcome :=
  match n with
  | None => ([], Some (Finished s w))
  | Some n =>
      match fuel with
      | O => ([], None)
      | S f =>
          match run_node n s w with
          | (w', Ok s') => prepend [node_print n s] (invoke f (next_node n s') s' w')
          | (w', Raise e) => ([node_print n s], Some (Crashed e w'))
          end
      end
  end.

(** LangGraph's default [recursion_limit]: the node executions one
    [invoke] may take before it raises [GraphRecursionError]. *)
Definition recursion_limit : nat := 25.

Definition recursion_error : exc :=
  mk_exc OtherException (lit "Recursion limit of 25 reached without hitting a stop condition.").

(** The report of lines 189-193. *)
Definition report (s : AgentState) : list out_line :=
  if task_complete s then [OSuccess (parser_path s)]
  else [OFailure (attempt_count s); OLastResult (test_results s)].

(** [run(target_bank, max_attempts)] from the working directory [cwd]:
    the lines printed and whether an exception escaped. *)
Definition run `{GenAI} `{TestProcess} (cwd : path) (target : pystr) (max_attempts : Z)
    (w : world) : list out_line * result unit :=
  let '(lines, o) := invoke recursion_limit (Some Plan) (initial_state cwd target max_attempts) w in
  let out := OStarting target :: lines in
  match o with
  | Some (Finished s _) => (out ++ report s, Ok tt)
  | Some (Crashed e _) => (out, Raise e)
  | None => (out, Raise recursion_error)
  end.

(** [main()] once [argparse] has read [--target] and [--api-key]: the
    agent is built and [run] uses the default [max_attempts=3]. *)
Definition main `{GenAI} `{TestProcess} (cwd : path) (target key : pystr) (w : world)
    : agent * (list out_line * result unit) :=
  (agent_init key, run cwd target 3 w).

(** ** A working directory where generation succeeds *)

(** The reference CSV is readable, no file lies on the way to the
    parser's directory, no directory sits where the parser goes, and the
    two paths differ. *)
Definition ready_paths (pp csv : path) (m : fs) : Prop :=
  fs_wf m /\ is_ok (read_csv_columns m csv) = true /\
  no_file_on m (parent pp) /\ m !! pp <> Some Dir /\ csv <> pp.

Definition ready (s : AgentState) (m : fs) : Prop := ready_paths (parser_path s) (csv_path s) m.

Definition readyb (s : AgentState) (m : fs) : bool :=
  fs_wfb m && is_ok (read_csv_columns m (csv_path s)) && no_file_onb m (parent (parser_path s)) &&
  bool_decide (m !! parser_path s <> Some Dir) && bool_decide (csv_path s <> parser_path s).

(** The lines of [j] cycles of generation, testing and fixing from
    attempt [a]. *)
Definition cycle_lines (a : Z) : list out_line := [OGenerating a; ORunningTests; OSelfCorrecting].

Fixpoint cycles_out (a : Z) (j : nat) : list out_line :=
  match j with
  | O => []
  | S j => cycle_lines a ++ cycles_out (a + 1) j
  end.

(** The pytest runs before the [k]-th all fail. *)
Definition fails_before `{TestProcess} (k : nat) : Prop :=
  forall n m, n < k -> exists r, run_pytest n m = Ok r /\ returncode r <> 0%Z.

(** A pytest whose every run fails, for the examples. *)
Definition pytest_always_fails : TestProcess := fun _ _ => Ok ex_failed_run.

(** ** Lemmas on the working directory *)

Lemma readyb_spec s m : readyb s m = true <-> ready s m.
Proof.
  unfold readyb, ready, ready_paths.
  rewrite !andb_true_iff, fs_wfb_spec, no_file_onb_spec, !bool_decide_eq_true. naive_solver.
Qed.

Lemma read_csv_columns_file m p : is_ok (read_csv_columns m p) = true -> exists d, m !! p = Some (File d).
Proof.
  unfold read_csv_columns. destruct (resolve_parent m p); [|done]. simpl.
  destruct (m !! p) as [[|d]|]; [done | eauto | done].
Qed.

(** Reading the CSV again gives the same columns once directories were
    added and the file itself is unchanged. *)
Lemma read_csv_columns_stable m m' p :
  fs_wf m -> fs_wf m' -> is_ok (read_csv_columns m p) = true ->
  (forall q, m !! q = Some Dir -> m' !! q = Some Dir) -> m' !! p = m !! p ->
  read_csv_columns m' p = read_csv_columns m p.
Proof.
  intros Hwf Hwf' Hok Hdir Hp. unfold read_csv_columns in *.
  destruct (resolve_parent m p) as [[]|e] eqn:Hr; [|done].
  rewrite (resolve_parent_ok m' p Hwf') by (apply Hdir; by apply resolve_parent_dir).
  simpl. by rewrite Hp.
Qed.

(** The store the generation node leaves after storing [c]. *)
Lemma ready_after_store pp csv m c :
  ready_paths pp csv m -> ready_paths pp csv (<[pp := File c]> (set_dirs (rev (parent pp)) m)).
Proof.
  intros (Hwf & Hok & Hnf & Hpd & Hne).
  destruct (makedirs_then_write m pp c Hwf Hnf Hpd) as (_ & Hwf2 & Hdir & Hfile & Hnf2 & Hpp).
  destruct (read_csv_columns_file m csv Hok) as [d Hd].
  split_and!; [done | | done | by rewrite Hpp | done].
  rewrite (read_csv_columns_stable m) by (try done; rewrite Hd; by apply Hfile). done.
Qed.

Section Nodes.
Context `{GenAI} `{TestProcess}.

(** From a ready directory, a reply holding code makes the generation
    node store it and leave the directory ready. *)
Lemma generate_code_node_stores s w text c :
  ready s (w_fs w) ->
  generate_content (w_gen_calls w) (build_prompt (target_bank s) (test_results s)) = Ok text ->
  extract_code text = Ok (Some c) -> c <> [] ->
  exists w', generate_code_node s w = (w', Ok (set_current_code s (Some c))) /\
    ready s (w_fs w') /\ w_test_runs w' = w_test_runs w /\
    w_fs w' = <[parser_path s := File c]> (set_dirs (rev (parent (parser_path s))) (w_fs w)).
Proof.
  intros Hr Hgen Hex Hc. pose proof Hr as (Hwf & Hok & Hnf & Hpd & Hne).
  destruct (makedirs_then_write (w_fs w) (parser_path s) c Hwf Hnf Hpd) as (Hw & _).
  eexists (mk_world _ _ _ _). split_and!; [| by apply ready_after_store | reflexivity | reflexivity].
  cbv [generate_code_node mbind stm_bind stm_try call_model stm_lift].
  destruct (read_csv_columns (w_fs w) (csv_path s)); [|done].
  rewrite Hgen, Hex. destruct c as [|ch c']; [done|].
  cbv [store_code on_fs mbind stm_bind stm_sys mret stm_ret makedirs]. cbn [str_truthy w_fs].
  rewrite makedirs_rev_spec by (done || by rewrite rev_involutive).
  cbn -[write_text set_dirs build_prompt]. rewrite Hw. reflexivity.
Qed.

End Nodes.

(** ** The printing interpreter *)

Section Invoke.
Context `{GenAI} `{TestProcess}.

Lemma prepend_app {A} (l1 l2 : list out_line) (p : list out_line * A) :
  prepend l1 (prepend l2 p) = prepend (l1 ++ l2) p.
Proof. unfold prepend. cbn. by rewrite app_assoc. Qed.

Lemma invoke_end f s w : invoke f None s w = ([], Some (Finished s w)).
Proof. by destruct f. Qed.

Lemma invoke_step f n s w s' w' :
  run_node n s w = (w', Ok s') ->
  invoke (S f) (Some n) s w = prepend [node_print n s] (invoke f (next_node n s') s' w').
Proof. intros Hr. cbn [invoke]. by rewrite Hr. Qed.

(** Printing changes nothing else: the outcome of [invoke] is the one of
    [Agent.graph_run]. *)
Lemma invoke_outcome f n s w : snd (invoke f n s w) = graph_run f n s w.
Proof.
  revert n s w. induction f as [|f IH]; intros [n|] s w; try done.
  cbn [invoke graph_run]. destruct (run_node n s w) as [w' [s'|e]]; [apply IH | done].
Qed.

Lemma take_cycles_out i : forall a j, i <= j -> take (3 * i) (cycles_out a j) = cycles_out a i.
Proof.
  induction i as [|i IH]; intros a [|j] Hij; [done | done | lia |].
  replace (3 * S i) with (S (S (S (3 * i)))) by lia. cbn. rewrite IH by lia. done.
Qed.

End Invoke.

(** Testing changes neither the paths nor the attempt counters. *)
Lemma tests_update_ready s r m : ready (tests_update s r) m <-> ready s m.
Proof. unfold ready, tests_update. destruct r as [c|e]; [destruct (decide _)|]; done. Qed.

(** ** Eventual success

    Under a model that always answers with a non-empty code block and a
    test process whose [k]-th run passes, every cycle from a ready
    directory stores the code and tests it; the run reaches success as
    long as the retry bound allows [k] failures first. *)

Section Liveness.
Context `{GenAI} `{TestProcess}.

Hypothesis H_model : forall n prompt, exists text c,
  generate_content n prompt = Ok text /\ extract_code text = Ok (Some c) /\ c <> [].

Variable k : nat.
Hypothesis H_pass : forall m, exists r, run_pytest k m = Ok r /\ returncode r = 0%Z.

(** One generation from a ready directory stores some code and prints
    the attempt. *)
Lemma generate_step f s w :
  ready s (w_fs w) ->
  exists c w1, ready s (w_fs w1) /\ w_test_runs w1 = w_test_runs w /\
    w_fs w1 = <[parser_path s := File c]> (set_dirs (rev (parent (parser_path s))) (w_fs w)) /\
    invoke (S f) (Some GenerateCode) s w =
    prepend [OGenerating (attempt_count s)] (invoke f (Some RunTests) (set_current_code s (Some c)) w1).
Proof.
  intros Hr.
  destruct (H_model (w_gen_calls w) (build_prompt (target_bank s) (test_results s))) as (text & c & Hg & Hx & Hc).
  destruct (generate_code_node_stores s w text c Hr Hg Hx Hc) as (w1 & Hrun & Hr1 & Ht1 & Hfs).
  exists c, w1. split_and!; [done | done | done |].
  rewrite (invoke_step _ GenerateCode _ _ _ _ Hrun). cbn [next_node]. unfold should_test.
  by destruct c as [|ch c'].
Qed.

(** One cycle: generation stores code and the test node runs pytest on
    the stored files. *)
Lemma generate_then_test f s w :
  ready s (w_fs w) ->
  exists c w1, ready s (w_fs w1) /\ w_test_runs w1 = w_test_runs w /\
    let r := run_pytest (w_test_runs w) (w_fs w1) in
    let s2 := tests_update (set_current_code s (Some c)) r in
    invoke (S (S f)) (Some GenerateCode) s w =
    prepend [OGenerating (attempt_count s); ORunningTests] (invoke f (should_continue_fixing s2) s2 (tick_test w1 r)).
Proof.
  intros Hr. destruct (generate_step (S f) s w Hr) as (c & w1 & Hr1 & Ht1 & _ & ->).
  exists c, w1. split_and!; [done | done |]. rewrite <- Ht1.
  rewrite (invoke_step _ RunTests _ _ _ _ (run_tests_node_run _ _)), prepend_app. done.
Qed.

(** From the generation node with [j] test runs to go before the passing
    one and room for them in the retry bound, [3 * j + 2] node
    executions end the run with the task complete, after [i <= j] full
    cycles and one generation and test. *)
Lemma cycles_succeed j : forall f s w,
  w_test_runs w + j = k -> ready s (w_fs w) ->
  (1 <= attempt_count s)%Z -> (attempt_count s + Z.of_nat j <= Z.max 1 (max_attempts s))%Z ->
  3 * j + 2 <= f ->
  exists i s' w', i <= j /\ (fails_before k -> i = j) /\
    invoke f (Some GenerateCode) s w =
      (cycles_out (attempt_count s) i ++ [OGenerating (attempt_count s + Z.of_nat i); ORunningTests],
       Some (Finished s' w')) /\
    task_complete s' = true /\ parser_path s' = parser_path s.
Proof.
  induction j as [|j IH]; intros f s w Hk Hr Ha Hm Hf;
    (destruct f as [|[|f]]; [lia | lia |]);
    destruct (generate_then_test f s w Hr) as (c & w1 & Hr1 & Ht1 & ->);
    set (r := run_pytest (w_test_runs w) (w_fs w1));
    destruct (tests_update_fields (set_current_code s (Some c)) r) as (_ & Ha2 & Hm2 & Hp2);
    unfold should_continue_fixing.
  - destruct (H_pass (w_fs w1)) as (o & Ho & Hrc).
    assert (Hr' : r = Ok o) by (rewrite Nat.add_0_r in Hk; unfold r; by rewrite Hk).
    rewrite Hr'. cbn [tests_update]. rewrite decide_True by done.
    cbn [task_complete set_task_complete]. rewrite invoke_end.
    exists 0; eexists _, _.
    split_and!; [lia | done | unfold prepend; cbn; by rewrite Z.add_0_r | reflexivity | reflexivity].
  - destruct (task_complete (tests_update _ r)) eqn:Htc.
    { rewrite invoke_end. exists 0; eexists _, _.
      split_and!; [lia | | unfold prepend; cbn; by rewrite Z.add_0_r | done | by rewrite Hp2].
      intros Hfb. destruct (Hfb (w_test_runs w) (w_fs w1)) as (o & Ho & Hrc); [lia|].
      assert (Hr' : r = Ok o) by exact Ho. rewrite Hr' in Htc. cbn [tests_update] in Htc.
      rewrite decide_False in Htc by done. discriminate. }
    rewrite Ha2, Hm2. cbn [attempt_count max_attempts set_current_code].
    rewrite (proj2 (Z.ltb_lt _ _)) by lia.
    destruct f as [|f]; [lia|].
    rewrite (invoke_step _ SelfFix _ _ _ _ (self_fix_node_run _ _)). cbn [next_node].
    set (s3 := set_attempt_count (tests_update (set_current_code s (Some c)) r)
                 (attempt_count (tests_update (set_current_code s (Some c)) r) + 1)%Z).
    assert (Ha3 : attempt_count s3 = (attempt_count s + 1)%Z) by (cbn [s3 set_attempt_count attempt_count]; by rewrite Ha2).
    destruct (IH f s3 (tick_test w1 r)) as (i & s' & w' & Hi & Hex & Hrun & Hdone & Hpp).
    + cbn [tick_test w_test_runs]. lia.
    + change (ready (tests_update (set_current_code s (Some c)) r) (w_fs w1)).
      by apply tests_update_ready.
    + lia.
    + rewrite Ha3. cbn [s3 set_attempt_count max_attempts]. rewrite Hm2. cbn. lia.
    + lia.
    + exists (S i), s', w'. split_and!; [lia | intros Hfb; by rewrite (Hex Hfb) | | done | rewrite Hpp; cbn; by rewrite Hp2].
      rewrite Hrun, Ha3, prepend_app. unfold prepend.
      cbn [fst snd node_print fix_print cycles_out cycle_lines app].
      unfold fix_print. by replace (attempt_count s + Z.of_nat (S i))%Z with (attempt_count s + 1 + Z.of_nat i)%Z by lia.
Qed.

Hypothesis H_fail : forall n m, exists r, run_pytest n m = Ok r /\ returncode r <> 0%Z.

(** With every test run failing, a run from the generation node at
    attempt [a] needs [3 * (max_attempts - a) + 2] node executions:
    with fewer it prints the first lines of the cycles and does not
    reach [END]. *)
Lemma cycles_fail j : forall f s w,
  Z.to_nat (max_attempts s - attempt_count s) = j -> ready s (w_fs w) ->
  f < 3 * j + 2 ->
  invoke f (Some GenerateCode) s w = (take f (cycles_out (attempt_count s) (S j)), None).
Proof.
  induction j as [|j IH]; intros f s w Hj Hr Hf; (destruct f as [|[|f]]; [done | |]);
    try (destruct (generate_step 0 s w Hr) as (c & w1 & _ & _ & _ & ->); done);
    [lia|].
  destruct (generate_then_test f s w Hr) as (c & w1 & Hr1 & Ht1 & ->).
  set (r := run_pytest (w_test_runs w) (w_fs w1)).
  destruct (H_fail (w_test_runs w) (w_fs w1)) as (o & Ho & Hrc).
  assert (Hr' : r = Ok o) by exact Ho. rewrite Hr'. cbn [tests_update]. rewrite decide_False by done.
  unfold should_continue_fixing.
  cbn [task_complete set_task_complete set_test_results set_current_code attempt_count max_attempts].
  rewrite (proj2 (Z.ltb_lt _ _)) by lia. destruct f as [|f]; [done|].
  rewrite (invoke_step _ SelfFix _ _ _ _ (self_fix_node_run _ _)). cbn [next_node].
  rewrite IH; [| cbn; lia | exact Hr1 | lia]. done.
Qed.


(** C12: the recursion limit: when the model always answers with code
    and every test run fails, a run with [max_attempts >= 9] needs
    [3 * max_attempts] node executions, more than LangGraph's 25, so
    [invoke] raises [GraphRecursionError] after eight cycles: [run]
    prints its start, the planning line and the lines of attempts 1 to
    8, and the error escapes instead of the failure report. *)
Theorem run_hits_recursion_limit cwd target m fs0 :
  9 <= cycle_bound m -> ready (initial_state cwd target m) fs0 ->
  run cwd target m (initial_world fs0) =
  (OStarting target :: OPlanning target :: cycles_out 1 8, Raise recursion_error).
Proof.
  intros Hm Hr. unfold run. change recursion_limit with (S 24).
  rewrite (invoke_step _ Plan _ _ _ _ (plan_node_run _ _)). cbn [next_node].
  rewrite (cycles_fail (Z.to_nat (m - 1))); [| reflexivity | exact Hr | unfold cycle_bound in Hm; lia].
  unfold cycle_bound in Hm. cbn [prepend fst snd app].
  rewrite (take_cycles_out 8 _ (S (Z.to_nat (m - 1)))) by lia. done.
Qed.


(** C18: a first reply without code ends the run at once, whatever the
    retry bound: [run] prints its start, the planning line, the
    generation of attempt 1 and the failure report of attempt 1 with the
    no-code feedback.  No retry follows, since the self-correction node
    is only reached from the test node. *)
Theorem run_no_code_reports_failure cwd target m fs0 text code :
  is_ok (read_csv_columns fs0 (csv_path (initial_state cwd target m))) = true ->
  generate_content 0 (build_prompt target None) = Ok text ->
  extract_code text = Ok code -> opt_truthy code = false ->
  run cwd target m (initial_world fs0) =
  ([OStarting target; OPlanning target; OGenerating 1; OFailure 1; OLastResult (Some no_code_msg)], Ok tt).
Proof.
  intros Hcsv Hgen Hex Hno. unfold run. change recursion_limit with (S (S 23)).
  rewrite (invoke_step _ Plan _ _ _ _ (plan_node_run _ _)). cbn [next_node].
  match goal with |- context [invoke _ (Some GenerateCode) ?s1 ?w1] =>
    rewrite (invoke_step _ GenerateCode _ _ _ _ (generate_code_node_no_code s1 w1 text code Hcsv Hgen Hex Hno)) end.
  unfold next_node, should_test. cbn [gen_fail current_code set_test_results set_current_code opt_truthy].
  rewrite invoke_end. reflexivity.
Qed.

(** From the initial state: the lines of a successful run after [i]
    failed cycles, with [i = k] when the runs before the [k]-th fail. *)
Lemma run_success_lines cwd target m fs0 :
  k < cycle_bound m -> 3 * cycle_bound m <= recursion_limit ->
  ready (initial_state cwd target m) fs0 ->
  exists i, i <= k /\ (fails_before k -> i = k) /\
  run cwd target m (initial_world fs0) =
  (OStarting target :: OPlanning target :: cycles_out 1 i ++
     [OGenerating (1 + Z.of_nat i); ORunningTests; OSuccess (parser_path (initial_state cwd target m))], Ok tt).
Proof.
  intros Hk Hlim Hr. unfold run. change recursion_limit with (S 24) in *.
  rewrite (invoke_step _ Plan _ _ _ _ (plan_node_run _ _)). cbn [next_node].
  destruct (cycles_succeed k 24 (set_messages (initial_state cwd target m) (messages (initial_state cwd target m) ++
              [mk_message (lit "user") (lit "Plan a Python parser for " ++ target_bank (initial_state cwd target m) ++ lit ".")]))
              (initial_world fs0)) as (i & s' & w' & Hi & Hex & -> & Hdone & Hpp);
    [done | exact Hr | cbn; lia | cbn; unfold cycle_bound in Hk; lia | unfold cycle_bound in *; lia |].
  exists i. split_and!; [done | done |]. unfold prepend, report. cbn [fst snd]. rewrite Hdone, Hpp.
  cbn. by rewrite <- app_assoc.
Qed.

(** C11: liveness of [run]: when the model always answers with a
    non-empty code block, the [k]-th pytest run passes, the retry bound
    allows [k] failures before it, the bound fits LangGraph's recursion
    limit, and the directory is ready, [run] prints the start, the
    planning line, [i <= k] cycles of generation, testing and fixing, one
    more generation and test, and the success line naming the parser
    file, and no exception escapes. *)
Theorem run_eventually_succeeds cwd target m fs0 :
  k < cycle_bound m -> 3 * cycle_bound m <= recursion_limit ->
  ready (initial_state cwd target m) fs0 ->
  exists i, i <= k /\
  run cwd target m (initial_world fs0) =
  (OStarting target :: OPlanning target :: cycles_out 1 i ++
     [OGenerating (1 + Z.of_nat i); ORunningTests; OSuccess (parser_path (initial_state cwd target m))], Ok tt).
Proof.
  intros Hk Hlim Hr. destruct (run_success_lines cwd target m fs0 Hk Hlim Hr) as (i & Hi & _ & Hrun).
  by exists i.
Qed.

(** C33: a test process that fails [k] times and then passes, within the
    retry and recursion bounds, makes [run] print exactly [k] cycles of
    generation, testing and fixing, for attempts 1 to [k], then the
    generation and test of attempt [k + 1] and the success line. *)
Theorem run_fails_then_passes cwd target m fs0 :
  fails_before k -> k < cycle_bound m -> 3 * cycle_bound m <= recursion_limit ->
  ready (initial_state cwd target m) fs0 ->
  run cwd target m (initial_world fs0) =
  (OStarting target :: OPlanning target :: cycles_out 1 k ++
     [OGenerating (1 + Z.of_nat k); ORunningTests; OSuccess (parser_path (initial_state cwd target m))], Ok tt).
Proof.
  intros Hfb Hk Hlim Hr. destruct (run_success_lines cwd target m fs0 Hk Hlim Hr) as (i & _ & Hex & Hrun).
  by rewrite Hrun, (Hex Hfb).
Qed.

End Liveness.

Lemma run_eventually_succeeds_witness :
  exists i, i <= 2 /\
  @run model_codes (pytest_passes_from 2) ex_cwd (lit "icici") 3 (initial_world ex_fs) =
  (OStarting (lit "icici") :: OPlanning (lit "icici") :: cycles_out 1 i ++
     [OGenerating (1 + Z.of_nat i); ORunningTests; OSuccess (parser_path (initial_state ex_cwd (lit "icici") 3))], Ok tt).
Proof.
  apply (@run_eventually_succeeds model_codes (pytest_passes_from 2)) with (k := 2).
  - intros n p. exists ex_reply, ex_code. split_and!; [reflexivity | vm_compute; reflexivity | discriminate].
  - intros m. eexists. split; reflexivity.
  - vm_compute. lia.
  - vm_compute. lia.
  - apply readyb_spec. vm_compute. reflexivity.
Defined.

Lemma run_hits_recursion_limit_witness :
  @run model_codes pytest_always_fails ex_cwd (lit "icici") 9 (initial_world ex_fs) =
  (OStarting (lit "icici") :: OPlanning (lit "icici") :: cycles_out 1 8, Raise recursion_error).
Proof.
  apply (@run_hits_recursion_limit model_codes pytest_always_fails).
  - intros n p. exists ex_reply, ex_code. split_and!; [reflexivity | vm_compute; reflexivity | discriminate].
  - intros n m. eexists. split; [reflexivity | discriminate].
  - vm_compute. lia.
  - apply readyb_spec. vm_compute. reflexivity.
Defined.

Lemma run_fails_then_passes_witness :
  @run model_codes (pytest_passes_from 2) ex_cwd (lit "icici") 3 (initial_world ex_fs) =
  (OStarting (lit "icici") :: OPlanning (lit "icici") :: cycles_out 1 2 ++
     [OGenerating (1 + Z.of_nat 2); ORunningTests; OSuccess (parser_path (initial_state ex_cwd (lit "icici") 3))], Ok tt).
Proof.
  apply (@run_fails_then_passes model_codes (pytest_passes_from 2)).
  - intros n p. exists ex_reply, ex_code. split_and!; [reflexivity | vm_compute; reflexivity | discriminate].
  - intros m. eexists. split; reflexivity.
  - intros n m Hn. eexists. split; [reflexivity|]. cbn. destruct n as [|[|]]; [done | done | lia].
  - vm_compute. lia.
  - vm_compute. lia.
  - apply readyb_spec. vm_compute. reflexivity.
Defined.


Lemma run_no_code_reports_failure_witness :
  @run model_empty pytest_always_fails ex_cwd (lit "icici") 3 (initial_world ex_fs) =
  ([OStarting (lit "icici"); OPlanning (lit "icici"); OGenerating 1; OFailure 1;
    OLastResult (Some no_code_msg)], Ok tt).
Proof.
  apply (@run_no_code_reports_failure model_empty pytest_always_fails ex_cwd (lit "icici") 3 ex_fs [] None);
    [vm_compute | | |]; reflexivity.
Defined.

End Run.
