(* ===== verification/Config.v ===== *)
(** * The configuration module

    [class Config] of src/config.py.  The class body reads two things
    from its environment when the module is imported, the variable
    [GEMINI_API_KEY] and the directory of the file; they are the fields
    of [Config].  Everything else is a constant.  [validate_setup] reads
    the store of files, [create_directories] changes it through
    [pathlib.Path.mkdir] ([Fs.path_mkdir]).  The theorems show that
    [create_directories] makes every directory [validate_setup] asks
    for, leaves everything else alone and is idempotent, that the first
    configured directory that is a file stops it after it made exactly
    the directories before that one, and that [python
    config.py] prints its validation before it creates the directories:
    a first run warns about the directories it makes, a second run does
    not. *)

From stdpp Require Import base list strings gmap fin_maps.
From Stdlib Require Import Ascii ZArith QArith Lia DecimalString.
From S2P Require Import Prelude PyStr Fs.

Module Config.
Import PyStr Fs.

(** ** The class attributes, lines 10-58 *)

(** [os.getenv('GEMINI_API_KEY')] and [Path(__file__).parent]. *)
Record Config := mk_config { GEMINI_API_KEY : option pystr; BASE_DIR : path }.

Definition GEMINI_MODEL : pystr := lit "gemini-1.5-pro".
Definition MAX_ATTEMPTS : Z := 3.
Definition TIMEOUT_SECONDS : Z := 60.

Definition DATA_DIR (c : Config) : path := path_div (BASE_DIR c) (lit "data").
Definition PARSERS_DIR (c : Config) : path := path_div (BASE_DIR c) (lit "custom_parsers").
Definition TESTS_DIR (c : Config) : path := path_div (BASE_DIR c) (lit "tests").

Definition SUPPORTED_BANKS : list pystr := map lit ["icici"; "sbi"; "hdfc"; "axis"; "kotak"].

Definition REQUIRED_COLUMNS : list pystr :=
  map lit ["Date"; "Description"; "Debit Amt"; "Credit Amt"; "Balance"].

(** The values of [LLM_SETTINGS]: Python [float] and [int] literals. *)
Inductive setting := SFloat (q : Q) | SInt (z : Z).

Definition LLM_SETTINGS : list (pystr * setting) :=
  [(lit "temperature", SFloat (1 # 10)); (lit "max_tokens", SInt 4000); (lit "top_p", SFloat (8 # 10))].

Definition SAFETY_SETTINGS : list (pystr * pystr) :=
  map (fun k => (lit k, lit "BLOCK_NONE"))
    ["HARM_CATEGORY_HATE_SPEECH"; "HARM_CATEGORY_HARASSMENT";
     "HARM_CATEGORY_SEXUALLY_EXPLICIT"; "HARM_CATEGORY_DANGEROUS_CONTENT"].

(** ** [get_bank_paths], lines 60-68 *)

Record bank_paths := mk_bank_paths { pdf_path : path; csv_path : path; parser_path : path }.

Definition get_bank_paths (c : Config) (bank_name : pystr) : bank_paths :=
  let bank_dir := path_div (DATA_DIR c) bank_name in
  mk_bank_paths (path_div bank_dir (bank_name ++ lit "_sample.pdf"))
                (path_div bank_dir (bank_name ++ lit "_sample.csv"))
                (path_div (PARSERS_DIR c) (bank_name ++ lit "_parser.py")).

(** ** [validate_setup], lines 70-95 *)

Record validation := mk_validation { valid : bool; issues : list pystr; warnings : list pystr }.

(** [if not cond: lst.append(msg)]. *)
Definition append_unless (b : bool) (msg : pystr) : list pystr := if b then [] else [msg].

Definition validate_setup (c : Config) (m : fs) : validation :=
  let issues := append_unless (opt_truthy (GEMINI_API_KEY c)) (lit "GEMINI_API_KEY not set") in
  let warnings :=
    flat_map (fun d => append_unless (exists_path m d) (lit "Directory will be created: " ++ path_str d))
      [DATA_DIR c; PARSERS_DIR c] ++
    flat_map (fun bank => append_unless (exists_path m (parent (pdf_path (get_bank_paths c bank))))
                            (lit "Data directory missing for " ++ bank))
      SUPPORTED_BANKS in
  mk_validation (length issues =? 0) issues warnings.

(** ** [create_directories], lines 97-112 *)

Definition create_directories (c : Config) : stm fs unit :=
  py_for [DATA_DIR c; PARSERS_DIR c; TESTS_DIR c] (fun d => path_mkdir d true true) ;;
  py_for SUPPORTED_BANKS (fun bank => path_mkdir (path_div (DATA_DIR c) bank) false true).

(** The directories [create_directories] makes. *)
Definition config_dirs (c : Config) : list path :=
  DATA_DIR c :: PARSERS_DIR c :: TESTS_DIR c :: map (path_div (DATA_DIR c)) SUPPORTED_BANKS.

(** ** What the module prints

    The lines [validate_environment] and the [__main__] block print, one
    event per [print]; a line that holds only ASCII text is that text,
    and the lines that hold an emoji are named by the emoji. *)
Inductive cfg_line :=
  | LText (s : pystr)
  | LIssuesBanner                (** ["❌ Configuration issues:"] *)
  | LWarningsBanner              (** ["⚠️  Configuration warnings:"] *)
  | LTitle                       (** ["🔧 Configuration Validation"] *)
  | LComplete                    (** ["\n✅ Configuration validation complete"] *)
  | LKeySet (set : bool)         (** ["  API Key Set: ✅"] or ["... ❌"] *)
  | LSetupComplete.              (** ["Configuration setup complete! 🎉"] *)

(** [str(b)] of a Python [bool], [s * n] of a string, and [str(n)] of
    the two small integer constants. *)
Definition py_bool_str (b : bool) : pystr := if b then lit "True" else lit "False".
Definition str_mul (s : pystr) (n : nat) : pystr := concat (repeat s n).
Definition py_int_str (z : Z) : pystr := lit (NilZero.string_of_int (Z.to_int z)).

(** [get_config()], lines 116-121: the module-level instance. *)
Definition get_config (config : Config) : Config := config.

(** ** [validate_environment], lines 124-139 *)

Definition validate_environment (c : Config) (m : fs) : list cfg_line * bool :=
  let v := validate_setup c m in
  if negb (valid v) then
    (LIssuesBanner :: map (fun i => LText (lit "   - " ++ i)) (issues v), false)
  else if list_truthy (warnings v) then
    (LWarningsBanner :: map (fun w => LText (lit "   - " ++ w)) (warnings v), true)
  else ([], true).

(** ** The [__main__] block, lines 142-193 *)

(** Lines 144-159: the verdict and the messages of [validate_setup]. *)
Definition validation_lines (v : validation) : list cfg_line :=
  [LTitle; LText (str_mul (lit "-") 30); LText (lit "Valid: " ++ py_bool_str (valid v))] ++
  (if list_truthy (issues v) then
     LText (lit "Issues:") :: map (fun i => LText (lit "  - " ++ i)) (issues v) else []) ++
  (if list_truthy (warnings v) then
     LText (lit "Warnings:") :: map (fun w => LText (lit "  - " ++ w)) (warnings v) else []).

(** Lines 161-168: the banks, the columns and the directories. *)
Definition info_lines (c : Config) : list cfg_line :=
  [LText (newline ++ lit "Supported banks: " ++ PyStr.join (lit ", ") SUPPORTED_BANKS);
   LText (lit "Required columns: " ++ PyStr.join (lit ", ") REQUIRED_COLUMNS);
   LText (newline ++ lit "Directory paths:");
   LText (lit "  Base: " ++ path_str (BASE_DIR c));
   LText (lit "  Data: " ++ path_str (DATA_DIR c));
   LText (lit "  Parsers: " ++ path_str (PARSERS_DIR c))].

(** [paths.items()]: the dictionary of [get_bank_paths] in the order of
    its literal. *)
Definition bank_path_items (b : bank_paths) : list (pystr * path) :=
  [(lit "pdf_path", pdf_path b); (lit "csv_path", csv_path b); (lit "parser_path", parser_path b)].

(** Lines 175-180: the paths of the first supported bank. *)
Definition example_lines (c : Config) : list cfg_line :=
  match SUPPORTED_BANKS with
  | example_bank :: _ =>
      LText (newline ++ lit "Example paths for " ++ example_bank ++ lit ":") ::
      map (fun '(key, p) => LText (lit "  " ++ key ++ lit ": " ++ path_str p))
          (bank_path_items (get_bank_paths c example_bank))
  | [] => []
  end.

(** Lines 182-193: the model settings and the next steps. *)
Definition api_lines (c : Config) : list cfg_line :=
  [LText (newline ++ lit "API Configuration:");
   LText (lit "  Model: " ++ GEMINI_MODEL);
   LKeySet (opt_truthy (GEMINI_API_KEY c));
   LText (lit "  Max Attempts: " ++ py_int_str MAX_ATTEMPTS);
   LText (lit "  Timeout: " ++ py_int_str TIMEOUT_SECONDS ++ lit "s");
   LText (newline ++ str_mul (lit "=") 50);
   LSetupComplete;
   LText (newline ++ lit "Next steps:");
   LText (lit "1. Set GEMINI_API_KEY environment variable");
   LText (lit "2. Copy your PDF and CSV files to data/icici/");
   LText (lit "3. Run: python agent.py --target icici")].

(** The first character of a printed text line. *)
Definition line_head (l : cfg_line) : option ascii :=
  match l with LText (a :: _) => Some a | _ => None end.

(** [python config.py]: the lines printed, the store of files after,
    and the exception [create_directories] lets escape, if any. *)
Definition config_main (c : Config) (m : fs) : list cfg_line * fs * result unit :=
  let out := validation_lines (validate_setup c m) ++ info_lines c in
  match create_directories c m with
  | (m', Ok _) => (out ++ [LComplete] ++ example_lines c ++ api_lines c, m', Ok tt)
  | (m', Raise e) => (out, m', Raise e)
  end.

(** A configuration whose module lives in [/app], with a key set, and a
    store holding just that directory. *)
Definition ex_config : Config := mk_config (Some (lit "key")) [lit "app"].
Definition ex_store : fs := <[[lit "app"] := Dir]> {[ [] := Dir ]}.

(** ** Paths *)

Lemma banks_plain :
  forallb (fun b => plain_component b && plain_component (b ++ lit "_sample.pdf")) SUPPORTED_BANKS = true.
Proof. vm_compute. reflexivity. Qed.

Lemma bank_plain b :
  In b SUPPORTED_BANKS -> plain_component b = true /\ plain_component (b ++ lit "_sample.pdf") = true.
Proof. intros Hb. apply andb_true_iff. exact (proj1 (forallb_forall _ _) banks_plain b Hb). Qed.

Lemma DATA_DIR_eq c : DATA_DIR c = BASE_DIR c ++ [lit "data"].
Proof. apply path_div_plain. vm_compute. reflexivity. Qed.

Lemma PARSERS_DIR_eq c : PARSERS_DIR c = BASE_DIR c ++ [lit "custom_parsers"].
Proof. apply path_div_plain. vm_compute. reflexivity. Qed.

Lemma TESTS_DIR_eq c : TESTS_DIR c = BASE_DIR c ++ [lit "tests"].
Proof. apply path_div_plain. vm_compute. reflexivity. Qed.

Lemma config_dirs_app c :
  config_dirs c = [DATA_DIR c; PARSERS_DIR c; TESTS_DIR c] ++ map (path_div (DATA_DIR c)) SUPPORTED_BANKS.
Proof. reflexivity. Qed.

Lemma lookup_map_Some {A B} (f : A -> B) l i y :
  map f l !! i = Some y -> exists x, y = f x /\ l !! i = Some x.
Proof. revert i. induction l as [|x l IH]; intros [|i]; cbn; [done | done | intros [= <-]; eauto | apply IH]. Qed.

(** A file at [d] is not on the way to a directory with no file on its way. *)
Lemma file_not_prefix m d x l :
  m !! d = Some (File x) -> Forall (no_file_on m) l -> Forall (fun y => ~ d `prefix_of` y) l.
Proof. intros Hd Hl. eapply Forall_impl; [done|]. intros y Hy Hp. by apply (Hy d x). Qed.

Lemma bank_dir_eq c b : In b SUPPORTED_BANKS -> path_div (DATA_DIR c) b = DATA_DIR c ++ [b].
Proof. intros Hb. apply path_div_plain, bank_plain, Hb. Qed.

Lemma bank_pdf_parent c b :
  In b SUPPORTED_BANKS -> parent (pdf_path (get_bank_paths c b)) = path_div (DATA_DIR c) b.
Proof.
  intros Hb. destruct (bank_plain b Hb) as [_ Hpdf]. simpl.
  rewrite (path_div_plain _ (b ++ lit "_sample.pdf")) by done. apply parent_snoc.
Qed.

Lemma flat_map_append_unless_nil {A} (f : A -> bool) (g : A -> pystr) l :
  flat_map (fun x => append_unless (f x) (g x)) l = [] <-> Forall (fun x => f x = true) l.
Proof.
  induction l as [|x l IH]; simpl; [split; by constructor|].
  rewrite Forall_cons, <- IH. unfold append_unless. destruct (f x); naive_solver.
Qed.

(** [validate_setup] warns about nothing exactly when the data and
    parser directories and the five bank directories exist. *)
Lemma warnings_nil c m :
  warnings (validate_setup c m) = [] <->
  exists_path m (DATA_DIR c) = true /\ exists_path m (PARSERS_DIR c) = true /\
  Forall (fun b => exists_path m (path_div (DATA_DIR c) b) = true) SUPPORTED_BANKS.
Proof.
  unfold validate_setup. cbn [warnings]. rewrite app_nil, !flat_map_append_unless_nil, !Forall_cons, !Forall_forall.
  assert (Hb : forall b, In b SUPPORTED_BANKS ->
    exists_path m (parent (pdf_path (get_bank_paths c b))) = exists_path m (path_div (DATA_DIR c) b))
    by (intros b Hb; by rewrite bank_pdf_parent).
  split.
  - intros [[H1 [H2 _]] H3]. split_and!; [done | done |]. intros b Hin.
    rewrite <- Hb by by apply list_elem_of_In. auto.
  - intros (H1 & H2 & H3). split_and!; [done | done | intros ? Hin; inversion Hin |]. intros b Hin.
    rewrite Hb by by apply list_elem_of_In. auto.
Qed.

Lemma no_file_at m p : no_file_on m p -> forall d, m !! p <> Some (File d).
Proof. intros H d. by apply H. Qed.

Lemma dir_exists m p : m !! p = Some Dir -> exists_path m p = true.
Proof. intros H. apply bool_decide_eq_true. by rewrite H. Qed.

(** ** [create_directories] *)

(** The two loop bodies: [d.mkdir(parents=True, exist_ok=True)] and
    [bank_dir.mkdir(exist_ok=True)] make their directory and change no
    entry outside its prefixes. *)
Lemma parents_body d m :
  fs_wf m -> no_file_on m d ->
  exists m', path_mkdir d true true m = (m', Ok tt) /\ grows m m' /\ m' !! d = Some Dir /\
    (forall q, ~ q `prefix_of` d -> m' !! q = m !! q).
Proof.
  intros Hwf Hnf. exists (set_dirs (rev d) m). split_and!.
  - by apply path_mkdir_spec.
  - by apply grows_set_dirs.
  - pose proof (set_dirs_target (rev d) m Hwf) as Ht. by rewrite rev_involutive in Ht.
  - intros q Hq. rewrite set_dirs_lookup, rev_involutive, decide_False; naive_solver.
Qed.

Lemma bank_body c b m :
  In b SUPPORTED_BANKS -> fs_wf m -> m !! DATA_DIR c = Some Dir -> no_file_on m (path_div (DATA_DIR c) b) ->
  exists m', path_mkdir (path_div (DATA_DIR c) b) false true m = (m', Ok tt) /\ grows m m' /\
    m' !! path_div (DATA_DIR c) b = Some Dir /\
    (forall q, ~ q `prefix_of` path_div (DATA_DIR c) b -> m' !! q = m !! q).
Proof.
  intros Hb Hwf HD Hnf. rewrite bank_dir_eq in * by done.
  exists (<[DATA_DIR c ++ [b] := Dir]> m). split_and!.
  - apply path_mkdir_child; [done | done | by apply no_file_at].
  - apply grows_insert_child; [done | done | by apply no_file_at].
  - by rewrite lookup_insert_eq.
  - intros q Hq. rewrite lookup_insert_ne; [done|]. intros <-. by apply Hq.
Qed.

(** The first loop, over the data, parsers and tests directories. *)
Lemma parents_loop l m :
  fs_wf m -> Forall (no_file_on m) l ->
  exists m', py_for l (fun d => path_mkdir d true true) m = (m', Ok tt) /\ grows m m' /\
    Forall (fun d => m' !! d = Some Dir) l /\
    (forall q, Forall (fun d => ~ q `prefix_of` d) l -> m' !! q = m !! q).
Proof.
  intros Hwf Hnf. apply (py_for_dirs _ id (fun _ => True)); [done | | done | done | done].
  intros d m0 _ Hwf0 _ Hnf0. by apply parents_body.
Qed.

(** The second loop, over the bank directories under the data directory. *)
Lemma banks_loop c bs m :
  Forall (fun b => In b SUPPORTED_BANKS) bs -> fs_wf m -> m !! DATA_DIR c = Some Dir ->
  Forall (fun b => no_file_on m (path_div (DATA_DIR c) b)) bs ->
  exists m', py_for bs (fun b => path_mkdir (path_div (DATA_DIR c) b) false true) m = (m', Ok tt) /\
    grows m m' /\ Forall (fun b => m' !! path_div (DATA_DIR c) b = Some Dir) bs /\
    (forall q, Forall (fun b => ~ q `prefix_of` path_div (DATA_DIR c) b) bs -> m' !! q = m !! q).
Proof.
  intros Hin Hwf HD Hnf.
  apply (py_for_dirs _ (path_div (DATA_DIR c)) (fun m => m !! DATA_DIR c = Some Dir)
           (fun m m' H Hg => proj1 (proj2 Hg) _ H)); [| done | done | done].
  intros b m0 Hb Hwf0 HD0 Hnf0. apply bank_body; [| done | done | done].
  rewrite Forall_forall in Hin. apply Hin. by apply list_elem_of_In.
Qed.

Lemma create_directories_run c m :
  fs_wf m -> Forall (no_file_on m) (config_dirs c) ->
  exists m', create_directories c m = (m', Ok tt) /\ grows m m' /\
    Forall (fun d => m' !! d = Some Dir) (config_dirs c).
Proof.
  intros Hwf Hnf. unfold config_dirs in Hnf.
  apply Forall_cons in Hnf as [HnD Hnf]. apply Forall_cons in Hnf as [HnP Hnf].
  apply Forall_cons in Hnf as [HnT Hnb]. rewrite Forall_map in Hnb.
  destruct (parents_loop [DATA_DIR c; PARSERS_DIR c; TESTS_DIR c] m Hwf) as (m1 & H1 & Hg1 & Hd1 & _);
    [by repeat constructor|].
  rewrite !Forall_cons in Hd1. destruct Hd1 as (HdD & HdP & HdT & _).
  destruct (banks_loop c SUPPORTED_BANKS m1) as (m2 & H2 & Hg2 & Hd2 & _).
  { apply Forall_forall. intros b Hb. by apply list_elem_of_In. }
  { by destruct Hg1. } { done. }
  { eapply Forall_impl; [done|]. intros b. by apply grows_no_file. }
  exists m2. unfold create_directories. rewrite (stm_bind_ok _ _ m m1 tt H1).
  destruct Hg2 as (Hwf2 & Hdir2 & Hfile2). split_and!.
  - done.
  - by eapply grows_trans; [|split_and!].
  - unfold config_dirs. do 3 (constructor; [auto|]). by rewrite Forall_map.
Qed.

(** Once the directories exist, [validate_setup] warns about nothing. *)
Lemma dirs_no_warnings c m :
  Forall (fun d => m !! d = Some Dir) (config_dirs c) -> warnings (validate_setup c m) = [].
Proof.
  unfold config_dirs. rewrite !Forall_cons. intros (HD & HP & _ & Hb).
  apply warnings_nil. split_and!; [by apply dir_exists.. |].
  rewrite Forall_map in Hb. eapply Forall_impl; [done|]. intros b. apply dir_exists.
Qed.

(** C29: on a well-formed store with no file on the way to any of the
    directories it makes, [create_directories] returns normally, only
    adds directories, makes each of them, and [validate_setup] has no
    warning afterwards: [validate_environment] prints the issues banner
    without a key and nothing with one, and its verdict is the key's. *)
Theorem create_directories_spec c m :
  fs_wf m -> Forall (no_file_on m) (config_dirs c) ->
  exists m', create_directories c m = (m', Ok tt) /\ grows m m' /\
    Forall (fun d => m' !! d = Some Dir) (config_dirs c) /\
    warnings (validate_setup c m') = [] /\
    validate_environment c m' =
      if opt_truthy (GEMINI_API_KEY c) then ([], true)
      else ([LIssuesBanner; LText (lit "   - GEMINI_API_KEY not set")], false).
Proof.
  intros Hwf Hnf. destruct (create_directories_run c m Hwf Hnf) as (m' & Hrun & Hg & Hd).
  exists m'. split_and!; [done | done | done | by apply dirs_no_warnings |].
  unfold validate_environment. rewrite (dirs_no_warnings c m' Hd).
  unfold validate_setup. cbn [valid issues warnings]. by destruct (opt_truthy _).
Qed.

(** C30: once every directory exists, [create_directories] changes nothing:
    a second call after a successful one is a no-op. *)
Theorem create_directories_idem c m :
  fs_wf m -> Forall (fun d => m !! d = Some Dir) (config_dirs c) -> create_directories c m = (m, Ok tt).
Proof.
  intros Hwf Hd. unfold config_dirs in Hd.
  apply Forall_cons in Hd as [HD Hd]. apply Forall_cons in Hd as [HP Hd].
  apply Forall_cons in Hd as [HT Hb]. rewrite Forall_map, Forall_forall in Hb.
  unfold create_directories. rewrite (stm_bind_ok _ _ m m tt).
  - apply py_for_id. intros b Hin. specialize (Hb b (proj2 (list_elem_of_In _ _) Hin)).
    rewrite bank_dir_eq in * by done.
    rewrite path_mkdir_child; [by rewrite insert_id | done | done | congruence].
  - apply py_for_id. intros d Hin.
    apply path_mkdir_existing; [done|]. destruct Hin as [<-|[<-|[<-|[]]]]; done.
Qed.

(** C31: the first configured directory that is a file stops
    [create_directories]: it raises [FileExistsError] for that directory
    after making exactly the directories before it in its order (data,
    parsers, tests, then the five bank directories), and no other entry
    of the store changes. *)
Theorem create_directories_first_file c m i d x :
  fs_wf m -> config_dirs c !! i = Some d -> m !! d = Some (File x) ->
  Forall (no_file_on m) (take i (config_dirs c)) ->
  exists m', create_directories c m = (m', Raise (eexist d)) /\ grows m m' /\
    Forall (fun q => m' !! q = Some Dir) (take i (config_dirs c)) /\
    (forall q, Forall (fun y => ~ q `prefix_of` y) (take i (config_dirs c)) -> m' !! q = m !! q).
Proof.
  intros Hwf Hi Hd Hnf. pose proof (file_not_prefix m d x _ Hd Hnf) as Hnp.
  rewrite config_dirs_app in *. unfold create_directories.
  destruct (decide (i < 3)%nat) as [Hlt|Hge].
  - rewrite lookup_app_l in Hi by (cbn; lia). rewrite take_app_le in * by (cbn; lia).
    destruct (parents_loop _ m Hwf Hnf) as (m1 & H1 & Hg1 & Hd1 & Hk1).
    exists m1. split_and!; [| done | done | done]. apply stm_bind_raise.
    rewrite <- (take_drop_middle _ _ _ Hi). apply (py_for_app_raise _ _ _ _ _ m1); [done|].
    assert (Hsn : exists p s, d = p ++ [s]).
    { destruct i as [|[|[|i]]]; cbn in Hi; simplify_eq;
        [eexists _, _; apply DATA_DIR_eq | eexists _, _; apply PARSERS_DIR_eq |
         eexists _, _; apply TESTS_DIR_eq]. }
    destruct Hsn as (p & sc & ->). apply path_mkdir_file with x; [by destruct Hg1 | by rewrite Hk1].
  - rewrite lookup_app_r in Hi by (cbn; lia). cbn [length] in Hi.
    apply lookup_map_Some in Hi as (b & -> & Hb).
    rewrite take_app_ge in * by (cbn; lia). cbn [length] in *. rewrite firstn_map in *.
    apply Forall_app in Hnf as [HnL Hnb]. apply Forall_app in Hnp as [HpL Hpb].
    rewrite Forall_map in Hnb, Hpb.
    destruct (parents_loop _ m Hwf HnL) as (m1 & H1 & Hg1 & Hd1 & Hk1).
    assert (HD1 : m1 !! DATA_DIR c = Some Dir) by (by inversion Hd1).
    assert (Hin : Forall (fun b => In b SUPPORTED_BANKS) (take (i - 3)%nat SUPPORTED_BANKS)).
    { apply Forall_forall. intros b' Hb'%elem_of_take. destruct Hb' as (j & Hj & _).
      apply list_elem_of_In. by eapply list_elem_of_lookup_2. }
    destruct (banks_loop c _ m1 Hin) as (m2 & H2 & Hg2 & Hd2 & Hk2); [by destruct Hg1 | done | |].
    { eapply Forall_impl; [exact Hnb|]. intros b'. by apply grows_no_file. }
    exists m2. rewrite (stm_bind_ok _ _ m m1 tt H1).
    assert (Hb2 : m2 !! path_div (DATA_DIR c) b = Some (File x)) by (rewrite Hk2, Hk1; done).
    split_and!.
    + rewrite <- (take_drop_middle _ _ _ Hb). apply (py_for_app_raise _ _ _ _ _ m2); [done|].
      pose proof (list_elem_of_lookup_2 _ _ _ Hb) as Hb'. apply list_elem_of_In in Hb'.
      rewrite bank_dir_eq in * by done. apply path_mkdir_file with x; [by destruct Hg2 | done].
    + by eapply grows_trans.
    + apply Forall_app. split; [|by rewrite Forall_map].
      eapply Forall_impl; [done|]. intros q Hq. by apply Hg2.
    + intros q (HqL & Hqb)%Forall_app. rewrite Forall_map in Hqb. by rewrite Hk2, Hk1.
Qed.

(** ** The [__main__] block *)

Lemma not_warnings_line_info c : LText (lit "Warnings:") ∉ info_lines c ++ [LComplete] ++ example_lines c ++ api_lines c.
Proof.
  intros Hin%(list_elem_of_fmap_2 line_head). rewrite list_elem_of_In in Hin.
  cbn in Hin. intuition discriminate.
Qed.

Lemma not_warnings_line_items l : LText (lit "Warnings:") ∉ map (fun x => LText (lit "  - " ++ x)) l.
Proof. intros (x & Hx & _)%list_elem_of_In%in_map_iff. cbn in Hx. congruence. Qed.

Lemma not_warnings_line_head v :
  LText (lit "Warnings:") ∉ [LTitle; LText (str_mul (lit "-") 30); LText (lit "Valid: " ++ py_bool_str (valid v))] ++
    (if list_truthy (issues v) then
       LText (lit "Issues:") :: map (fun i => LText (lit "  - " ++ i)) (issues v) else []).
Proof.
  rewrite elem_of_app. intros [Hin | Hin].
  - apply (list_elem_of_fmap_2 line_head), list_elem_of_In in Hin. cbn in Hin. intuition discriminate.
  - destruct (list_truthy _); [|by apply not_elem_of_nil in Hin].
    apply elem_of_cons in Hin as [Hin | Hin]; [cbn in Hin; congruence | by apply not_warnings_line_items in Hin].
Qed.

(** The Warnings header is printed exactly when [validate_setup] has a
    warning, whether [create_directories] then succeeds or raises. *)
Lemma config_main_warnings_line c m :
  LText (lit "Warnings:") ∈ fst (fst (config_main c m)) <-> warnings (validate_setup c m) <> [].
Proof.
  assert (Hv : LText (lit "Warnings:") ∈ validation_lines (validate_setup c m) <->
               warnings (validate_setup c m) <> []).
  { pose proof (not_warnings_line_head (validate_setup c m)) as Hh.
    unfold validation_lines. rewrite app_assoc, elem_of_app.
    destruct (warnings (validate_setup c m)) as [|w ws]; cbn [list_truthy].
    - split; [|done]. intros [Hin | Hin]; [done | by apply not_elem_of_nil in Hin].
    - split; [done|]. intros _. right. apply elem_of_cons. by left. }
  pose proof (not_warnings_line_info c) as Hn. rewrite !elem_of_app in Hn.
  unfold config_main. destruct (create_directories c m) as [m' [[]|e]]; cbn [fst];
    rewrite ?elem_of_app, <- Hv; naive_solver.
Qed.

(** C32: ordering in [python config.py]: the validation is printed
    before [create_directories] runs, so on a well-formed store with no
    file in the way the first run prints a Warnings section exactly when
    a directory was missing, ends normally with every directory made, and
    a second run prints no Warnings section. *)
Theorem config_main_warns_then_creates c m :
  fs_wf m -> Forall (no_file_on m) (config_dirs c) ->
  exists out m', config_main c m = (out, m', Ok tt) /\
    Forall (fun d => m' !! d = Some Dir) (config_dirs c) /\
    (LText (lit "Warnings:") ∈ out <-> warnings (validate_setup c m) <> []) /\
    LText (lit "Warnings:") ∉ fst (fst (config_main c m')).
Proof.
  intros Hwf Hnf. destruct (create_directories_run c m Hwf Hnf) as (m' & Hrun & _ & Hd).
  assert (H2 : LText (lit "Warnings:") ∉ fst (fst (config_main c m')))
    by (rewrite config_main_warnings_line, (dirs_no_warnings c m' Hd); auto).
  pose proof (config_main_warnings_line c m) as Hw. unfold config_main in Hw |- *. rewrite Hrun in Hw |- *.
  eexists _, m'. split_and!; [reflexivity | done | exact Hw | exact H2].
Qed.

(** ** Witnesses *)

Lemma create_directories_spec_witness :
  fs_wf ex_store /\ Forall (no_file_on ex_store) (config_dirs ex_config) /\
  exists m', create_directories ex_config ex_store = (m', Ok tt) /\ grows ex_store m' /\
    Forall (fun d => m' !! d = Some Dir) (config_dirs ex_config) /\
    warnings (validate_setup ex_config m') = [] /\
    validate_environment ex_config m' =
      if opt_truthy (GEMINI_API_KEY ex_config) then ([], true)
      else ([LIssuesBanner; LText (lit "   - GEMINI_API_KEY not set")], false).
Proof.
  assert (Hwf : fs_wf ex_store) by (apply fs_wfb_spec; vm_compute; reflexivity).
  assert (Hnf : Forall (no_file_on ex_store) (config_dirs ex_config))
    by (apply no_file_onb_Forall; vm_compute; reflexivity).
  split_and!; [exact Hwf | exact Hnf | exact (create_directories_spec _ _ Hwf Hnf)].
Defined.

Lemma create_directories_idem_witness :
  let m := fst (create_directories ex_config ex_store) in
  fs_wf m /\ Forall (fun d => m !! d = Some Dir) (config_dirs ex_config) /\
  create_directories ex_config m = (m, Ok tt).
Proof.
  intros m.
  assert (Hwf : fs_wf m) by (apply fs_wfb_spec; vm_compute; reflexivity).
  assert (Hd : Forall (fun d => m !! d = Some Dir) (config_dirs ex_config))
    by (apply (bool_decide_unpack _); vm_compute; reflexivity).
  split_and!; [exact Hwf | exact Hd | exact (create_directories_idem _ _ Hwf Hd)].
Defined.

Lemma create_directories_first_file_witness :
  let m := <[[lit "app"; lit "custom_parsers"] := File (lit "x")]> ex_store in
  fs_wf m /\ config_dirs ex_config !! 1%nat = Some (PARSERS_DIR ex_config) /\
  m !! PARSERS_DIR ex_config = Some (File (lit "x")) /\
  Forall (no_file_on m) (take 1%nat (config_dirs ex_config)) /\
  exists m', create_directories ex_config m = (m', Raise (eexist (PARSERS_DIR ex_config))) /\ grows m m' /\
    Forall (fun q => m' !! q = Some Dir) (take 1%nat (config_dirs ex_config)) /\
    (forall q, Forall (fun y => ~ q `prefix_of` y) (take 1%nat (config_dirs ex_config)) -> m' !! q = m !! q).
Proof.
  intros m.
  assert (Hwf : fs_wf m) by (apply fs_wfb_spec; vm_compute; reflexivity).
  assert (Hi : config_dirs ex_config !! 1%nat = Some (PARSERS_DIR ex_config)) by reflexivity.
  assert (Hf : m !! PARSERS_DIR ex_config = Some (File (lit "x"))) by (vm_compute; reflexivity).
  assert (Hnf : Forall (no_file_on m) (take 1%nat (config_dirs ex_config)))
    by (apply no_file_onb_Forall; vm_compute; reflexivity).
  split_and!; [exact Hwf | exact Hi | exact Hf | exact Hnf |].
  exact (create_directories_first_file _ _ _ _ _ Hwf Hi Hf Hnf).
Defined.

Lemma config_main_warns_then_creates_witness :
  fs_wf ex_store /\ Forall (no_file_on ex_store) (config_dirs ex_config) /\
  exists out m', config_main ex_config ex_store = (out, m', Ok tt) /\
    Forall (fun d => m' !! d = Some Dir) (config_dirs ex_config) /\
    (LText (lit "Warnings:") ∈ out <-> warnings (validate_setup ex_config ex_store) <> []) /\
    LText (lit "Warnings:") ∉ fst (fst (config_main ex_config m')).
Proof.
  assert (Hwf : fs_wf ex_store) by (apply fs_wfb_spec; vm_compute; reflexivity).
  assert (Hnf : Forall (no_file_on ex_store) (config_dirs ex_config))
    by (apply no_file_onb_Forall; vm_compute; reflexivity).
  split_and!; [exact Hwf | exact Hnf | exact (config_main_warns_then_creates _ _ Hwf Hnf)].
Defined.

End Config.
