(* ===== verification/IciciParser.v ===== *)
(** * The committed ICICI parser

    [parse] of src/custom_parsers/icici_parser.py, the parser the agent
    produced for the sample statement.  What [pdfplumber] reads from the
    file is the input: [pdfplumber.open] either fails or yields the pages,
    and each page is the list of tables [page.extract_tables()] returns,
    a table a list of rows, a row a list of cells that are text or
    [None].  Python's [float()] is an interface ([PyFloat]): a parser of
    text into an abstract type of numbers that either succeeds or raises
    [ValueError].  The loop over pages, tables and rows threads the list
    [all_data] and the messages the code prints through [py_for]. *)

From stdpp Require Import base list strings.
From Stdlib Require Import Ascii ZArith QArith Lia.
From S2P Require Import Prelude PyStr.

Module IciciParser.
Import PyStr.
#[local] Open Scope nat_scope.

(** ** [float()] *)

(** [float(s)] returns a number or raises [ValueError]: [None] stands for
    the exception. *)
Class PyFloat := {
  float_t : Type;
  py_float : pystr -> option float_t
}.

(** ** Data *)

Abbreviation cell := (option pystr).
Abbreviation row := (list cell).
Abbreviation table := (list row).
Abbreviation page := (list table).

Section Data.
Context `{PyFloat}.

(** The dictionary built for each row, lines 25-31. *)
Record row_data := mk_row_data {
  Date : pystr;
  Description : pystr;
  Debit_Amt : option float_t;
  Credit_Amt : option float_t;
  Balance : option float_t
}.

(** A [pandas.DataFrame] built from a list of such dictionaries. *)
Record DataFrame := mk_df { df_columns : list pystr; df_rows : list row_data }.

(** What the loop prints. *)
Inductive event :=
  | RowError (r : row) (e : exc)
  | RowSkipped (r : row).

(** [all_data] and the messages printed so far. *)
Record parse_state := mk_parse_state { all_data : list row_data; log : list event }.
End Data.


(** The keys of the row dictionary, in the order the literal lists them. *)
Definition row_keys : list pystr :=
  map lit ["Date"; "Description"; "Debit Amt"; "Credit Amt"; "Balance"].

Section Parser.
Context `{PyFloat}.

(** [str(x)] of a cell. *)
Definition py_str_cell (c : cell) : pystr :=
  match c with Some s => s | None => lit "None" end.

Definition value_error : exc := mk_exc ValueError (lit "could not convert string to float").

(** [float(str(x).replace(",", "").strip()) if x and str(x).strip() else None],
    lines 21-23. *)
Definition parse_amount (x : cell) : result (option float_t) :=
  if opt_truthy x && str_truthy (strip (py_str_cell x)) then
    match py_float (strip (replace (lit ",") [] (py_str_cell x))) with
    | Some f => Ok (Some f)
    | None => Raise value_error
    end
  else Ok None.

(** The body of the inner [try], lines 16-31. *)
Definition process_row (r : row) : result (row_data) :=
  match r with
  | [date; description; debit; credit; balance] =>
      d ← parse_amount debit;
      c ← parse_amount credit;
      b ← parse_amount balance;
      mret (mk_row_data (strip (py_str_cell date)) (strip (py_str_cell description)) d c b)
  | _ => Raise (mk_exc ValueError (lit "wrong number of values to unpack"))
  end.

Definition append_row (d : row_data) : stm (parse_state) unit :=
  fun st => (mk_parse_state (all_data st ++ [d]) (log st), Ok tt).

Definition log_event (ev : event) : stm (parse_state) unit :=
  fun st => (mk_parse_state (all_data st) (log st ++ [ev]), Ok tt).

(** One row, lines 14-37. *)
Definition row_body (r : row) : stm (parse_state) unit :=
  if list_truthy r && (length r =? 5) then
    stm_try (d ← stm_lift (process_row r); append_row d)
      (fun e => if decide (exc_class e = ValueError \/ exc_class e = IndexError)
                then log_event (RowError r e) else stm_raise e)
  else if list_truthy r && negb (length r =? 5) then log_event (RowSkipped r)
  else mret tt.

(** One table, lines 12-13: the first row is always dropped. *)
Definition table_body (t : table) : stm (parse_state) unit :=
  if list_truthy t then py_for (drop 1 t) row_body else mret tt.

(** One page, lines 10-11. *)
Definition page_body (p : page) : stm (parse_state) unit := py_for p table_body.

(** [pd.DataFrame(all_data)]: with no row there is no column. *)
Definition df_of_records (rs : list (row_data)) : DataFrame :=
  mk_df (if list_truthy rs then row_keys else []) rs.

(** [parse(pdf_path)], lines 5-45; [opened] is what [pdfplumber.open]
    gives. *)
Definition parse (opened : result (list page)) : result (option (DataFrame)) :=
  py_try_only FileNotFoundError
    (pages ← opened;
     let '(st, r) := py_for pages page_body (mk_parse_state [] []) in
     _ ← r;
     mret (Some (df_of_records (all_data st))))
    (fun _ => mret None).

(** ** The reference reading *)

(** The data rows of a page: every row of every non-empty table but its
    first. *)
Definition data_rows (p : page) : list row := concat (map (drop 1) p).

(** The records of the rows of five cells whose amounts all parse. *)
Definition ok_records (rows : list row) : list (row_data) :=
  omap (fun r => if length r =? 5 then
                   match process_row r with Ok d => Some d | Raise _ => None end
                 else None) rows.

(** The messages one row prints. *)
Definition row_events (r : row) : list event :=
  if list_truthy r && (length r =? 5) then
    match process_row r with Ok _ => [] | Raise e => [RowError r e] end
  else if list_truthy r then [RowSkipped r] else [].

(** ** The schema of the records

    What lines 18-23 make of a row: the date and the description are
    stripped text, and an amount, when there is one, is what [float()]
    read from a trimmed text without commas. *)
Definition amount_text (t : pystr) : bool := trimmed t && bool_decide (","%char ∉ t).

Definition amount_wf (a : option float_t) : Prop :=
  match a with
  | None => True
  | Some f => exists t, amount_text t = true /\ py_float t = Some f
  end.

Definition record_wf (d : row_data) : Prop :=
  trimmed (Date d) = true /\ trimmed (Description d) = true /\
  amount_wf (Debit_Amt d) /\ amount_wf (Credit_Amt d) /\ amount_wf (Balance d).

End Parser.

(** ** A [float()] for decimal literals

    The decimal part of Python's float syntax, an optional sign, digits
    and an optional fraction, read as a rational; any other text raises
    [ValueError].  Enough for the examples below. *)

Definition digit_val (c : ascii) : option Z :=
  let n := nat_of_ascii c in
  if (48 <=? n) && (n <=? 57) then Some (Z.of_nat n - 48)%Z else None.

Fixpoint digits_val (acc : Z) (k : nat) (s : pystr) : option (Z * nat) :=
  match s with
  | [] => Some (acc, k)
  | c :: t => d ← digit_val c; digits_val (acc * 10 + d)%Z (S k) t
  end.

Definition decimal_unsigned (s : pystr) : option Q :=
  let '(ip, fp) := match split (lit ".") s with
                   | [i] => (i, Some [])
                   | [i; f] => (i, Some f)
                   | _ => ([], None)
                   end in
  f ← fp;
  if bool_decide (ip = [] /\ f = []) then None else
  '(a, _) ← digits_val 0 0 ip;
  '(b, k) ← digits_val 0 0 f;
  Some (inject_Z a + (b # Z.to_pos (10 ^ Z.of_nat k)))%Q.

Definition decimal_float (s : pystr) : option Q :=
  match s with
  | c :: t => if bool_decide (c = "-"%char) then (fun q => - q)%Q <$> decimal_unsigned t
              else if bool_decide (c = "+"%char) then decimal_unsigned t
              else decimal_unsigned s
  | [] => None
  end.

#[export] Instance decimal_py_float : PyFloat := {| float_t := Q; py_float := decimal_float |}.

(** ** A statement page *)

Definition ex_header : row :=
  map (fun s => Some (lit s)) ["Date"; "Description"; "Debit Amt"; "Credit Amt"; "Balance"].
Definition ex_row1 : row :=
  [Some (lit "01-08-2024"); Some (lit "Salary"); None; Some (lit "1,000.00"); Some (lit "5,000.00")].
Definition ex_row2 : row :=
  [Some (lit "02-08-2024"); Some (lit "Rent"); Some (lit "2,500.50"); Some []; Some (lit "2,499.50")].
Definition ex_bad_row : row :=
  [Some (lit "03-08-2024"); Some (lit "Fee"); Some (lit "N/A"); None; Some (lit "2,400.00")].

(** The dates of the rows of a parse result. *)
Definition dates `{PyFloat} (r : result (option DataFrame)) : option (list pystr) :=
  match r with Ok (Some df) => Some (map Date (df_rows df)) | _ => None end.

(** ** The loop *)

Section Loop.
Context `{PyFloat}.

Lemma parse_amount_error x e : parse_amount x = Raise e -> e = value_error.
Proof.
  unfold parse_amount. destruct (_ && _); [|done].
  destruct (py_float _); congruence.
Qed.

Lemma process_row_error r e : process_row r = Raise e -> exc_class e = ValueError.
Proof.
  destruct r as [|a [|b [|c [|d [|x [|y r]]]]]]; cbn [process_row]; try (intros [= <-]; done).
  destruct (parse_amount c) as [c'|e'] eqn:Hc; [|intros [= <-]; by rewrite (parse_amount_error _ _ Hc)].
  destruct (parse_amount d) as [d'|e'] eqn:Hd; [|intros [= <-]; by rewrite (parse_amount_error _ _ Hd)].
  destruct (parse_amount x) as [x'|e'] eqn:Hx; [|intros [= <-]; by rewrite (parse_amount_error _ _ Hx)].
  done.
Qed.

Lemma mk_parse_state_eta (st : parse_state) : mk_parse_state (all_data st) (log st) = st.
Proof. by destruct st. Qed.

(** A loop whose iterations only append to [all_data] and to the
    messages. *)
Lemma py_for_collect {A} (body : A -> stm parse_state unit) f g l st :
  (forall x st, body x st = (mk_parse_state (all_data st ++ f x) (log st ++ g x), Ok tt)) ->
  py_for l body st =
  (mk_parse_state (all_data st ++ concat (map f l)) (log st ++ concat (map g l)), Ok tt).
Proof.
  intros Hb. revert st. induction l as [|x l IH]; intros st; simpl.
  - by rewrite !app_nil_r, mk_parse_state_eta.
  - rewrite (stm_bind_ok _ _ st _ tt (Hb x st)), IH. simpl. by rewrite !app_assoc.
Qed.

Lemma ok_records_app l1 l2 : ok_records (l1 ++ l2) = ok_records l1 ++ ok_records l2.
Proof. apply omap_app. Qed.

Lemma ok_records_cons r rows : ok_records (r :: rows) = ok_records [r] ++ ok_records rows.
Proof. apply (ok_records_app [r]). Qed.

Lemma ok_records_concat ls : ok_records (concat ls) = concat (map ok_records ls).
Proof. induction ls as [|rows ls IH]; [done|]. simpl. by rewrite ok_records_app, IH. Qed.

Lemma concat_map_single {A B} (f : A -> list B) (g : list A -> list B) l :
  (forall x l, g (x :: l) = f x ++ g l) -> g [] = [] -> concat (map f l) = g l.
Proof. intros Hc Hn. induction l as [|x l IH]; simpl; [done|]. by rewrite Hc, IH. Qed.

Lemma row_body_run r st :
  row_body r st = (mk_parse_state (all_data st ++ ok_records [r]) (log st ++ row_events r), Ok tt).
Proof.
  unfold row_body, row_events, ok_records.
  destruct (list_truthy r) eqn:Ht; destruct (length r =? 5) eqn:Hl; cbn [andb negb omap list_omap].
  - rewrite Hl. cbv [stm_try mbind stm_bind stm_lift append_row log_event].
    destruct (process_row r) as [d|e] eqn:Hp; [by rewrite app_nil_r|].
    rewrite decide_True by (left; by apply (process_row_error r)). by rewrite app_nil_r.
  - cbv [log_event]. by rewrite Hl, app_nil_r.
  - destruct r; [done|]. cbv [log_event]. by rewrite Hl, app_nil_r.
  - destruct r; [|done]. cbv [mret stm_ret]. by rewrite !app_nil_r, mk_parse_state_eta.
Qed.

Lemma table_body_run t st :
  table_body t st =
  (mk_parse_state (all_data st ++ ok_records (drop 1 t)) (log st ++ flat_map row_events (drop 1 t)), Ok tt).
Proof.
  unfold table_body. destruct t as [|r0 t]; cbn [list_truthy].
  - cbn. by rewrite !app_nil_r, mk_parse_state_eta.
  - rewrite (py_for_collect _ (fun r => ok_records [r]) row_events) by apply row_body_run.
    rewrite flat_map_concat_map, (concat_map_single _ ok_records); [done | apply ok_records_cons | done].
Qed.

(** The whole loop over the pages: the records of the data rows that
    parse, and one message per data row that is dropped. *)
Lemma pages_run pages :
  py_for pages page_body (mk_parse_state [] []) =
  (mk_parse_state (ok_records (concat (map data_rows pages)))
                  (flat_map row_events (concat (map data_rows pages))), Ok tt).
Proof.
  rewrite (py_for_collect _ (fun p => ok_records (data_rows p)) (fun p => flat_map row_events (data_rows p))).
  - by rewrite ok_records_concat, flat_map_concat, !map_map.
  - intros p st. unfold page_body, data_rows.
    rewrite (py_for_collect _ (fun t => ok_records (drop 1 t)) (fun t => flat_map row_events (drop 1 t)))
      by apply table_body_run.
    by rewrite ok_records_concat, flat_map_concat, !map_map.
Qed.

Lemma ok_records_single r :
  ok_records [r] = if length r =? 5 then match process_row r with Ok d => [d] | Raise _ => [] end else [].
Proof. unfold ok_records. simpl. by destruct (length r =? 5); [destruct (process_row r)|]. Qed.

Lemma ok_records_nonempty rows :
  list_truthy (ok_records rows) = true <->
  exists r, r ∈ rows /\ length r = 5 /\ is_ok (process_row r) = true.
Proof.
  induction rows as [|r rows IH].
  - split; [done|]. intros (r & Hr & _). by apply not_elem_of_nil in Hr.
  - rewrite ok_records_cons, ok_records_single.
    destruct (length r =? 5) eqn:Hl; [destruct (process_row r) eqn:Hp|]; cbn [app list_truthy].
    + split; [intros _ | done]. exists r. rewrite Hp. split_and!; [by left | by apply Nat.eqb_eq | done].
    + rewrite IH. split; intros (r' & Hr' & H5 & Hok); exists r'; split_and!; try done; [by right|].
      apply elem_of_cons in Hr' as [->|Hr']; [by rewrite Hp in Hok | done].
    + rewrite IH. split; intros (r' & Hr' & H5 & Hok); exists r'; split_and!; try done; [by right|].
      apply elem_of_cons in Hr' as [->|Hr']; [apply Nat.eqb_neq in Hl; done | done].
Qed.

Lemma ok_records_length rows : length (ok_records rows) <= length rows.
Proof.
  induction rows as [|r rows IH]; [done|]. rewrite ok_records_cons, length_app, ok_records_single.
  simpl. destruct (length r =? 5); [destruct (process_row r)|]; simpl; lia.
Qed.

(** ** What [parse] returns *)

Lemma parse_ok pages :
  parse (Ok pages) = Ok (Some (df_of_records (ok_records (concat (map data_rows pages))))).
Proof. cbv [parse mbind result_bind]. rewrite pages_run. reflexivity. Qed.

(** C19: [parse] on an opened PDF never raises and returns the DataFrame of
    the records of the data rows, in page, table and row order, that have
    five cells whose amounts all convert; every other non-empty data row
    prints one message, and nothing else is printed. *)
Theorem parse_spec pages :
  parse (Ok pages) = Ok (Some (df_of_records (ok_records (concat (map data_rows pages))))) /\
  log (fst (py_for pages page_body (mk_parse_state [] []))) = flat_map row_events (concat (map data_rows pages)).
Proof. split; [apply parse_ok | by rewrite pages_run]. Qed.

(** C22: when [pdfplumber.open] fails, [parse] returns [None] for a missing
    file and lets every other exception escape. *)
Theorem parse_open_error e :
  parse (Raise e) = if decide (exc_class e = FileNotFoundError) then Ok None else Raise e.
Proof. cbv [parse py_try_only mbind result_bind]. by destruct (decide _). Qed.

(** C20: the DataFrame [parse] returns has the five contract columns
    exactly when at least one data row converted, and no columns at all
    otherwise; it never has more rows than the data rows. *)
Theorem parse_columns pages df :
  parse (Ok pages) = Ok (Some df) ->
  (df_columns df = row_keys <->
   exists r, r ∈ concat (map data_rows pages) /\ length r = 5 /\ is_ok (process_row r) = true) /\
  (df_columns df = [] <-> df_rows df = []) /\
  length (df_rows df) <= length (concat (map data_rows pages)).
Proof.
  rewrite parse_ok. intros [= <-]. unfold df_of_records. cbn [df_columns df_rows].
  rewrite <- ok_records_nonempty. split_and!; [| | apply ok_records_length].
  - destruct (list_truthy _); [done|]. split; [done|]. discriminate.
  - destruct (ok_records _); cbn; [done|]. split; discriminate.
Qed.

(** C23: an amount cell is read after dropping every comma and the
    surrounding blanks; [None], [""] and blank cells give no amount, and
    text [float()] rejects raises [ValueError]. *)
Theorem parse_amount_spec x :
  parse_amount x =
  match x with
  | Some s => if str_truthy (strip s) then
                match py_float (strip (filter (fun c => c <> ","%char) s)) with
                | Some f => Ok (Some f)
                | None => Raise value_error
                end
              else Ok None
  | None => Ok None
  end.
Proof.
  unfold parse_amount. destruct x as [[|c t]|]; [done | | done]. cbn [opt_truthy str_truthy py_str_cell andb].
  by rewrite (replace_char_nil ","%char).
Qed.

Lemma strip_elem_of c s : c ∈ strip s -> c ∈ s.
Proof.
  destruct (strip_decomp s) as (ws1 & ws2 & E & _ & _). intros Hc.
  rewrite E. apply elem_of_app. right. apply elem_of_app. by left.
Qed.

Lemma parse_amount_wf x a : parse_amount x = Ok a -> amount_wf a.
Proof.
  unfold parse_amount. destruct (_ && _); [|by intros [= <-]].
  destruct (py_float _) as [f|] eqn:Hf; [intros [= <-] | done].
  eexists. split; [|exact Hf]. unfold amount_text. rewrite strip_trimmed. apply bool_decide_eq_true.
  intros Hc%strip_elem_of. change (lit ",") with [","%char] in Hc.
  rewrite replace_char_nil, list_elem_of_filter in Hc. naive_solver.
Qed.

Lemma process_row_wf r d : process_row r = Ok d -> record_wf d.
Proof.
  unfold process_row. destruct r as [|x1 [|x2 [|x3 [|x4 [|x5 []]]]]]; try done.
  destruct (parse_amount x3) as [a3|] eqn:H3; [|done]. cbn [mbind result_bind].
  destruct (parse_amount x4) as [a4|] eqn:H4; [|done].
  destruct (parse_amount x5) as [a5|] eqn:H5; [|done]. intros [= <-].
  split_and!; cbn [Date Description Debit_Amt Credit_Amt Balance];
    [apply strip_trimmed | apply strip_trimmed | by eapply parse_amount_wf..].
Qed.

(** C21: the type of the result: every record of the DataFrame [parse]
    returns has a stripped date and description and amounts that
    [float()] read from trimmed, comma-free text, and its columns are the
    five contract columns or none. *)
Theorem parse_records_typed pages df :
  parse (Ok pages) = Ok (Some df) ->
  Forall record_wf (df_rows df) /\ (df_columns df = row_keys \/ df_columns df = []).
Proof.
  rewrite parse_ok. intros [= <-]. unfold df_of_records. cbn [df_columns df_rows]. split.
  - apply Forall_forall. intros d (r & _ & Hr)%list_elem_of_omap.
    destruct (length r =? 5); [|done].
    destruct (process_row r) eqn:Hp; [|done]. injection Hr as <-. by eapply process_row_wf.
  - destruct (list_truthy _); auto.
Qed.

(** ** Where a table sits in the data rows *)

(** The data rows of the pages, seen around one table: what comes before
    and after it does not depend on that table's rows. *)
Lemma data_rows_around pages1 pages2 tbls1 tbls2 :
  exists A B, forall t,
    concat (map data_rows (pages1 ++ (tbls1 ++ t :: tbls2) :: pages2)) = A ++ drop 1 t ++ B.
Proof.
  exists (concat (map data_rows pages1) ++ concat (map (drop 1) tbls1)),
         (concat (map (drop 1) tbls2) ++ concat (map data_rows pages2)).
  intros t. rewrite map_app, concat_app. cbn [map concat].
  assert (Ht : data_rows (tbls1 ++ t :: tbls2) = concat (map (drop 1) tbls1) ++ drop 1 t ++ concat (map (drop 1) tbls2)).
  { unfold data_rows. by rewrite map_app, concat_app. }
  rewrite Ht. by rewrite !app_assoc.
Qed.

(** The loop's result and messages, by the data rows. *)
Lemma parse_by_data_rows pages :
  parse (Ok pages) = Ok (Some (df_of_records (ok_records (concat (map data_rows pages))))) /\
  log (fst (py_for pages page_body (mk_parse_state [] []))) = flat_map row_events (concat (map data_rows pages)).
Proof. split; [apply parse_ok | by rewrite pages_run]. Qed.

(** C24: the first row of every table is dropped, header or not: at any
    page and any table, replacing the table's first row by any other row
    changes neither the DataFrame nor the messages.  A table that starts
    with a transaction, as a table continued on a new page does, loses
    that transaction. *)
Theorem parse_ignores_first_row pages1 pages2 tbls1 tbls2 r r' rows :
  let P x := pages1 ++ (tbls1 ++ (x :: rows) :: tbls2) :: pages2 in
  parse (Ok (P r)) = parse (Ok (P r')) /\
  log (fst (py_for (P r) page_body (mk_parse_state [] []))) =
  log (fst (py_for (P r') page_body (mk_parse_state [] []))).
Proof.
  intros P. destruct (data_rows_around pages1 pages2 tbls1 tbls2) as (A & B & HAB).
  destruct (parse_by_data_rows (P r)) as [E1 L1]. destruct (parse_by_data_rows (P r')) as [E2 L2].
  unfold P in *. rewrite E1, E2, L1, L2, !HAB. done.
Qed.

(** C25: a data row of five cells whose [process_row] raises (an amount
    [float()] rejects) is skipped: wherever it sits, the DataFrame is the
    one of the same pages without that row, and the messages are those of
    the pages without it with exactly one [RowError] for it, at its place. *)
Theorem parse_skips_failing_row pages1 pages2 tbls1 tbls2 hd rows1 rows2 r e :
  length r = 5 -> process_row r = Raise e ->
  let P x := pages1 ++ (tbls1 ++ (hd :: rows1 ++ x ++ rows2) :: tbls2) :: pages2 in
  let msgs x := log (fst (py_for (P x) page_body (mk_parse_state [] []))) in
  parse (Ok (P [r])) = parse (Ok (P [])) /\
  exists L1 L2, msgs [] = L1 ++ L2 /\ msgs [r] = L1 ++ RowError r e :: L2.
Proof.
  intros Hl Hp P msgs. destruct (data_rows_around pages1 pages2 tbls1 tbls2) as (A & B & HAB).
  destruct (parse_by_data_rows (P [r])) as [E1 L1]. destruct (parse_by_data_rows (P [])) as [E2 L2].
  unfold msgs, P in *. rewrite E1, E2, L1, L2, !HAB. cbn [drop]. rewrite !drop_0.
  assert (Hr : row_events r = [RowError r e]).
  { unfold row_events. destruct r; [done|]. by rewrite Hl, Hp. }
  split.
  - rewrite !ok_records_app, ok_records_single, Hl, Hp. done.
  - exists (flat_map row_events (A ++ rows1)), (flat_map row_events (rows2 ++ B)).
    rewrite !flat_map_app. cbn [flat_map]. rewrite Hr, app_nil_r.
    split; by rewrite <- !app_assoc.
Qed.

End Loop.

(** ** Witnesses *)

Lemma parse_columns_witness :
  exists df, parse (Ok [[[ex_header; ex_row1; ex_row2]]]) = Ok (Some df) /\
  ((df_columns df = row_keys <->
    exists r, r ∈ concat (map data_rows [[[ex_header; ex_row1; ex_row2]]]) /\ length r = 5 /\
              is_ok (process_row r) = true) /\
   (df_columns df = [] <-> df_rows df = []) /\
   length (df_rows df) <= length (concat (map data_rows [[[ex_header; ex_row1; ex_row2]]]))).
Proof.
  destruct (parse (Ok [[[ex_header; ex_row1; ex_row2]]])) as [[df|]|e] eqn:E;
    [| apply (f_equal dates) in E; vm_compute in E; discriminate..].
  exists df. split; [reflexivity | exact (parse_columns _ _ E)].
Defined.

Lemma parse_records_typed_witness :
  exists df, parse (Ok [[[ex_header; ex_row1; ex_row2]]]) = Ok (Some df) /\
  Forall record_wf (df_rows df) /\ (df_columns df = row_keys \/ df_columns df = []).
Proof.
  destruct (parse (Ok [[[ex_header; ex_row1; ex_row2]]])) as [[df|]|e] eqn:E;
    [| apply (f_equal dates) in E; vm_compute in E; discriminate..].
  exists df. split; [reflexivity | exact (parse_records_typed _ _ E)].
Defined.

Lemma parse_skips_failing_row_witness :
  let P x := [] ++ ([] ++ (ex_header :: [ex_row1] ++ x ++ [ex_row2]) :: []) :: [] in
  let msgs x := log (fst (py_for (P x) page_body (mk_parse_state [] []))) in
  parse (Ok (P [ex_bad_row])) = parse (Ok (P [])) /\
  exists L1 L2, msgs [] = L1 ++ L2 /\ msgs [ex_bad_row] = L1 ++ RowError ex_bad_row value_error :: L2.
Proof.
  apply (parse_skips_failing_row [] [] [] [] ex_header [ex_row1] [ex_row2] ex_bad_row value_error);
    vm_compute; reflexivity.
Defined.

End IciciParser.
