(* ===== verification/TestSuite.v ===== *)
(** * The test suite the agent runs

    src/test_parser.py as pytest runs it: the class-scoped fixtures
    [bank_name], [parser_module], [pdf_path] and [expected_data], in the
    order the tests request them, and the two tests.  pandas and the
    generated module are interfaces: [Pandas] reads the reference CSV
    into a frame and compares frames, [ParserModule] loads a module from
    its text and calls its [parse].  Every skip, fail and assertion
    carries the message the source builds, with the [repr] of the
    column lists and shapes ([PyStr.repr_list], [PyStr.repr_pair]).
    [pytest_process] is the
    [Agent.TestProcess] this suite gives: the exit status pytest derives
    from the outcomes.  The theorems show that the suite always tests the
    ICICI parser, that a missing parser makes pytest succeed and, with
    the agent's [Run.run] using this suite, that any bank other than
    ICICI is reported as a success after one untested cycle, that the
    prompt asks for the very columns the contract test checks, what a
    success guarantees, when the committed parser passes the contract
    test, and the message it fails with when no row converts. *)

From stdpp Require Import base list strings gmap fin_maps.
From Stdlib Require Import Ascii ZArith Lia.
From S2P Require Import Prelude PyStr Fs Extract Prompt Agent Run IciciParser.

Module TestSuite.
Import PyStr Fs.

(** ** Frames and the two interfaces *)

(** What the tests observe of a [DataFrame]. *)
Record frame := mk_frame { columns : list pystr; shape : nat * nat }.

#[export] Instance frame_eq_dec : EqDecision frame.
Proof. solve_decision. Defined.

Class Pandas := {
  (** [pd.read_csv] of the text, then the date and number conversions of
      lines 39-43; any of them may raise. *)
  read_expected : pystr -> result frame;
  (** [pd.testing.assert_frame_equal(a, b, check_dtype=False)] on what
      [parse] returned ([None] when it is not a [DataFrame]): [None] when
      it passes, the text of the [AssertionError] otherwise. *)
  assert_frame_equal : option frame -> frame -> option pystr
}.

Class ParserModule := {
  (** [spec.loader.exec_module(module)] on the text of the file. *)
  load_module : pystr -> result unit;
  (** [module.parse(pdf_path)]: [None] when the value is not a
      [DataFrame]. *)
  call_parse : pystr -> path -> result (option frame)
}.

Inductive test_outcome := Passed | Failed (msg : pystr) | Skipped (msg : pystr) | Errored (msg : pystr).

(** ** Fixtures, lines 12-51 *)

Definition bank_name : pystr := lit "icici".

Definition parser_file (cwd : path) : path :=
  path_div cwd (lit "custom_parsers/" ++ bank_name ++ lit "_parser.py").
Definition csv_file (cwd : path) : path :=
  path_div cwd (lit "data/" ++ bank_name ++ lit "/" ++ bank_name ++ lit "_sample.csv").
Definition pdf_file (cwd : path) : path :=
  path_div cwd (lit "data/" ++ bank_name ++ lit "/" ++ bank_name ++ lit "_sample.pdf").
Definition test_file (cwd : path) : path := path_div cwd (lit "test_parser.py").

Definition expected_cols : list pystr :=
  map lit ["Date"; "Description"; "Debit Amt"; "Credit Amt"; "Balance"].

(** The text of a file, as [open(p).read()] gives it. *)
Definition read_file (m : fs) (p : path) : result pystr :=
  match m !! p with
  | Some (File d) => Ok d
  | Some Dir => Raise (eisdir p)
  | None => Raise (enoent p)
  end.

Section Suite.
Context `{Pandas} `{ParserModule}.

(** ** The tests, lines 55-75 *)

(** The messages of the three assertions, lines 59-67. *)
Definition column_mismatch_msg (cols : list pystr) : pystr :=
  lit "Column mismatch: Expected " ++ repr_list expected_cols ++
  lit ", but the parser produced " ++ repr_list cols ++
  lit ". Ensure the parser does not invent extra columns.".

Definition shape_mismatch_msg (got want : nat * nat) : pystr :=
  lit "Shape mismatch: Got " ++ repr_pair got ++ lit ", Expected " ++ repr_pair want ++ lit ".".

Definition test_parser_contract (res : result (option frame)) (expected : frame) : test_outcome :=
  match res with
  | Raise e => Failed (exc_msg e)
  | Ok None => Failed (lit "The parser must return a pandas DataFrame.")
  | Ok (Some df) =>
      if bool_decide (columns df = expected_cols) then
        if bool_decide (shape df = shape expected) then Passed
        else Failed (shape_mismatch_msg (shape df) (shape expected))
      else Failed (column_mismatch_msg (columns df))
  end.

(** Lines 69-75: only an [AssertionError] of the comparison is caught
    and turned into [pytest.fail]. *)
Definition exact_match_msg (details : pystr) : pystr :=
  lit "The parsed DataFrame's content does not exactly match the expected CSV." ++ newline ++
  lit "Details: " ++ details.

Definition test_exact_match (res : result (option frame)) (expected : frame) : test_outcome :=
  match res with
  | Raise e => Failed (exc_msg e)
  | Ok df =>
      match assert_frame_equal df expected with
      | None => Passed
      | Some details => Failed (exact_match_msg details)
      end
  end.

(** Both tests under class-scoped fixtures: a skip or an error while
    setting a fixture up is the outcome of both tests. *)
Definition both (o : test_outcome) : list test_outcome := [o; o].

Definition run_session (m : fs) (cwd : path) : list test_outcome :=
  if negb (exists_path m (parser_file cwd)) then
    both (Skipped (lit "Parser not found at " ++ path_str (parser_file cwd) ++ lit ". Skipping tests."))
  else match read_file m (parser_file cwd) ≫= fun code => load_module code ;; mret code with
  | Raise e => both (Errored (exc_msg e))
  | Ok code =>
      if negb (exists_path m (pdf_file cwd)) then
        both (Errored (lit "Critical test file missing: Sample PDF not found at " ++ path_str (pdf_file cwd)))
      else if negb (exists_path m (csv_file cwd)) then
        both (Errored (lit "Critical test file missing: Expected CSV not found at " ++ path_str (csv_file cwd)))
      else match read_file m (csv_file cwd) ≫= read_expected with
      | Raise e => both (Errored (exc_msg e))
      | Ok expected =>
          [test_parser_contract (call_parse code (pdf_file cwd)) expected;
           test_exact_match (call_parse code (pdf_file cwd)) expected]
      end
  end.

Definition bad_outcome (o : test_outcome) : bool :=
  match o with Failed _ | Errored _ => true | _ => false end.

(** pytest's exit status: 4 when the test file is missing, 1 when a test
    failed or errored, 0 otherwise, skipped tests included. *)
Definition exit_code (m : fs) (cwd : path) : Z :=
  if negb (exists_path m (test_file cwd)) then 4
  else if existsb bad_outcome (run_session m cwd) then 1 else 0.

End Suite.

(** [subprocess.run([sys.executable, "-m", "pytest", "test_parser.py"],
    cwd=cwd)]: the report pytest prints is left abstract. *)
Definition pytest_process `{Pandas} `{ParserModule} (cwd : path) (report : fs -> pystr) : Agent.TestProcess :=
  fun _ m => Ok (Agent.mk_completed (exit_code m cwd) (report m) []).

(** The frame the tests see of a DataFrame of the committed parser. *)
Definition frame_of_df `{IciciParser.PyFloat} (df : IciciParser.DataFrame) : frame :=
  mk_frame (IciciParser.df_columns df) (length (IciciParser.df_rows df), length (IciciParser.df_columns df)).

(** ** A setting for the scenario *)

(** A pandas that reads nothing and a module that loads nothing: the
    scenario below never reaches them. *)
Definition stub_pandas : Pandas :=
  {| read_expected := fun _ => Raise (mk_exc OtherException []); assert_frame_equal := fun _ _ => Some (lit "DataFrame are different") |}.
Definition stub_module : ParserModule :=
  {| load_module := fun _ => Raise (mk_exc OtherException []); call_parse := fun _ _ => Ok None |}.

(** The working directory holds the test file and the SBI sample CSV,
    and no ICICI parser. *)
Definition sbi_fs : fs :=
  <[Agent.ex_cwd ++ [lit "test_parser.py"] := File (lit "import pytest")]>
  (<[Agent.ex_cwd ++ [lit "data"; lit "sbi"; lit "sbi_sample.csv"] :=
     File (lit "Date,Description,Debit Amt,Credit Amt,Balance" ++ newline)]>
  (<[Agent.ex_cwd ++ [lit "data"; lit "sbi"] := Dir]> (<[Agent.ex_cwd ++ [lit "data"] := Dir]>
  (<[Agent.ex_cwd := Dir]> {[ [] := Dir ]})))).

(** A pandas and a module under which the committed files pass, and a
    working directory holding them. *)
Definition sample_frame : frame := mk_frame expected_cols (1, 5).
Definition pass_pandas : Pandas :=
  {| read_expected := fun _ => Ok sample_frame; assert_frame_equal := fun a b =>
       if bool_decide (a = Some b) then None else Some (lit "DataFrame are different") |}.
Definition pass_module : ParserModule :=
  {| load_module := fun _ => Ok tt; call_parse := fun _ _ => Ok (Some sample_frame) |}.
Definition icici_fs : fs :=
  <[Agent.ex_cwd ++ [lit "test_parser.py"] := File (lit "import pytest")]>
  (<[Agent.ex_cwd ++ [lit "custom_parsers"; lit "icici_parser.py"] := File (lit "def parse(pdf_path): ...")]>
  (<[Agent.ex_cwd ++ [lit "custom_parsers"] := Dir]>
  (<[Agent.ex_cwd ++ [lit "data"; lit "icici"; lit "icici_sample.pdf"] := File (lit "%PDF")]>
  Agent.ex_fs))).

(** ** Paths *)

Lemma parser_file_eq cwd : parser_file cwd = cwd ++ [lit "custom_parsers"; lit "icici_parser.py"].
Proof. reflexivity. Qed.

Lemma agent_parser_path_eq cwd target n :
  plain_component (target ++ lit "_parser.py") = true ->
  Agent.parser_path (Agent.initial_state cwd target n) = cwd ++ [lit "custom_parsers"; target ++ lit "_parser.py"].
Proof.
  intros Hp. cbn [Agent.parser_path Agent.initial_state].
  rewrite path_div_plain by done. rewrite (path_div_plain cwd) by (vm_compute; reflexivity).
  by rewrite <- app_assoc.
Qed.

(** For another bank, the test suite's parser file is neither the
    agent's parser file nor on the way to it. *)
Lemma other_bank_parser_file cwd target n :
  target <> lit "icici" -> plain_component (target ++ lit "_parser.py") = true ->
  let pp := Agent.parser_path (Agent.initial_state cwd target n) in
  parser_file cwd <> pp /\ ~ parser_file cwd `prefix_of` parent pp.
Proof.
  intros Hne Hp pp. unfold pp. rewrite agent_parser_path_eq, parser_file_eq by done. split.
  - intros Heq. apply app_inv_head in Heq. injection Heq as Heq.
    change (lit "icici" ++ lit "_parser.py" = target ++ lit "_parser.py") in Heq.
    apply (app_inv_tail (lit "_parser.py")) in Heq. by apply Hne.
  - replace (parent (cwd ++ [lit "custom_parsers"; target ++ lit "_parser.py"])) with (cwd ++ [lit "custom_parsers"])
      by (change (cwd ++ [?a; ?b]) with (cwd ++ [a] ++ [b]); by rewrite app_assoc, parent_snoc).
    intros Hpre%prefix_length.
    rewrite !length_app in Hpre. cbn in Hpre. lia.
Qed.

(** C6: the suite always loads custom_parsers/icici_parser.py: the file the
    agent writes for a bank is the file the tests load exactly when the
    bank is "icici". *)
Theorem test_targets_icici_only cwd target n :
  plain_component (target ++ lit "_parser.py") = true ->
  Agent.parser_path (Agent.initial_state cwd target n) = parser_file cwd <-> target = lit "icici".
Proof.
  intros Hp. rewrite parser_file_eq, agent_parser_path_eq by done. split; [|intros ->; reflexivity].
  intros Heq. apply app_inv_head in Heq. injection Heq as Heq.
  change (target ++ lit "_parser.py" = lit "icici" ++ lit "_parser.py") in Heq.
  by apply (app_inv_tail (lit "_parser.py")) in Heq.
Qed.

(** ** The exit status *)

Section Exit.
Context `{Pandas} `{ParserModule}.

Lemma exit_code_missing_parser m cwd :
  exists_path m (test_file cwd) = true -> exists_path m (parser_file cwd) = false -> exit_code m cwd = 0%Z.
Proof. intros Ht Hp. unfold exit_code, run_session. by rewrite Ht, Hp. Qed.

(** C26: pytest exits with status 0 only when both tests passed, or when
    the parser file is missing and both were skipped: with the parser
    present, status 0 means the module loaded, [parse] returned a frame
    with the contract columns and the shape of the reference CSV, and the
    frames are equal. *)
Theorem exit0_sound m cwd :
  exists_path m (parser_file cwd) = true -> exit_code m cwd = 0%Z ->
  exists code expected df,
    read_file m (parser_file cwd) = Ok code /\ load_module code = Ok tt /\
    (read_file m (csv_file cwd) ≫= read_expected) = Ok expected /\
    call_parse code (pdf_file cwd) = Ok (Some df) /\
    columns df = expected_cols /\ shape df = shape expected /\ assert_frame_equal (Some df) expected = None.
Proof.
  intros Hp. unfold exit_code, run_session. rewrite Hp. cbn [negb].
  destruct (exists_path m (test_file cwd)); cbn [negb]; [|discriminate].
  destruct (read_file m (parser_file cwd)) as [code|e] eqn:Hr; cbn [mbind result_bind]; [|done].
  destruct (load_module code) as [[]|e] eqn:Hl; cbn [mbind result_bind mret result_ret]; [|done].
  destruct (exists_path m (pdf_file cwd)), (exists_path m (csv_file cwd)); cbn [negb]; try done.
  destruct (read_file m (csv_file cwd) ≫= read_expected) as [expected|e] eqn:He; [|done].
  unfold test_parser_contract, test_exact_match.
  destruct (call_parse code (pdf_file cwd)) as [[df|]|e] eqn:Hc; cbn; try done.
  case_decide as Hcol; case_decide as Hsh; destruct (assert_frame_equal (Some df) expected) eqn:Hf; cbn; try done.
  intros _. exists code, expected, df. done.
Qed.

End Exit.

(** C17: the columns the prompt of [Agent.generate_code] requires are the
    columns [test_parser_contract] checks, written as the test prints them
    ([repr] of the list): for any bank and any feedback, the prompt that
    asks for a parser names exactly the list the test compares against,
    and it carries the feedback. *)
Theorem prompt_matches_contract_columns target fb :
  contains (repr_list expected_cols) (Prompt.build_prompt target fb) = true /\
  contains (Prompt.py_str_opt fb) (Prompt.build_prompt target fb) = true.
Proof.
  replace (repr_list expected_cols) with Prompt.columns_literal by (vm_compute; reflexivity).
  apply Prompt.build_prompt_contents.
Qed.

(** C5: with the parser file missing, the test node of the agent records
    success: pytest skips both tests and exits with status 0. *)
Theorem missing_parser_passes `{Pandas} `{ParserModule} cwd report s w :
  exists_path (Agent.w_fs w) (test_file cwd) = true -> exists_path (Agent.w_fs w) (parser_file cwd) = false ->
  @Agent.run_tests_node (pytest_process cwd report) s w =
  (Agent.tick_test w (Ok (Agent.mk_completed 0 (report (Agent.w_fs w)) [])),
   Ok (Agent.set_task_complete (Agent.set_test_results s (Some Agent.passed_msg)) true)).
Proof.
  intros Ht Hp. rewrite Agent.run_tests_node_run. cbv [Agent.run_pytest pytest_process].
  rewrite exit_code_missing_parser by done. reflexivity.
Qed.

(** ** The committed parser under the contract test *)

(** C27: the committed parser passes [test_parser_contract] exactly when at
    least one data row converts and the reference CSV has as many rows
    as converted and five columns. *)
Theorem committed_parser_contract `{Pandas} `{IciciParser.PyFloat} pages expected :
  test_parser_contract (option_map frame_of_df <$> IciciParser.parse (Ok pages)) expected = Passed <->
  (exists r, r ∈ concat (map IciciParser.data_rows pages) /\ length r = 5 /\
             is_ok (IciciParser.process_row r) = true) /\
  shape expected = (length (IciciParser.ok_records (concat (map IciciParser.data_rows pages))), 5).
Proof.
  rewrite IciciParser.parse_ok, <- IciciParser.ok_records_nonempty.
  cbv [fmap result_fmap option_map test_parser_contract frame_of_df IciciParser.df_of_records].
  cbn [IciciParser.df_columns IciciParser.df_rows columns shape].
  destruct (list_truthy _).
  - rewrite bool_decide_eq_true_2 by reflexivity. case_bool_decide as Hs.
    + split; [intros _; split; [done | by rewrite <- Hs] | done].
    + split; [discriminate|]. intros [_ Hx]. exfalso. apply Hs. rewrite Hx. reflexivity.
  - rewrite bool_decide_eq_false_2 by discriminate. split; [discriminate | by intros [? _]].
Qed.

(** C28: when no data row of the PDF converts, the committed parser's
    DataFrame has no columns at all, and [test_parser_contract] fails
    with the column message naming the contract columns and the empty
    list, not with a shape message about an empty result. *)
Theorem committed_parser_no_rows `{Pandas} `{IciciParser.PyFloat} pages expected :
  IciciParser.ok_records (concat (map IciciParser.data_rows pages)) = [] ->
  test_parser_contract (option_map frame_of_df <$> IciciParser.parse (Ok pages)) expected =
  Failed (lit "Column mismatch: Expected ['Date', 'Description', 'Debit Amt', 'Credit Amt', 'Balance'], but the parser produced []. Ensure the parser does not invent extra columns.").
Proof. intros Hnone. rewrite IciciParser.parse_ok, Hnone. reflexivity. Qed.

(** C7: asked for any bank other than ICICI, in a ready directory with
    the test file and no ICICI parser, and with a model that always
    answers with code, [run] with this test suite as its pytest writes
    the new parser, sees pytest skip every test and exit with status 0,
    and prints success after one cycle, for a parser no test has run. *)
Theorem run_other_bank_false_success `{Pandas} `{ParserModule} `{Agent.GenAI} report cwd target m fs0 :
  (forall n prompt, exists text c,
     Agent.generate_content n prompt = Ok text /\ Extract.extract_code text = Ok (Some c) /\ c <> []) ->
  target <> lit "icici" -> plain_component (target ++ lit "_parser.py") = true ->
  Run.ready (Agent.initial_state cwd target m) fs0 ->
  exists_path fs0 (test_file cwd) = true -> exists_path fs0 (parser_file cwd) = false ->
  @Run.run _ (pytest_process cwd report) cwd target m (Agent.initial_world fs0) =
  ([Run.OStarting target; Run.OPlanning target; Run.OGenerating 1; Run.ORunningTests;
    Run.OSuccess (Agent.parser_path (Agent.initial_state cwd target m))], Ok tt).
Proof.
  intros Hmodel Hne Hplain Hr Ht Hp. destruct (other_bank_parser_file cwd target m Hne Hplain) as [Hpf Hpre].
  unfold Run.run. change Run.recursion_limit with (S 24).
  rewrite (Run.invoke_step _ Agent.Plan _ _ _ _ (Agent.plan_node_run _ _)). cbn [Agent.next_node].
  match goal with |- context [Run.invoke 24 (Some Agent.GenerateCode) ?s1 _] =>
    destruct (@Run.generate_step _ (pytest_process cwd report) Hmodel 23 s1 (Agent.initial_world fs0) Hr)
      as (c & w1 & _ & Ht1 & Hfs & ->) end.
  rewrite (Run.invoke_step _ Agent.RunTests _ _ _ _ (Agent.run_tests_node_run _ _)).
  cbv [Agent.run_pytest pytest_process]. rewrite exit_code_missing_parser.
  - cbn [Agent.tests_update]. rewrite decide_True by done. cbn [Agent.next_node].
    unfold Agent.should_continue_fixing. cbn [Agent.task_complete Agent.set_task_complete].
    rewrite Run.invoke_end. reflexivity.
  - rewrite Hfs. by apply store_exists_kept.
  - rewrite Hfs. unfold exists_path. rewrite store_lookup_other by done. exact Hp.
Qed.

(** Scenario E: asked for an SBI parser in a directory with no ICICI
    parser, the agent writes custom_parsers/sbi_parser.py, pytest skips
    every test and exits with status 0, and the run ends after one cycle
    reporting success for a parser no test has run. *)
Example scenario_E :
  match @Agent.graph_run Agent.model_codes (@pytest_process stub_pandas stub_module Agent.ex_cwd (fun _ => []))
          9 (Some Agent.Plan) (Agent.initial_state Agent.ex_cwd (lit "sbi") 3) (Agent.initial_world sbi_fs) with
  | Some (Agent.Finished s w) =>
      Agent.task_complete s = true /\ Agent.attempt_count s = 1%Z /\ Agent.w_test_runs w = 1 /\
      exists_path (Agent.w_fs w) (Agent.ex_cwd ++ [lit "custom_parsers"; lit "sbi_parser.py"]) = true /\
      exists_path (Agent.w_fs w) (parser_file Agent.ex_cwd) = false
  | _ => False
  end.
Proof. vm_compute. split_and!; reflexivity. Qed.

(** ** Witnesses *)

Lemma test_targets_icici_only_witness :
  plain_component (lit "sbi" ++ lit "_parser.py") = true /\
  (Agent.parser_path (Agent.initial_state Agent.ex_cwd (lit "sbi") 3) = parser_file Agent.ex_cwd <->
   lit "sbi" = lit "icici").
Proof.
  assert (Hp : plain_component (lit "sbi" ++ lit "_parser.py") = true) by (vm_compute; reflexivity).
  split; [exact Hp | exact (test_targets_icici_only _ _ _ Hp)].
Defined.

Lemma missing_parser_passes_witness :
  let w := Agent.initial_world sbi_fs in
  exists_path (Agent.w_fs w) (test_file Agent.ex_cwd) = true /\
  exists_path (Agent.w_fs w) (parser_file Agent.ex_cwd) = false /\
  @Agent.run_tests_node (@pytest_process stub_pandas stub_module Agent.ex_cwd (fun _ => [])) Agent.ex_state w =
  (Agent.tick_test w (Ok (Agent.mk_completed 0 [] [])),
   Ok (Agent.set_task_complete (Agent.set_test_results Agent.ex_state (Some Agent.passed_msg)) true)).
Proof.
  intros w.
  assert (Ht : exists_path (Agent.w_fs w) (test_file Agent.ex_cwd) = true) by (vm_compute; reflexivity).
  assert (Hp : exists_path (Agent.w_fs w) (parser_file Agent.ex_cwd) = false) by (vm_compute; reflexivity).
  split_and!; [exact Ht | exact Hp |].
  exact (@missing_parser_passes stub_pandas stub_module Agent.ex_cwd (fun _ => []) Agent.ex_state w Ht Hp).
Defined.

Lemma exit0_sound_witness :
  exists_path icici_fs (parser_file Agent.ex_cwd) = true /\
  @exit_code pass_pandas pass_module icici_fs Agent.ex_cwd = 0%Z /\
  exists code expected df,
    read_file icici_fs (parser_file Agent.ex_cwd) = Ok code /\ @load_module pass_module code = Ok tt /\
    (read_file icici_fs (csv_file Agent.ex_cwd) ≫= @read_expected pass_pandas) = Ok expected /\
    @call_parse pass_module code (pdf_file Agent.ex_cwd) = Ok (Some df) /\
    columns df = expected_cols /\ shape df = shape expected /\ @assert_frame_equal pass_pandas (Some df) expected = None.
Proof.
  assert (Hp : exists_path icici_fs (parser_file Agent.ex_cwd) = true) by (vm_compute; reflexivity).
  assert (He : @exit_code pass_pandas pass_module icici_fs Agent.ex_cwd = 0%Z) by (vm_compute; reflexivity).
  split_and!; [exact Hp | exact He | exact (@exit0_sound pass_pandas pass_module _ _ Hp He)].
Defined.

Lemma committed_parser_no_rows_witness :
  let pages := [[[IciciParser.ex_header; IciciParser.ex_bad_row]]] in
  @IciciParser.ok_records IciciParser.decimal_py_float (concat (map IciciParser.data_rows pages)) = [] /\
  @test_parser_contract (option_map frame_of_df <$> @IciciParser.parse IciciParser.decimal_py_float (Ok pages))
    sample_frame =
  Failed (lit "Column mismatch: Expected ['Date', 'Description', 'Debit Amt', 'Credit Amt', 'Balance'], but the parser produced []. Ensure the parser does not invent extra columns.").
Proof.
  intros pages.
  assert (Hn : @IciciParser.ok_records IciciParser.decimal_py_float (concat (map IciciParser.data_rows pages)) = [])
    by (vm_compute; reflexivity).
  split; [exact Hn | exact (@committed_parser_no_rows stub_pandas IciciParser.decimal_py_float pages sample_frame Hn)].
Defined.

Lemma run_other_bank_false_success_witness :
  @Run.run Agent.model_codes (@pytest_process stub_pandas stub_module Agent.ex_cwd (fun _ => []))
    Agent.ex_cwd (lit "sbi") 3 (Agent.initial_world sbi_fs) =
  ([Run.OStarting (lit "sbi"); Run.OPlanning (lit "sbi"); Run.OGenerating 1; Run.ORunningTests;
    Run.OSuccess (Agent.parser_path (Agent.initial_state Agent.ex_cwd (lit "sbi") 3))], Ok tt).
Proof.
  apply (@run_other_bank_false_success stub_pandas stub_module Agent.model_codes).
  - intros n p. exists Agent.ex_reply, Agent.ex_code.
    split_and!; [reflexivity | vm_compute; reflexivity | discriminate].
  - cbv. congruence.
  - vm_compute. reflexivity.
  - apply Run.readyb_spec. vm_compute. reflexivity.
  - vm_compute. reflexivity.
  - vm_compute. reflexivity.
Defined.

End TestSuite.
